(** * Order intake of the Herman Perfume backend (src/server.js)

    A shallow embedding of the order routes of [server.js]: the inline
    validation and normalisation of [POST /api/orders], the order schema
    with its [pre('save')] hook, the partial update of
    [PUT /api/orders/:id] and the two notification dispatchers; then the
    routes that read orders (by id, by order number, page by page), the
    manual confirmation, the debug route, and the product data that the
    product routes build from a form.

    Conventions of the embedding.
    - A request body is a JSON value ([JsVal]); objects are finite maps
      from keys to values, a missing key reads as [JUndefined].
    - JavaScript strings are Rocq strings, one character per code unit
      (code units up to 255, which leaves out the white space beyond
      U+00A0); numbers are rationals or [JNaN] (the infinities are left
      out).
    - The id in the path of [PUT /api/orders/:id] is a well-formed id.
    - A handler runs in the [Completion] monad: it goes on ([Normal]),
      answers early ([Return], the source's [return res.status(..).json(..)])
      or throws ([Throw]); the handler's [catch] turns a throw into a
      response.
    - Everything the handlers take from their environment (clock, random
      draw, mail transport, the coercions of the JavaScript runtime and of
      the ODM on values that are not strings or numbers) is a field of
      [World]. *)

From Stdlib Require Import Ascii String QArith Qround ZArith Sorted Lia.
From stdpp Require Import gmap strings list.

#[local] Set Warnings "-register-all".
#[local] Open Scope string_scope.

(** ** JavaScript values *)

Inductive JsVal : Type :=
  | JUndefined
  | JNull
  | JBool (b : bool)
  | JNum (q : Q)
  | JNaN
  | JStr (s : string)
  | JDate (t : Z)
  | JArr (l : list JsVal)
  | JObj (m : gmap string JsVal).

(** [!!v] of the source is [negb (truthy v)]. *)
Definition truthy (v : JsVal) : bool :=
  match v with
  | JUndefined | JNull | JNaN => false
  | JBool b => b
  | JNum q => negb (Qeq_bool q 0)
  | JStr s => negb (String.eqb s "")
  | JDate _ | JArr _ | JObj _ => true
  end.

Definition falsy (v : JsVal) : bool := negb (truthy v).

(** [typeof v === 'number'] *)
Definition isNumber (v : JsVal) : bool :=
  match v with JNum _ | JNaN => true | _ => false end.

(** [Array.isArray(v)] *)
Definition isArray (v : JsVal) : bool :=
  match v with JArr _ => true | _ => false end.

(** The elements of an array value. *)
Definition itemsOf (v : JsVal) : list JsVal :=
  match v with JArr l => l | _ => [] end.

(** [v === 0] *)
Definition isZero (v : JsVal) : bool :=
  match v with JNum q => Qeq_bool q 0 | _ => false end.

(** [v <= 0] for a value already known to be a number. *)
Definition leZero (v : JsVal) : bool :=
  match v with JNum q => Qle_bool q 0 | _ => false end.

(** [v === s] for a string literal [s]. *)
Definition isStr (v : JsVal) (s : string) : bool :=
  match v with JStr s' => String.eqb s' s | _ => false end.

(** [list.includes(v)] for a list of string literals. *)
Definition includes (l : list string) (v : JsVal) : bool :=
  existsb (isStr v) l.

(** ** Strings *)

(** White space and line terminators of ECMAScript among the code units
    up to 255: TAB, LF, VT, FF, CR, SP and NBSP. *)
Definition isWhiteSpace (c : ascii) : bool :=
  let n := nat_of_ascii c in
  (Nat.leb 9 n && Nat.leb n 13) || Nat.eqb n 32 || Nat.eqb n 160.

Fixpoint trimStart (s : string) : string :=
  match s with
  | EmptyString => EmptyString
  | String c s' => if isWhiteSpace c then trimStart s' else s
  end.

Fixpoint trimEnd (s : string) : string :=
  match s with
  | EmptyString => EmptyString
  | String c s' =>
      let r := trimEnd s' in
      if isWhiteSpace c && String.eqb r "" then EmptyString else String c r
  end.

(** [String.prototype.trim] *)
Definition trim (s : string) : string := trimEnd (trimStart s).

Fixpoint allWhiteSpace (s : string) : bool :=
  match s with
  | EmptyString => true
  | String c s' => isWhiteSpace c && allWhiteSpace s'
  end.

Fixpoint repeatChar (n : nat) (c : ascii) : string :=
  match n with O => EmptyString | S k => String c (repeatChar k c) end.

(** [s.padStart(n, c)] for a one-character filler. *)
Definition padStart (n : nat) (c : ascii) (s : string) : string :=
  repeatChar (n - String.length s) c ++ s.

Fixpoint dropString (n : nat) (s : string) : string :=
  match n, s with
  | O, _ => s
  | S k, EmptyString => EmptyString
  | S k, String _ s' => dropString k s'
  end.

(** [s.slice(-n)]: the last [n] code units, the whole string when it is
    shorter. *)
Definition sliceLast (n : nat) (s : string) : string :=
  dropString (String.length s - n) s.

Definition digitChar (d : nat) : ascii := ascii_of_nat (48 + d).

Definition isDigit (c : ascii) : bool :=
  let n := nat_of_ascii c in Nat.leb 48 n && Nat.leb n 57.

Fixpoint allDigits (s : string) : bool :=
  match s with
  | EmptyString => true
  | String c s' => isDigit c && allDigits s'
  end.

(** Decimal digits of a natural number, most significant first. The fuel
    bounds the number of digits; [natToString] supplies enough of it. *)
Fixpoint digitsFuel (fuel n : nat) (acc : string) : string :=
  match fuel with
  | O => acc
  | S f =>
      let acc' := String (digitChar (n mod 10)) acc in
      if Nat.ltb n 10 then acc' else digitsFuel f (n / 10) acc'
  end.

Definition natToString (n : nat) : string := digitsFuel (S (Nat.log2 n)) n "".

(** [String(z)] / [z.toString()] for an integer. *)
Definition intToString (z : Z) : string :=
  match z with
  | Zneg p => String "-" (natToString (Pos.to_nat p))
  | _ => natToString (Z.to_nat z)
  end.

(** ** Order documents *)

(** A path of a document: unset (the stored document has no such field),
    explicitly [null], or holding a value. *)
Inductive Field (A : Type) : Type :=
  | Unset
  | Null
  | Val (a : A).
Arguments Unset {A}.
Arguments Null {A}.
Arguments Val {A} a.

Definition ObjectId := N.

Record Customer := mkCustomer {
  firstName : Field string;
  lastName : Field string;
  phone : Field string;
  email : Field string }.

Record Delivery := mkDelivery {
  address : Field string;
  city : Field string;
  postalCode : Field string }.

(** [payment_status] is the path [payment.status]. *)
Record Payment := mkPayment {
  method : Field string;
  transactionId : Field string;
  payment_status : Field string }.

Record Item := mkItem {
  productId : Field string;
  name : Field string;
  price : Field Q;
  quantity : Field Q;
  category : Field string }.

Record Totals := mkTotals {
  subtotal : Field Q;
  deliveryCharge : Field Q;
  total : Field Q }.

Record Order := mkOrder {
  _id : ObjectId;
  orderNumber : Field string;
  customer : Customer;
  delivery : Delivery;
  payment : Payment;
  items : list Item;
  totals : Totals;
  status : Field string;
  orderNotes : Field string;
  adminNotes : Field string;
  createdAt : Field Z;
  updatedAt : Field Z }.

(** The orders collection, oldest first. *)
Definition Store := list Order.

(** Truthiness of a string path of a document. *)
Definition fieldTruthy (f : Field string) : bool :=
  match f with Val s => negb (String.eqb s "") | _ => false end.

(** A string path inside a template literal. *)
Definition showField (f : Field string) : string :=
  match f with Unset => "undefined" | Null => "null" | Val s => s end.

(** ** Exceptions, responses, completions *)

(** The errors the order routes can meet. [ValidationError] is the ODM's,
    with one [(path, message)] entry per failing path; its [name] is the
    one the handler of [POST /api/orders] tests for. *)
Inductive Exn :=
  | Error (msg : string)
  | TypeError (msg : string)
  | ValidationError (errors : list (string * string))
  | CastError (msg : string)
  | MongoServerError (msg : string).

Definition exnName (e : Exn) : string :=
  match e with
  | Error _ => "Error"
  | TypeError _ => "TypeError"
  | ValidationError _ => "ValidationError"
  | CastError _ => "CastError"
  | MongoServerError _ => "MongoServerError"
  end.

(** [error.errors], as [(key, message)] pairs. *)
Definition exnErrors (e : Exn) : list (string * string) :=
  match e with ValidationError errors => errors | _ => [] end.

Fixpoint joinErrors (l : list (string * string)) : string :=
  match l with
  | [] => ""
  | [(p, m)] => p ++ ": " ++ m
  | (p, m) :: rest => p ++ ": " ++ m ++ ", " ++ joinErrors rest
  end.

(** [error.message] *)
Definition exnMessage (e : Exn) : string :=
  match e with
  | Error m | TypeError m | CastError m | MongoServerError m => m
  | ValidationError errs => "Validation failed: " ++ joinErrors errs
  end.

(** Outcome of one notification channel: [{ success: true }] or
    [{ success: false, error }]. *)
Record ChannelOutcome := mkOutcome {
  success : bool;
  error : option string }.

(** [{ email, sms }]; [None] is the [null] a channel starts with. *)
Record NotificationResults := mkResults {
  r_email : option ChannelOutcome;
  r_sms : option ChannelOutcome }.

Inductive Body :=
  | ErrorBody (err : string)
  | ErrorDetails (err : string) (details : list (string * string))
  | OrderPlaced (message : string) (number : Field string) (order : Order)
  | OrderBody (order : Order).

Record Response := mkResponse {
  code : nat;
  body : Body }.

(** [res.status(c).json({ error })] *)
Definition reject (c : nat) (msg : string) : Response := mkResponse c (ErrorBody msg).

Inductive Completion (A : Type) : Type :=
  | Normal (a : A)
  | Return (r : Response)
  | Throw (e : Exn).
Arguments Normal {A} a.
Arguments Return {A} r.
Arguments Throw {A} e.

Definition bind {A B} (c : Completion A) (k : A -> Completion B) : Completion B :=
  match c with
  | Normal a => k a
  | Return r => Return r
  | Throw e => Throw e
  end.

Declare Scope js_scope.
Delimit Scope js_scope with js.
Notation "x <- c ;; k" := (bind c (fun x => k))
  (at level 100, c at next level, right associativity) : js_scope.
Notation "'when' b 'answer' r ;; k" :=
  (if b then Return r else k)
  (at level 100, b at next level, r at next level, right associativity) : js_scope.
#[local] Open Scope js_scope.

(** Short-circuit [||] over conditions whose evaluation may throw. *)
Definition orElse (a b : Completion bool) : Completion bool :=
  x <- a ;; if x then Normal true else b.
Infix "|||" := orElse (at level 50, left associativity) : js_scope.

(** Short-circuit [&&]. *)
Definition andAlso (a b : Completion bool) : Completion bool :=
  x <- a ;; if x then b else Normal false.
Infix "&&&" := andAlso (at level 40, left associativity) : js_scope.

Definition lengthValue (n : nat) : JsVal := JNum (inject_Z (Z.of_nat n)).

(** Property read [v.k] for the keys the routes use: own keys of an
    object, [length] of an array or of a string; reading from [undefined]
    or [null] throws. *)
Definition getProp (v : JsVal) (k : string) : Completion JsVal :=
  match v with
  | JUndefined =>
      Throw (TypeError ("Cannot read properties of undefined (reading '" ++ k ++ "')"))
  | JNull =>
      Throw (TypeError ("Cannot read properties of null (reading '" ++ k ++ "')"))
  | JObj m => Normal (default JUndefined (m !! k))
  | JArr l =>
      Normal (if String.eqb k "length" then lengthValue (length l) else JUndefined)
  | JStr s =>
      Normal (if String.eqb k "length" then lengthValue (String.length s) else JUndefined)
  | JBool _ | JNum _ | JNaN | JDate _ => Normal JUndefined
  end.

Definition nullish (v : JsVal) : bool :=
  match v with JUndefined | JNull => true | _ => false end.

(** The value of [v.k] where the read does not throw. *)
Definition read (v : JsVal) (k : string) : JsVal :=
  match getProp v k with Normal x => x | _ => JUndefined end.

(** [v.k1.k2...] *)
Fixpoint getPath (v : JsVal) (ks : list string) : Completion JsVal :=
  match ks with
  | [] => Normal v
  | k :: ks' => x <- getProp v k ;; getPath x ks'
  end.

(** [!v.k1.k2...] *)
Definition missing (v : JsVal) (ks : list string) : Completion bool :=
  x <- getPath v ks ;; Normal (falsy x).

(** [v.trim()]: only a string has the method. *)
Definition callTrim (v : JsVal) : Completion JsVal :=
  match v with
  | JStr s => Normal (JStr (trim s))
  | JUndefined => Throw (TypeError "Cannot read properties of undefined (reading 'trim')")
  | JNull => Throw (TypeError "Cannot read properties of null (reading 'trim')")
  | _ => Throw (TypeError "trim is not a function")
  end.

(** [v ? v.trim() : alt] *)
Definition trimOr (v alt : JsVal) : Completion JsVal :=
  if truthy v then callTrim v else Normal alt.

(** ** The environment of a request *)

(** Calendar fields of [new Date()]: [getFullYear()], [getMonth()]
    (zero-based) and [getDate()]. *)
Record Date := mkDate {
  fullYear : Z;
  month : nat;
  dayOfMonth : nat }.

Record Mail := mkMail {
  mail_to : string;
  mail_subject : string }.

Record World := mkWorld {
  (** [Date.now()] and the time of [new Date()] in a handler *)
  clock : Z;
  (** calendar fields of [new Date()] *)
  today : Date;
  (** [Math.floor(Math.random() * 1000)] *)
  random1000 : nat;
  (** the [_id] drawn by [new Order(..)] *)
  newObjectId : ObjectId;
  (** [transporter.sendMail]: [None] when the mail is accepted, [Some m]
      when it rejects with [error.message = m] *)
  sendMail : Mail -> option string;
  (** [Number(v)] on strings, arrays and objects; [None] is [NaN] *)
  toNumberOther : JsVal -> Exn + option Q;
  (** [String(v)] on values that are neither strings nor nullish *)
  toStringOther : JsVal -> Exn + string;
  (** a number inside a template literal *)
  numberToString : Q -> string;
  (** the ODM's cast to String of such values; [None] is a cast failure *)
  castStringOther : JsVal -> option string;
  (** the ODM's cast to Number of values that are not numbers *)
  castNumberOther : JsVal -> option Q;
  (** the ODM's message for the failed cast of a value at a path *)
  castMessage : string -> JsVal -> string;
  (** text of the storage layer's duplicate-key error *)
  duplicateKeyMessage : string;
  (** [Date.now()] in the [pre('save')] hook, a later reading of the
      clock than the [new Date()] of the handler *)
  saveClock : Z;
  (** [String(v)] of the member that [Object.prototype] has under a name *)
  inheritedText : string -> string }.

Definition lift {A} (x : Exn + A) : Completion A :=
  match x with inl e => Throw e | inr a => Normal a end.

(** [Number(v)] *)
Definition toNumber (w : World) (v : JsVal) : Completion JsVal :=
  match v with
  | JUndefined | JNaN => Normal JNaN
  | JNull => Normal (JNum 0)
  | JBool b => Normal (JNum (if b then 1 else 0))
  | JNum q => Normal (JNum q)
  | JDate t => Normal (JNum (inject_Z t))
  | JStr _ | JArr _ | JObj _ =>
      o <- lift (toNumberOther w v) ;;
      Normal (match o with Some q => JNum q | None => JNaN end)
  end.

(** [String(v)], also the conversion of a computed property key. *)
Definition toString (w : World) (v : JsVal) : Completion string :=
  match v with
  | JStr s => Normal s
  | JUndefined => Normal "undefined"
  | JNull => Normal "null"
  | _ => lift (toStringOther w v)
  end.

(** [a || b] on values. *)
Definition orVal (a b : JsVal) : JsVal := if truthy a then a else b.

Fixpoint mapM {A B} (f : A -> Completion B) (l : list A) : Completion (list B) :=
  match l with
  | [] => Normal []
  | a :: rest => b <- f a ;; bs <- mapM f rest ;; Normal (b :: bs)
  end.

(** An object literal. *)
Definition obj (l : list (string * JsVal)) : gmap string JsVal := list_to_map l.

(** [if (!o.k) delete o.k] *)
Definition dropIfFalsy (k : string) (o : gmap string JsVal) : gmap string JsVal :=
  if falsy (default JUndefined (o !! k)) then delete k o else o.

(** ** POST /api/orders: inline validation and normalisation *)

(** The loop over [orderData.items] of the handler. *)
Fixpoint validateItems (l : list JsVal) : Completion unit :=
  match l with
  | [] => Normal tt
  | item :: rest =>
      c <- missing item ["productId"] ||| missing item ["name"]
           ||| missing item ["price"] ||| missing item ["quantity"] ;;
      when c answer reject 400 "Each item must have productId, name, price, and quantity" ;;
      p <- getProp item "price" ;;
      when negb (isNumber p) || leZero p
        answer reject 400 "Item price must be a positive number" ;;
      q <- getProp item "quantity" ;;
      when negb (isNumber q) || leZero q
        answer reject 400 "Item quantity must be a positive number" ;;
      validateItems rest
  end.

(** The checks of the handler, block by block in the order of the
    source. *)

(** [// Validate required fields] *)
Definition validateRequired (orderData : JsVal) : Completion unit :=
  c <- missing orderData ["customer"] ||| missing orderData ["delivery"]
       ||| missing orderData ["payment"] ||| missing orderData ["items"]
       ||| (n <- getPath orderData ["items"; "length"] ;; Normal (isZero n)) ;;
  when c answer reject 400 "Missing required order information" ;;
  Normal tt.

(** [// Validate customer data] *)
Definition validateCustomer (orderData : JsVal) : Completion unit :=
  c <- missing orderData ["customer"; "firstName"]
       ||| missing orderData ["customer"; "lastName"]
       ||| missing orderData ["customer"; "phone"] ;;
  when c answer reject 400 "Customer name and phone are required" ;;
  Normal tt.

(** [// Validate delivery data] *)
Definition validateDelivery (orderData : JsVal) : Completion unit :=
  c <- missing orderData ["delivery"; "address"]
       ||| missing orderData ["delivery"; "city"] ;;
  when c answer reject 400 "Delivery address and city are required" ;;
  Normal tt.

(** [// Validate payment data] and
    [// If bkash payment, transaction ID is required] *)
Definition validatePayment (orderData : JsVal) : Completion unit :=
  c <- missing orderData ["payment"; "method"]
       ||| (m <- getPath orderData ["payment"; "method"] ;;
            Normal (negb (includes ["bkash"; "cod"] m))) ;;
  when c answer reject 400 "Valid payment method is required (bkash or cod)" ;;
  c <- (m <- getPath orderData ["payment"; "method"] ;; Normal (isStr m "bkash"))
       &&& missing orderData ["payment"; "transactionId"] ;;
  when c answer reject 400 "Transaction ID is required for bKash payment" ;;
  Normal tt.

(** [// Validate items] and [// Validate each item] *)
Definition validateItemList (orderData : JsVal) : Completion unit :=
  c <- (i <- getProp orderData "items" ;; Normal (negb (isArray i)))
       ||| (n <- getPath orderData ["items"; "length"] ;; Normal (isZero n)) ;;
  when c answer reject 400 "Order must contain at least one item" ;;
  i <- getProp orderData "items" ;;
  validateItems (itemsOf i).

(** [// Validate totals] *)
Definition validateTotals (orderData : JsVal) : Completion unit :=
  c <- missing orderData ["totals"]
       ||| (t <- getPath orderData ["totals"; "total"] ;; Normal (negb (isNumber t)))
       ||| (t <- getPath orderData ["totals"; "total"] ;; Normal (leZero t)) ;;
  when c answer reject 400 "Valid order total is required" ;;
  Normal tt.

Definition validateOrder (orderData : JsVal) : Completion unit :=
  _ <- validateRequired orderData ;;
  _ <- validateCustomer orderData ;;
  _ <- validateDelivery orderData ;;
  _ <- validatePayment orderData ;;
  _ <- validateItemList orderData ;;
  validateTotals orderData.

(** One element of [orderData.items.map(..)]. *)
Definition cleanItem (w : World) (item : JsVal) : Completion JsVal :=
  pid <- getProp item "productId" ;;
  id <- (if truthy pid then Normal pid else getProp item "id") ;;
  nm <- (n <- getProp item "name" ;; callTrim n) ;;
  pr <- (p <- getProp item "price" ;; toNumber w p) ;;
  qt <- (q <- getProp item "quantity" ;; toNumber w q) ;;
  ct <- getProp item "category" ;;
  Normal (JObj (obj [("productId", id); ("name", nm); ("price", pr);
                     ("quantity", qt); ("category", orVal ct (JStr "other"))])).

(** [Number(v) || 0] *)
Definition numberOrZero (w : World) (v : JsVal) : Completion JsVal :=
  n <- toNumber w v ;; Normal (orVal n (JNum 0)).

(** The object literal of [cleanOrderData] once its fields are
    evaluated, followed by the three conditional [delete]s. The
    [updatedAt] of the literal is replaced by the [pre('save')] hook
    before the document is stored or read. *)
Definition orderLiteral (w : World)
    (firstName lastName phone email address city postalCode method transactionId : JsVal)
    (items : list JsVal) (subtotal deliveryCharge total orderNotes : JsVal) : JsVal :=
  let customer := obj [("firstName", firstName); ("lastName", lastName);
                       ("phone", phone); ("email", email)] in
  let delivery := obj [("address", address); ("city", city);
                       ("postalCode", postalCode)] in
  let payment := obj [("method", method); ("transactionId", transactionId);
                      ("status", JStr "pending")] in
  let totals := obj [("subtotal", subtotal); ("deliveryCharge", deliveryCharge);
                     ("total", total)] in
  JObj (obj [
    ("customer", JObj (dropIfFalsy "email" customer));
    ("delivery", JObj (dropIfFalsy "postalCode" delivery));
    ("payment", JObj (dropIfFalsy "transactionId" payment));
    ("items", JArr items);
    ("totals", JObj totals);
    ("status", JStr "pending");
    ("orderNotes", orderNotes);
    ("adminNotes", JStr "");
    ("createdAt", JDate (clock w));
    ("updatedAt", JDate (clock w))]).

(** [// Prepare clean order data with all required fields] *)
Definition cleanOrderData (w : World) (orderData : JsVal) : Completion JsVal :=
  firstName <- (v <- getPath orderData ["customer"; "firstName"] ;; callTrim v) ;;
  lastName <- (v <- getPath orderData ["customer"; "lastName"] ;; callTrim v) ;;
  phone <- (v <- getPath orderData ["customer"; "phone"] ;; callTrim v) ;;
  email <- (v <- getPath orderData ["customer"; "email"] ;; trimOr v JUndefined) ;;
  address <- (v <- getPath orderData ["delivery"; "address"] ;; callTrim v) ;;
  city <- (v <- getPath orderData ["delivery"; "city"] ;; callTrim v) ;;
  postalCode <- (v <- getPath orderData ["delivery"; "postalCode"] ;; trimOr v JUndefined) ;;
  method <- getPath orderData ["payment"; "method"] ;;
  transactionId <- (v <- getPath orderData ["payment"; "transactionId"] ;; trimOr v JUndefined) ;;
  its <- (i <- getProp orderData "items" ;; mapM (cleanItem w) (itemsOf i)) ;;
  subtotal <- (v <- getPath orderData ["totals"; "subtotal"] ;; numberOrZero w v) ;;
  deliveryCharge <- (v <- getPath orderData ["totals"; "deliveryCharge"] ;; numberOrZero w v) ;;
  total <- (v <- getPath orderData ["totals"; "total"] ;; toNumber w v) ;;
  orderNotes <- (v <- getProp orderData "orderNotes" ;; trimOr v (JStr "")) ;;
  Normal (orderLiteral w firstName lastName phone email address city postalCode method
            transactionId its subtotal deliveryCharge total orderNotes).

(** ** The order schema: [new Order(..)], validation, [pre('save')] *)

(** Own key of an object, as the document constructor reads it. *)
Definition prop (v : JsVal) (k : string) : JsVal :=
  match v with JObj m => default JUndefined (m !! k) | _ => JUndefined end.

Definition castFailure (w : World) (path : string) (v : JsVal) : string * string :=
  (path, castMessage w path v).

(** A document under construction: the value cast so far and the paths
    whose cast failed. *)
Definition Casting (A : Type) : Type := A * list (string * string).

(** A path of type String, with its [trim] option and [default]. *)
Definition stringPath (w : World) (trimmed : bool) (dflt : Field string)
    (path : string) (v : JsVal) : Casting (Field string) :=
  let set s := Val (if trimmed then trim s else s) in
  match v with
  | JUndefined => (dflt, [])
  | JNull => (Null, [])
  | JStr s => (set s, [])
  | _ => match castStringOther w v with
         | Some s => (set s, [])
         | None => (Unset, [castFailure w path v])
         end
  end.

(** A path of type Number. *)
Definition numberPath (w : World) (path : string) (v : JsVal) : Casting (Field Q) :=
  match v with
  | JUndefined => (Unset, [])
  | JNull => (Null, [])
  | JNum q => (Val q, [])
  | _ => match castNumberOther w v with
         | Some q => (Val q, [])
         | None => (Unset, [castFailure w path v])
         end
  end.

(** A path of type Date with [default: Date.now]; a number is taken as a
    time value and truncated to an integer. *)
Definition datePath (w : World) (path : string) (v : JsVal) : Casting (Field Z) :=
  match v with
  | JUndefined => (Val (clock w), [])
  | JNull => (Null, [])
  | JDate t => (Val t, [])
  | JNum q => (Val (Z.quot (Qnum q) (Zpos (Qden q))), [])
  | _ => (Unset, [castFailure w path v])
  end.

Definition hydrateItem (w : World) (i : nat) (v : JsVal) : Casting Item :=
  let p k := "items." ++ natToString i ++ "." ++ k in
  let productId := stringPath w false Unset (p "productId") (prop v "productId") in
  let name := stringPath w true Unset (p "name") (prop v "name") in
  let price := numberPath w (p "price") (prop v "price") in
  let quantity := numberPath w (p "quantity") (prop v "quantity") in
  let category := stringPath w false (Val "other") (p "category") (prop v "category") in
  (mkItem (fst productId) (fst name) (fst price) (fst quantity) (fst category),
   concat [snd productId; snd name; snd price; snd quantity; snd category]).

Fixpoint hydrateItems (w : World) (i : nat) (l : list JsVal) : Casting (list Item) :=
  match l with
  | [] => ([], [])
  | v :: rest =>
      let it := hydrateItem w i v in
      let its := hydrateItems w (S i) rest in
      (fst it :: fst its, concat [snd it; snd its])
  end.

(** [new Order(data)]: every path of the schema is cast from the key of
    the same name; keys outside the schema (none here) are dropped. The
    [orderNumber] path is read like any other. *)
Definition hydrate (w : World) (data : JsVal) : Casting Order :=
  let c := prop data "customer" in
  let d := prop data "delivery" in
  let p := prop data "payment" in
  let t := prop data "totals" in
  let orderNumber := stringPath w false Unset "orderNumber" (prop data "orderNumber") in
  let firstName := stringPath w true Unset "customer.firstName" (prop c "firstName") in
  let lastName := stringPath w true Unset "customer.lastName" (prop c "lastName") in
  let phone := stringPath w true Unset "customer.phone" (prop c "phone") in
  let email := stringPath w true Unset "customer.email" (prop c "email") in
  let address := stringPath w true Unset "delivery.address" (prop d "address") in
  let city := stringPath w true Unset "delivery.city" (prop d "city") in
  let postalCode := stringPath w true Unset "delivery.postalCode" (prop d "postalCode") in
  let method := stringPath w false Unset "payment.method" (prop p "method") in
  let transactionId :=
    stringPath w true Unset "payment.transactionId" (prop p "transactionId") in
  let pstatus := stringPath w false (Val "pending") "payment.status" (prop p "status") in
  let its := hydrateItems w 0 (itemsOf (prop data "items")) in
  let subtotal := numberPath w "totals.subtotal" (prop t "subtotal") in
  let deliveryCharge := numberPath w "totals.deliveryCharge" (prop t "deliveryCharge") in
  let total := numberPath w "totals.total" (prop t "total") in
  let status := stringPath w false (Val "pending") "status" (prop data "status") in
  let orderNotes := stringPath w false (Val "") "orderNotes" (prop data "orderNotes") in
  let adminNotes := stringPath w false (Val "") "adminNotes" (prop data "adminNotes") in
  let createdAt := datePath w "createdAt" (prop data "createdAt") in
  let updatedAt := datePath w "updatedAt" (prop data "updatedAt") in
  (mkOrder (newObjectId w) (fst orderNumber)
     (mkCustomer (fst firstName) (fst lastName) (fst phone) (fst email))
     (mkDelivery (fst address) (fst city) (fst postalCode))
     (mkPayment (fst method) (fst transactionId) (fst pstatus))
     (fst its)
     (mkTotals (fst subtotal) (fst deliveryCharge) (fst total))
     (fst status) (fst orderNotes) (fst adminNotes) (fst createdAt) (fst updatedAt),
   concat [snd orderNumber; snd firstName; snd lastName; snd phone; snd email;
           snd address; snd city; snd postalCode; snd method; snd transactionId;
           snd pstatus; snd its; snd subtotal; snd deliveryCharge; snd total;
           snd status; snd orderNotes; snd adminNotes; snd createdAt; snd updatedAt]).

(** *** Validators of the schema *)

(** [required: [true, msg]] on a String path: unset, null and the empty
    string all fail. *)
Definition requiredString (path msg : string) (f : Field string) : list (string * string) :=
  if fieldTruthy f then [] else [(path, msg)].

(** [required] followed by [min: [m, minMsg]] on a Number path. *)
Definition requiredMin (path msg : string) (m : Q) (minMsg : string) (f : Field Q)
    : list (string * string) :=
  match f with
  | Val q => if Qle_bool m q then [] else [(path, minMsg)]
  | _ => [(path, msg)]
  end.

(** [enum] on a String path; an unset or null path passes. *)
Definition enumString (path : string) (values : list string) (msg : string -> string)
    (f : Field string) : list (string * string) :=
  match f with
  | Val s => if existsb (String.eqb s) values then [] else [(path, msg s)]
  | _ => []
  end.

Definition enumMessage (path value : string) : string :=
  "`" ++ value ++ "` is not a valid enum value for path `" ++ path ++ "`.".

Definition paymentMethods : list string := ["bkash"; "cod"].
Definition paymentStatuses : list string := ["pending"; "paid"; "failed"].
Definition orderStatuses : list string :=
  ["pending"; "confirmed"; "processing"; "shipped"; "delivered"; "cancelled"].

Definition validateItem (i : nat) (it : Item) : list (string * string) :=
  let p k := "items." ++ natToString i ++ "." ++ k in
  concat [
    requiredString (p "productId") "Product ID is required" (productId it);
    requiredString (p "name") "Product name is required" (name it);
    requiredMin (p "price") "Product price is required" 0 "Price cannot be negative" (price it);
    requiredMin (p "quantity") "Product quantity is required" 1 "Quantity must be at least 1"
      (quantity it)].

Fixpoint validateItemDocs (i : nat) (l : list Item) : list (string * string) :=
  match l with
  | [] => []
  | it :: rest => concat [validateItem i it; validateItemDocs (S i) rest]
  end.

(** The failing paths of a document, with the messages of [orderSchema]. *)
Definition validateDoc (o : Order) : list (string * string) :=
  concat [
    requiredString "customer.firstName" "First name is required" (firstName (customer o));
    requiredString "customer.lastName" "Last name is required" (lastName (customer o));
    requiredString "customer.phone" "Phone number is required" (phone (customer o));
    requiredString "delivery.address" "Address is required" (address (delivery o));
    requiredString "delivery.city" "City is required" (city (delivery o));
    requiredString "payment.method" "Payment method is required" (method (payment o));
    enumString "payment.method" paymentMethods
      (fun _ => "Payment method must be either bkash or cod") (method (payment o));
    enumString "payment.status" paymentStatuses (enumMessage "payment.status")
      (payment_status (payment o));
    validateItemDocs 0 (items o);
    requiredMin "totals.subtotal" "Subtotal is required" 0 "Subtotal cannot be negative"
      (subtotal (totals o));
    requiredMin "totals.deliveryCharge" "Delivery charge is required" 0
      "Delivery charge cannot be negative" (deliveryCharge (totals o));
    requiredMin "totals.total" "Total is required" 0 "Total cannot be negative"
      (total (totals o));
    enumString "status" orderStatuses (enumMessage "status") (status o)].

Definition setOrderNumber (n : Field string) (o : Order) : Order :=
  mkOrder (_id o) n (customer o) (delivery o) (payment o) (items o) (totals o)
    (status o) (orderNotes o) (adminNotes o) (createdAt o) (updatedAt o).

Definition setUpdatedAt (t : Field Z) (o : Order) : Order :=
  mkOrder (_id o) (orderNumber o) (customer o) (delivery o) (payment o) (items o)
    (totals o) (status o) (orderNotes o) (adminNotes o) (createdAt o) t.

Definition setStatus (s : Field string) (o : Order) : Order :=
  mkOrder (_id o) (orderNumber o) (customer o) (delivery o) (payment o) (items o)
    (totals o) s (orderNotes o) (adminNotes o) (createdAt o) (updatedAt o).

Definition setAdminNotes (s : Field string) (o : Order) : Order :=
  mkOrder (_id o) (orderNumber o) (customer o) (delivery o) (payment o) (items o)
    (totals o) (status o) (orderNotes o) s (createdAt o) (updatedAt o).

Definition setPaymentStatus (s : Field string) (o : Order) : Order :=
  mkOrder (_id o) (orderNumber o) (customer o) (delivery o)
    (mkPayment (method (payment o)) (transactionId (payment o)) s)
    (items o) (totals o) (status o) (orderNotes o) (adminNotes o)
    (createdAt o) (updatedAt o).

(** The template literal of the hook:
    [HM${year}${month}${day}${random}] with
    [year = getFullYear().toString().slice(-2)],
    [month = String(getMonth() + 1).padStart(2, '0')],
    [day = String(getDate()).padStart(2, '0')] and
    [random = Math.floor(Math.random() * 1000).toString().padStart(3, '0')]. *)
Definition generateOrderNumber (d : Date) (random : nat) : string :=
  let year := sliceLast 2 (intToString (fullYear d)) in
  let month := padStart 2 "0" (natToString (month d + 1)) in
  let day := padStart 2 "0" (natToString (dayOfMonth d)) in
  let random := padStart 3 "0" (natToString random) in
  "HM" ++ year ++ month ++ day ++ random.

(** [orderSchema.pre('save', ..)] *)
Definition preSave (w : World) (this : Order) : Order :=
  let this :=
    if negb (fieldTruthy (orderNumber this))
    then setOrderNumber (Val (generateOrderNumber (today w) (random1000 w))) this
    else this in
  setUpdatedAt (Val (saveClock w)) this.

(** Two paths hold the same indexed value. A sparse index skips the
    documents in which the path is unset. *)
Definition sameKey (a b : Field string) : bool :=
  match a, b with
  | Val x, Val y => String.eqb x y
  | Null, Null => true
  | _, _ => false
  end.

(** The insert is refused when the [_id] or the [orderNumber] (schema
    option [unique: true, sparse: true]) is already in the collection. *)
Definition duplicateKey (store : Store) (o : Order) : bool :=
  existsb (fun o' => N.eqb (_id o') (_id o) || sameKey (orderNumber o') (orderNumber o)) store.

(** The validators do not run on a path whose cast failed: its error is
    the cast's. *)
Definition validationErrors (doc : Casting Order) : list (string * string) :=
  let '(this, castErrors) := doc in
  (castErrors
   ++ List.filter (fun e => negb (existsb (String.eqb (fst e)) (map fst castErrors)))
        (validateDoc this))%list.

(** [doc.save()] of a new document: validation, then the [pre('save')]
    hook, then the insert. Returns the saved document and the new
    collection. *)
Definition save (w : World) (store : Store) (doc : Casting Order)
    : Completion (Order * Store) :=
  let '(this, castErrors) := doc in
  match validationErrors doc with
  | (_ :: _) as errors => Throw (ValidationError errors)
  | [] =>
      let this := preSave w this in
      if duplicateKey store this
      then Throw (MongoServerError (duplicateKeyMessage w))
      else Normal (this, (store ++ [this])%list)
  end.

(** ** Notifications *)

Definition tryCatch {A} (c : Completion A) (handler : Exn -> Completion A) : Completion A :=
  match c with
  | Throw e => handler e
  | other => other
  end.

Definition sent : ChannelOutcome := mkOutcome true None.
Definition failed (e : Exn) : ChannelOutcome := mkOutcome false (Some (exnMessage e)).

(** [await transporter.sendMail(..)] *)
Definition awaitSendMail (w : World) (m : Mail) : Completion unit :=
  match sendMail w m with
  | None => Normal tt
  | Some msg => Throw (Error msg)
  end.

(** [sendSMS]: the provider call is commented out in the source; what is
    left of the [try] block cannot throw and returns [{ success: true }]. *)
Definition sendSMS (phone message : string) : Completion ChannelOutcome :=
  Normal sent.

(** [getOrderConfirmationEmail]: the subject, and [order.status.toUpperCase()]
    as the one place where building the HTML text can throw. The HTML
    text itself is not represented. *)
Definition getOrderConfirmationEmail (order : Order) : Completion string :=
  match status order with
  | Val _ =>
      Normal ("Order Confirmation - " ++ showField (orderNumber order) ++ " | Herman Perfume")
  | _ => Throw (TypeError "Cannot read properties of undefined (reading 'toUpperCase')")
  end.

Definition showNumber (w : World) (f : Field Q) : string :=
  match f with Unset => "undefined" | Null => "null" | Val q => numberToString w q end.

Definition getOrderConfirmationSMS (w : World) (order : Order) : string :=
  "Herman Perfume: Your order " ++ showField (orderNumber order)
  ++ " has been confirmed! Total: ৳" ++ showNumber w (total (totals order))
  ++ ". We'll call you within 24hrs. Track: www.hermanperfume.com/track".

Definition setEmail (r : NotificationResults) (o : ChannelOutcome) : NotificationResults :=
  mkResults (Some o) (r_sms r).
Definition setSms (r : NotificationResults) (o : ChannelOutcome) : NotificationResults :=
  mkResults (r_email r) (Some o).

Definition sendOrderConfirmation (w : World) (order : Order) : Completion NotificationResults :=
  let results := mkResults None None in
  results <-
    (if fieldTruthy (email (customer order)) then
       tryCatch
         (subject <- getOrderConfirmationEmail order ;;
          _ <- awaitSendMail w (mkMail (showField (email (customer order))) subject) ;;
          Normal (setEmail results sent))
         (fun error => Normal (setEmail results (failed error)))
     else Normal results) ;;
  tryCatch
    (let smsMessage := getOrderConfirmationSMS w order in
     r <- sendSMS (showField (phone (customer order))) smsMessage ;;
     Normal (setSms results r))
    (fun error => Normal (setSms results (failed error))).

(** Lookup among the own keys of an object literal with string values. *)
Fixpoint lookupLiteral (key : string) (l : list (string * string)) : option string :=
  match l with
  | [] => None
  | (k, v) :: rest => if String.eqb k key then Some v else lookupLiteral key rest
  end.

(** The names under which every object literal finds a member of
    [Object.prototype]. *)
Definition objectPrototypeMembers : list string :=
  ["constructor"; "__defineGetter__"; "__defineSetter__"; "hasOwnProperty";
   "__lookupGetter__"; "__lookupSetter__"; "isPrototypeOf"; "propertyIsEnumerable";
   "toString"; "valueOf"; "__proto__"; "toLocaleString"].

(** [literal[key]] as a text: the own value when the literal has the key;
    otherwise the inherited member when [Object.prototype] has one, a
    function or an object, which is truthy and is rendered by the
    runtime; otherwise [None], the [undefined] of a missing key. *)
Definition lookupMember (w : World) (key : string) (l : list (string * string))
    : option string :=
  match lookupLiteral key l with
  | Some v => Some v
  | None =>
      if existsb (String.eqb key) objectPrototypeMembers
      then Some (inheritedText w key)
      else None
  end.

Definition getOrderStatusSMS (w : World) (order : Order) (newStatus : JsVal)
    : Completion string :=
  let n := showField (orderNumber order) in
  let statusMessages := [
    ("confirmed", "Your order " ++ n ++ " is confirmed and being prepared.");
    ("processing", "Your order " ++ n ++ " is being processed.");
    ("shipped", "Great news! Your order " ++ n ++ " has been shipped and is on the way.");
    ("delivered", "Your order " ++ n
       ++ " has been delivered. Thank you for shopping with Herman Perfume!");
    ("cancelled", "Your order " ++ n
       ++ " has been cancelled. If you have questions, please call us.")] in
  key <- toString w newStatus ;;
  Normal ("Herman Perfume: "
          ++ default "Order status updated." (lookupMember w key statusMessages)
          ++ " Track: www.hermanperfume.com/track").

Definition statusTitles : list (string * string) := [
  ("confirmed", "Order Confirmed");
  ("processing", "Order Being Processed");
  ("shipped", "Order Shipped");
  ("delivered", "Order Delivered");
  ("cancelled", "Order Cancelled")].

(** [newStatus.toUpperCase()]; the upper-cased text goes into the HTML
    body, which is not represented. *)
Definition callToUpperCase (v : JsVal) : Completion unit :=
  match v with
  | JStr _ => Normal tt
  | _ => Throw (TypeError "newStatus.toUpperCase is not a function")
  end.

Definition sendStatusUpdateNotification (w : World) (order : Order) (newStatus : JsVal)
    : Completion NotificationResults :=
  let results := mkResults None None in
  results <-
    (if fieldTruthy (email (customer order)) then
       tryCatch
         (key <- toString w newStatus ;;
          let title := default "undefined" (lookupMember w key statusTitles) in
          _ <- callToUpperCase newStatus ;;
          _ <- awaitSendMail w
                 (mkMail (showField (email (customer order)))
                    (title ++ " - " ++ showField (orderNumber order) ++ " | Herman Perfume")) ;;
          Normal (setEmail results sent))
         (fun error => Normal (setEmail results (failed error)))
     else Normal results) ;;
  tryCatch
    (smsMessage <- getOrderStatusSMS w order newStatus ;;
     r <- sendSMS (showField (phone (customer order))) smsMessage ;;
     Normal (setSms results r))
    (fun error => Normal (setSms results (failed error))).

(** ** The two routes *)

(** What a request leaves behind: the response, the collection, and the
    completion of the notification dispatcher when it was invoked (the
    handlers log it and go on). *)
Record Outcome := mkOutcomeOf {
  response : Response;
  collection : Store;
  notification : option (Completion NotificationResults) }.

(** The [catch] of [POST /api/orders]: [details] lists, for each key of
    [error.errors], the key and the message under it. *)
Definition onCreateError (e : Exn) : Response :=
  if String.eqb (exnName e) "ValidationError"
  then mkResponse 400 (ErrorDetails "Order validation failed" (exnErrors e))
  else reject 500 ("Failed to place order: " ++ exnMessage e).

Definition orderPlaced (savedOrder : Order) : Response :=
  mkResponse 201
    (OrderPlaced "Order placed successfully! You will receive confirmation via email/SMS."
       (orderNumber savedOrder) savedOrder).

(** The [try] block of [POST /api/orders] up to [await order.save()]. *)
Definition placeOrder (w : World) (store : Store) (orderData : JsVal)
    : Completion (Order * Store) :=
  _ <- validateOrder orderData ;;
  clean <- cleanOrderData w orderData ;;
  save w store (hydrate w clean).

(** [POST /api/orders], with the dispatcher it calls as a parameter. *)
Definition createOrderWith (notify : Order -> Completion NotificationResults)
    (w : World) (store : Store) (orderData : JsVal) : Outcome :=
  match placeOrder w store orderData with
  | Normal (savedOrder, store') =>
      (* try { await sendOrderConfirmation(savedOrder) } catch { log } *)
      mkOutcomeOf (orderPlaced savedOrder) store' (Some (notify savedOrder))
  | Return r => mkOutcomeOf r store None
  | Throw e => mkOutcomeOf (onCreateError e) store None
  end.

Definition createOrder (w : World) : Store -> JsVal -> Outcome :=
  createOrderWith (sendOrderConfirmation w) w.

Definition findById (store : Store) (id : ObjectId) : option Order :=
  List.find (fun o => N.eqb (_id o) id) store.

Fixpoint replaceById (id : ObjectId) (o' : Order) (store : Store) : Store :=
  match store with
  | [] => []
  | o :: rest => if N.eqb (_id o) id then o' :: rest else o :: replaceById id o' rest
  end.

(** [v !== undefined] *)
Definition isDefined (v : JsVal) : bool :=
  match v with JUndefined => false | _ => true end.

(** The object [updateData] of [PUT /api/orders/:id]. *)
Definition updateData (w : World) (status adminNotes paymentStatus : JsVal)
    : gmap string JsVal :=
  let u : gmap string JsVal := {[ "updatedAt" := JNum (inject_Z (clock w)) ]} in
  let u := if truthy status then <["status" := status]> u else u in
  let u := if isDefined adminNotes then <["adminNotes" := adminNotes]> u else u in
  let u := if truthy paymentStatus then <["payment.status" := paymentStatus]> u else u in
  u.

(** Cast of one key of an update; a failing cast throws. [None]: the key
    is not in the update. *)
Definition castUpdate {A} (cast : string -> JsVal -> Casting (Field A))
    (u : gmap string JsVal) (key : string) : Completion (option (Field A)) :=
  match u !! key with
  | None => Normal None
  | Some v =>
      match cast key v with
      | (f, []) => Normal (Some f)
      | (_, (_, msg) :: _) => Throw (CastError msg)
      end
  end.

Definition applyField {A} (set : Field A -> Order -> Order) (f : option (Field A))
    (o : Order) : Order :=
  match f with Some x => set x o | None => o end.

(** [Order.findByIdAndUpdate(id, updateData, { new: true, runValidators: true })]:
    the keys of the update are cast, the validators of the updated paths
    run, the document is modified in place and returned; [None] is the
    [null] of an id that matches nothing. *)
Definition findByIdAndUpdate (w : World) (store : Store) (id : ObjectId)
    (u : gmap string JsVal) : Completion (option Order * Store) :=
  updatedAt <- castUpdate (datePath w) u "updatedAt" ;;
  status <- castUpdate (stringPath w false Null) u "status" ;;
  adminNotes <- castUpdate (stringPath w false Null) u "adminNotes" ;;
  paymentStatus <- castUpdate (stringPath w false Null) u "payment.status" ;;
  match (enumString "status" orderStatuses (enumMessage "status")
           (default Unset status)
         ++ enumString "payment.status" paymentStatuses (enumMessage "payment.status")
              (default Unset paymentStatus))%list with
  | (_ :: _) as errors => Throw (ValidationError errors)
  | [] =>
      match findById store id with
      | None => Normal (None, store)
      | Some o =>
          let o' := applyField setUpdatedAt updatedAt
                      (applyField setStatus status
                         (applyField setAdminNotes adminNotes
                            (applyField setPaymentStatus paymentStatus o))) in
          Normal (Some o', replaceById id o' store)
      end
  end.

(** [v !== f] for a request value and a path of a document. *)
Definition differs (v : JsVal) (f : Field string) : bool :=
  match v, f with
  | JStr s, Val s' => negb (String.eqb s s')
  | JUndefined, Unset => false
  | JNull, Null => false
  | _, _ => true
  end.

(** The [catch] of [PUT /api/orders/:id]. *)
Definition onUpdateError (e : Exn) : Response :=
  reject 400 (if String.eqb (exnMessage e) "" then "Failed to update order" else exnMessage e).

(** The [try] block of [PUT /api/orders/:id] after the destructuring of
    [req.body]. *)
Definition updateFields (w : World) (store : Store) (id : ObjectId)
    (status' adminNotes' paymentStatus' : JsVal) : Completion Outcome :=
  match findById store id with
  | None => Return (reject 404 "Order not found")
  | Some currentOrder =>
      r <- findByIdAndUpdate w store id (updateData w status' adminNotes' paymentStatus') ;;
      match r with
      | (None, _) =>
          Throw (TypeError "Cannot read properties of null (reading 'orderNumber')")
      | (Some order, store') =>
          Normal (mkOutcomeOf (mkResponse 200 (OrderBody order)) store'
                    (if truthy status' && differs status' (status currentOrder)
                     then Some (sendStatusUpdateNotification w order status')
                     else None))
      end
  end.

(** [PUT /api/orders/:id], for a route parameter that is a well-formed id. *)
Definition updateOrder (w : World) (store : Store) (id : ObjectId) (reqBody : JsVal)
    : Outcome :=
  match (status' <- getProp reqBody "status" ;;
         adminNotes' <- getProp reqBody "adminNotes" ;;
         paymentStatus' <- getProp reqBody "paymentStatus" ;;
         updateFields w store id status' adminNotes' paymentStatus') with
  | Normal out => out
  | Return r => mkOutcomeOf r store None
  | Throw e => mkOutcomeOf (onUpdateError e) store None
  end.

(** * Notions used in the statements *)

(** ** The checks as conditions on the payload *)

(** The condition of each block as a Boolean over the values read. *)
Definition requiredMissing (od : JsVal) : bool :=
  falsy (read od "customer") || falsy (read od "delivery") || falsy (read od "payment")
  || falsy (read od "items") || isZero (read (read od "items") "length").

Definition customerMissing (od : JsVal) : bool :=
  let c := read od "customer" in
  falsy (read c "firstName") || falsy (read c "lastName") || falsy (read c "phone").

Definition deliveryMissing (od : JsVal) : bool :=
  let d := read od "delivery" in
  falsy (read d "address") || falsy (read d "city").

Definition methodInvalid (od : JsVal) : bool :=
  let m := read (read od "payment") "method" in
  falsy m || negb (includes ["bkash"; "cod"] m).

Definition transactionMissing (od : JsVal) : bool :=
  let p := read od "payment" in
  isStr (read p "method") "bkash" && falsy (read p "transactionId").

Definition itemsInvalid (od : JsVal) : bool :=
  let i := read od "items" in
  negb (isArray i) || isZero (read i "length").

Definition totalsInvalid (od : JsVal) : bool :=
  let t := read od "totals" in
  falsy t || negb (isNumber (read t "total")) || leZero (read t "total").

(** One item passes the loop body. *)
Definition itemOk (item : JsVal) : bool :=
  negb (nullish item)
  && truthy (read item "productId") && truthy (read item "name")
  && truthy (read item "price") && truthy (read item "quantity")
  && isNumber (read item "price") && negb (leZero (read item "price"))
  && isNumber (read item "quantity") && negb (leZero (read item "quantity")).

(** The checks 1 to 6 as one Boolean over the values read from the
    payload. *)
Definition passesChecks (od : JsVal) : bool :=
  negb (nullish od)
  && negb (requiredMissing od) && negb (customerMissing od) && negb (deliveryMissing od)
  && negb (methodInvalid od) && negb (transactionMissing od) && negb (itemsInvalid od)
  && forallb itemOk (itemsOf (read od "items")) && negb (totalsInvalid od).

(** ** What normalisation produces *)

(** The fields of [cleanOrderData] in terms of the values read. *)
Record Cleaned := mkCleaned {
  c_firstName : string; c_lastName : string; c_phone : string;
  c_email : JsVal;
  c_address : string; c_city : string;
  c_postalCode : JsVal; c_transactionId : JsVal;
  c_items : list JsVal;
  c_subtotal : JsVal; c_deliveryCharge : JsVal; c_total : JsVal;
  c_orderNotes : JsVal }.

(** [k] holds the fields of [cleanOrderData] for the payload [od]. *)
Definition normalises (w : World) (od : JsVal) (k : Cleaned) : Prop :=
  let c := read od "customer" in
  let d := read od "delivery" in
  let p := read od "payment" in
  let t := read od "totals" in
  read c "firstName" = JStr (c_firstName k)
  /\ read c "lastName" = JStr (c_lastName k)
  /\ read c "phone" = JStr (c_phone k)
  /\ trimOr (read c "email") JUndefined = Normal (c_email k)
  /\ read d "address" = JStr (c_address k)
  /\ read d "city" = JStr (c_city k)
  /\ trimOr (read d "postalCode") JUndefined = Normal (c_postalCode k)
  /\ trimOr (read p "transactionId") JUndefined = Normal (c_transactionId k)
  /\ mapM (cleanItem w) (itemsOf (read od "items")) = Normal (c_items k)
  /\ numberOrZero w (read t "subtotal") = Normal (c_subtotal k)
  /\ numberOrZero w (read t "deliveryCharge") = Normal (c_deliveryCharge k)
  /\ toNumber w (read t "total") = Normal (c_total k)
  /\ trimOr (read od "orderNotes") (JStr "") = Normal (c_orderNotes k).

Definition literalOf (w : World) (od : JsVal) (k : Cleaned) : JsVal :=
  orderLiteral w (JStr (trim (c_firstName k))) (JStr (trim (c_lastName k)))
    (JStr (trim (c_phone k))) (c_email k)
    (JStr (trim (c_address k))) (JStr (trim (c_city k)))
    (c_postalCode k) (read (read od "payment") "method") (c_transactionId k) (c_items k)
    (c_subtotal k) (c_deliveryCharge k) (c_total k) (c_orderNotes k).

(** [v] as the constructor finds it after [if (!o.k) delete o.k]. *)
Definition kept (v : JsVal) : JsVal := if falsy v then JUndefined else v.

(** Own key of an object: [None] when the object has no such key. *)
Definition ownKey (v : JsVal) (k : string) : option JsVal :=
  match v with JObj m => m !! k | _ => None end.

(** An optional value that is missing or resolves to empty: falsy as
    supplied, or a string that trims to the empty string. *)
Definition blank (v : JsVal) : Prop :=
  falsy v = true \/ exists s, v = JStr s /\ trim s = "".

(** A stored optional path is either unset or holds a non-empty string. *)
Definition unsetOrFilled (f : Field string) : Prop :=
  f = Unset \/ exists s, f = Val s /\ s <> "".

(** The stored category of an item whose payload has none. *)
Definition categoryDefaulted (item : JsVal) (it : Item) : Prop :=
  falsy (read item "category") = true -> category it = Val "other".

(** ** Completions *)

(** A computation that never answers early. *)
Definition noReturn {A} (c : Completion A) : Prop :=
  forall r, c <> Return r.

(** ** Order numbers *)

(** The last two decimal digits of a number, and its last three. *)
Definition twoDigits (n : nat) : string :=
  String (digitChar (n / 10 mod 10)) (String (digitChar (n mod 10)) "").

Definition threeDigits (n : nat) : string :=
  String (digitChar (n / 100 mod 10)) (twoDigits n).

(** ["HM"] followed by nine decimal digits. *)
Definition orderNumberFormat (s : string) : bool :=
  match s with
  | String "H" (String "M" rest) => Nat.eqb (String.length rest) 9 && allDigits rest
  | _ => false
  end.

(** ** Updates *)

(** Outcome of casting one supplied value of an update. *)
Definition castSupplied (w : World) (key : string) (supplied : bool) (v : JsVal)
    : Completion (option (Field string)) :=
  if supplied then
    match stringPath w false Null key v with
    | (f, []) => Normal (Some f)
    | (_, (_, msg) :: _) => Throw (CastError msg)
    end
  else Normal None.

(** The outcome of an update that throws. *)
Definition rejectUpdate (store : Store) (e : Exn) : Outcome :=
  mkOutcomeOf (onUpdateError e) store None.

(** The document after an accepted update: the paths present in the
    update are replaced, [updatedAt] always. *)
Definition updated (w : World) (fs fa fp : option (Field string)) (o : Order) : Order :=
  applyField setUpdatedAt (Some (Val (clock w)))
    (applyField setStatus fs (applyField setAdminNotes fa (applyField setPaymentStatus fp o))).

(** The fields of an order that no update touches. *)
Definition frame (o : Order) :=
  (_id o, orderNumber o, customer o, delivery o, method (payment o),
   transactionId (payment o), items o, totals o, orderNotes o, createdAt o).

(** A key of an update body is absent or holds one of the listed strings. *)
Definition absentOrOneOf (values : list string) (v : JsVal) : Prop :=
  v = JUndefined \/ exists s, v = JStr s /\ In s values.

(** A body of the shape [{status?, adminNotes?, paymentStatus?}]: an
    object whose [status] and [paymentStatus], when present, are values of
    their enumerations and whose [adminNotes], when present, is a string. *)
Definition wellTypedUpdate (reqBody : JsVal) : Prop :=
  nullish reqBody = false
  /\ absentOrOneOf orderStatuses (read reqBody "status")
  /\ (read reqBody "adminNotes" = JUndefined \/ exists x, read reqBody "adminNotes" = JStr x)
  /\ absentOrOneOf paymentStatuses (read reqBody "paymentStatus").

(** ** Collections *)

(** One request to either route takes the collection from [s] to [s']. *)
Definition step (s s' : Store) : Prop :=
  (exists w od, s' = collection (createOrder w s od))
  \/ (exists w id reqBody, s' = collection (updateOrder w s id reqBody)).

(** The collections the two routes can produce from the empty one. *)
Definition reachable (s : Store) : Prop := rtc step [] s.

(** The identity of a stored order: its id and its order number. *)
Definition identity (o : Order) : ObjectId * Field string := (_id o, orderNumber o).

(** Every stored order has an order number and no two share one. *)
Definition numbered (s : Store) : Prop :=
  Forall (fun n => fieldTruthy n = true) (map orderNumber s)
  /\ NoDup (map orderNumber s).

(** ** Sample data *)

(** [String(v)] of the members of [Object.prototype] as V8 prints them:
    [constructor] is [Object], [__proto__] is the prototype object and
    the others are native functions of their own name. *)
Definition sampleInheritedText (name : string) : string :=
  if String.eqb name "constructor" then "function Object() { [native code] }"
  else if String.eqb name "__proto__" then "[object Object]"
  else "function " ++ name ++ "() { [native code] }".

(** A world at 15 January 2025 in which the mail transport accepts every
    mail, the random draw is 42 and the hook reads the clock a quarter of
    a second after the handler. *)
Definition sampleWorld : World :=
  mkWorld 1736899200000 (mkDate 2025 0 15) 42 1%N (fun _ => None)
    (fun _ => inr None) (fun _ => inr "[object Object]") (fun _ => "130")
    (fun _ => None) (fun _ => None) (fun _ _ => "Cast failed")
    "E11000 duplicate key error" 1736899200250
    sampleInheritedText.

(** A minute later, a second document id, and a mail transport that is
    down. *)
Definition laterWorld : World :=
  mkWorld 1736899260000 (mkDate 2025 0 15) 42 2%N (fun _ => Some "connect ECONNREFUSED")
    (fun _ => inr None) (fun _ => inr "[object Object]") (fun _ => "130")
    (fun _ => None) (fun _ => None) (fun _ _ => "Cast failed")
    "E11000 duplicate key error" 1736899260250
    sampleInheritedText.

Definition sampleItems : JsVal :=
  JArr [JObj (obj [("productId", JStr "p1"); ("name", JStr "Rose Oud");
                   ("price", JNum 50); ("quantity", JNum 2)]);
        JObj (obj [("productId", JStr "p2"); ("name", JStr "Cedar");
                   ("price", JNum 30); ("quantity", JNum 1);
                   ("category", JStr "woody")])].

(** A payload with the given customer and payment objects. *)
Definition payloadWith (customer payment : list (string * JsVal)) : JsVal :=
  JObj (obj [
    ("customer", JObj (obj customer));
    ("delivery", JObj (obj [("address", JStr "12 Lake Road"); ("city", JStr "Dhaka")]));
    ("payment", JObj (obj payment));
    ("items", sampleItems);
    ("totals", JObj (obj [("total", JNum 130)]))]).

Definition sampleCustomer : list (string * JsVal) :=
  [("firstName", JStr "Ada"); ("lastName", JStr "Khan"); ("phone", JStr "01700000000");
   ("email", JStr " ada@example.com ")].

(** Cash on delivery, no transaction id. *)
Definition samplePayload : JsVal := payloadWith sampleCustomer [("method", JStr "cod")].

Definition sampleSaved : Order :=
  mkOrder 1%N (Val "HM250115042")
    (mkCustomer (Val "Ada") (Val "Khan") (Val "01700000000") (Val "ada@example.com"))
    (mkDelivery (Val "12 Lake Road") (Val "Dhaka") Unset)
    (mkPayment (Val "cod") Unset (Val "pending"))
    [mkItem (Val "p1") (Val "Rose Oud") (Val 50%Q) (Val 2%Q) (Val "other");
     mkItem (Val "p2") (Val "Cedar") (Val 30%Q) (Val 1%Q) (Val "woody")]
    (mkTotals (Val 0%Q) (Val 0%Q) (Val 130%Q))
    (Val "pending") (Val "") (Val "") (Val 1736899200000%Z) (Val 1736899200250%Z).

(** A payload without one of its keys. *)
Definition without (key : string) (v : JsVal) : JsVal :=
  match v with JObj m => JObj (delete key m) | _ => v end.

(** bKash with a transaction id, and the order it is stored as. *)
Definition paidPayload : JsVal :=
  payloadWith sampleCustomer [("method", JStr "bkash"); ("transactionId", JStr " TX1001 ")].

Definition paidSaved : Order :=
  mkOrder 1%N (Val "HM250115042")
    (mkCustomer (Val "Ada") (Val "Khan") (Val "01700000000") (Val "ada@example.com"))
    (mkDelivery (Val "12 Lake Road") (Val "Dhaka") Unset)
    (mkPayment (Val "bkash") (Val "TX1001") (Val "pending"))
    [mkItem (Val "p1") (Val "Rose Oud") (Val 50%Q) (Val 2%Q) (Val "other");
     mkItem (Val "p2") (Val "Cedar") (Val 30%Q) (Val 1%Q) (Val "woody")]
    (mkTotals (Val 0%Q) (Val 0%Q) (Val 130%Q))
    (Val "pending") (Val "") (Val "") (Val 1736899200000%Z) (Val 1736899200250%Z).

(** bKash, no transaction id. *)
Definition bkashPayload : JsVal := payloadWith sampleCustomer [("method", JStr "bkash")].

(** A first name of white space only. *)
Definition blankNamePayload : JsVal :=
  payloadWith [("firstName", JStr "   "); ("lastName", JStr "Khan");
               ("phone", JStr "01700000000")]
    [("method", JStr "cod")].

(** An email of white space only. *)
Definition blankEmailPayload : JsVal :=
  payloadWith [("firstName", JStr "Ada"); ("lastName", JStr "Khan");
               ("phone", JStr "01700000000"); ("email", JStr "  ")]
    [("method", JStr "cod")].

Definition blankEmailSaved : Order :=
  mkOrder 1%N (Val "HM250115042")
    (mkCustomer (Val "Ada") (Val "Khan") (Val "01700000000") Unset)
    (mkDelivery (Val "12 Lake Road") (Val "Dhaka") Unset)
    (mkPayment (Val "cod") Unset (Val "pending"))
    [mkItem (Val "p1") (Val "Rose Oud") (Val 50%Q) (Val 2%Q) (Val "other");
     mkItem (Val "p2") (Val "Cedar") (Val 30%Q) (Val 1%Q) (Val "woody")]
    (mkTotals (Val 0%Q) (Val 0%Q) (Val 130%Q))
    (Val "pending") (Val "") (Val "") (Val 1736899200000%Z) (Val 1736899200250%Z).

(** * The other order routes *)

(** [GET /api/orders/:id], for a well-formed id. *)
Definition getOrder (store : Store) (id : ObjectId) : Response :=
  match findById store id with
  | None => reject 404 "Order not found"
  | Some order => mkResponse 200 (OrderBody order)
  end.

(** [Order.findOne({ orderNumber })]: the first document whose
    [orderNumber] is the given string. *)
Definition findByNumber (store : Store) (number : string) : option Order :=
  List.find
    (fun o => match orderNumber o with Val n => String.eqb n number | _ => false end)
    store.

(** [GET /api/orders/number/:orderNumber] *)
Definition getOrderByNumber (store : Store) (number : string) : Response :=
  match findByNumber store number with
  | None => reject 404 "Order not found"
  | Some order => mkResponse 200 (OrderBody order)
  end.

(** The answer of [POST /api/orders/:id/send-confirmation]:
    [{ success: true, message, results }] or [{ error }] with a status. *)
Inductive ResendReply :=
  | ConfirmationSent (message : string) (results : NotificationResults)
  | ResendFailed (status : nat) (err : string).

(** The ODM's cast of a route parameter to an id; [None] when the
    parameter is not a well-formed id. *)
Definition IdCast : Type := string -> option ObjectId.

(** [await Order.findById(req.params.id)]: the document or [null], or the
    rejection with a cast error of a parameter that is not an id. *)
Definition lookupOrder (toId : IdCast) (w : World) (store : Store) (param : string)
    : Completion (option Order) :=
  match toId param with
  | Some id => Normal (findById store id)
  | None => Throw (CastError (castMessage w "_id" (JStr param)))
  end.

(** The [try] and [catch] of [POST /api/orders/:id/send-confirmation] on
    the outcome of the lookup, which is a rejection too when the store
    does not answer. *)
Definition resendWith (w : World) (found : Completion (option Order)) : ResendReply :=
  match found with
  | Normal None => ResendFailed 404 "Order not found"
  | Normal (Some order) =>
      match sendOrderConfirmation w order with
      | Normal notificationResults => ConfirmationSent "Confirmation sent!" notificationResults
      | Return _ | Throw _ => ResendFailed 500 "Failed to send confirmation"
      end
  | Return _ | Throw _ => ResendFailed 500 "Failed to send confirmation"
  end.

(** [POST /api/orders/:id/send-confirmation] *)
Definition resendConfirmationAt (toId : IdCast) (w : World) (store : Store) (param : string)
    : ResendReply :=
  resendWith w (lookupOrder toId w store param).

(** The route for a well-formed id and a store that answers. *)
Definition resendConfirmation (w : World) (store : Store) (id : ObjectId) : ResendReply :=
  resendWith w (Normal (findById store id)).

(** [PUT /api/orders/:id] for any route parameter: the body is
    destructured first, and [Order.findById] rejects with a cast error
    when the parameter is not a well-formed id. *)
Definition updateOrderAt (toId : IdCast) (w : World) (store : Store) (param : string)
    (reqBody : JsVal) : Outcome :=
  match (status' <- getProp reqBody "status" ;;
         adminNotes' <- getProp reqBody "adminNotes" ;;
         paymentStatus' <- getProp reqBody "paymentStatus" ;;
         match toId param with
         | Some id => updateFields w store id status' adminNotes' paymentStatus'
         | None => Throw (CastError (castMessage w "_id" (JStr param)))
         end) with
  | Normal out => out
  | Return r => mkOutcomeOf r store None
  | Throw e => mkOutcomeOf (onUpdateError e) store None
  end.

(** * POST /api/debug-order *)

(** [if (c) issues.push(msg)] *)
Definition pushIf (c : bool) (msg : string) (issues : list string) : list string :=
  if c then (issues ++ [msg])%list else issues.

(** The structure checks of the handler; [issues] is the array they
    fill. The handler has no [try]: reading from a body that is
    [undefined] or [null] throws. *)
Definition debugIssues (data : JsVal) : Completion (list string) :=
  let issues : list string := [] in
  customer <- getProp data "customer" ;;
  issues <-
    (if falsy customer then Normal (pushIf true "Missing customer object" issues)
     else
       firstName <- getProp customer "firstName" ;;
       let issues := pushIf (falsy firstName) "Missing customer.firstName" issues in
       lastName <- getProp customer "lastName" ;;
       let issues := pushIf (falsy lastName) "Missing customer.lastName" issues in
       phone <- getProp customer "phone" ;;
       Normal (pushIf (falsy phone) "Missing customer.phone" issues)) ;;
  delivery <- getProp data "delivery" ;;
  issues <-
    (if falsy delivery then Normal (pushIf true "Missing delivery object" issues)
     else
       address <- getProp delivery "address" ;;
       let issues := pushIf (falsy address) "Missing delivery.address" issues in
       city <- getProp delivery "city" ;;
       Normal (pushIf (falsy city) "Missing delivery.city" issues)) ;;
  payment <- getProp data "payment" ;;
  issues <-
    (if falsy payment then Normal (pushIf true "Missing payment object" issues)
     else
       method <- getProp payment "method" ;;
       Normal (pushIf (falsy method) "Missing payment.method" issues)) ;;
  items <- getProp data "items" ;;
  issues <-
    (if falsy items || negb (isArray items)
     then Normal (pushIf true "Missing or invalid items array" issues)
     else
       n <- getProp items "length" ;;
       Normal (pushIf (isZero n) "Items array is empty" issues)) ;;
  totals <- getProp data "totals" ;;
  (if falsy totals then Normal (pushIf true "Missing totals object" issues)
   else
     total <- getProp totals "total" ;;
     Normal (pushIf (negb (isNumber total)) "totals.total is not a number" issues)).

(** The answer of the route, without its [dataStructure] (the keys of
    the body in insertion order, which a finite map does not keep). *)
Record DebugReport := mkDebugReport {
  received : bool;
  issues : list string;
  valid : bool }.

Definition debugOrder (data : JsVal) : Completion DebugReport :=
  issues <- debugIssues data ;;
  Normal (mkDebugReport true issues (Nat.eqb (length issues) 0)).

(** What the debug route looks at, as a Boolean over the values read. *)
Definition wellStructured (od : JsVal) : bool :=
  negb (customerMissing od) && truthy (read od "customer")
  && negb (deliveryMissing od) && truthy (read od "delivery")
  && truthy (read od "payment") && truthy (read (read od "payment") "method")
  && negb (itemsInvalid od) && truthy (read od "items")
  && truthy (read od "totals") && isNumber (read (read od "totals") "total").

(** * GET /api/orders *)

(** [req.query], for keys that are absent or given once as plain text. *)
Record ListQuery := mkListQuery {
  q_status : option string;
  q_page : option string;
  q_limit : option string }.

(** A key of the query after destructuring with a default. *)
Definition queryValue (dflt : JsVal) (v : option string) : JsVal :=
  match v with Some s => JStr s | None => dflt end.

(** [a * b] and [a - b] on numbers. *)
Definition mulNum (a b : JsVal) : JsVal :=
  match a, b with JNum x, JNum y => JNum (x * y) | _, _ => JNaN end.

Definition subNum (a b : JsVal) : JsVal :=
  match a, b with JNum x, JNum y => JNum (x - y) | _, _ => JNaN end.

(** The [filter] object: [None] is [{}], [Some s] is [{ status: s }]. *)
Definition statusFilter (query : ListQuery) : option string :=
  match q_status query with
  | Some s => if truthy (JStr s) && negb (isStr (JStr s) "all") then Some s else None
  | None => None
  end.

Definition matches (filter : option string) (o : Order) : bool :=
  match filter with
  | None => true
  | Some s => match status o with Val s' => String.eqb s' s | _ => false end
  end.

(** [a] sorts below [b] on [createdAt]; an unset or null date sorts
    below every date. *)
Definition olderThan (a b : Order) : bool :=
  match createdAt a, createdAt b with
  | Val x, Val y => Z.ltb x y
  | Val _, _ => false
  | _, Val _ => true
  | _, _ => false
  end.

Fixpoint insertNewest (o : Order) (l : list Order) : list Order :=
  match l with
  | [] => [o]
  | x :: rest => if olderThan o x then x :: insertNewest o rest else o :: l
  end.

(** One sort by [createdAt] from newest to oldest: the one in which
    orders of the same date keep the order of the collection. *)
Definition sortNewest (l : list Order) : list Order := fold_right insertNewest [] l.

(** [.sort({ createdAt: -1 })] as the store carries it out for one
    request. The query says nothing on orders of the same date: the
    store may arrange them in any way, and differently in the next
    request. *)
Definition DateSort : Type := list Order -> list Order.

(** What a sort by [createdAt], newest first, is held to: it returns the
    orders it was given, each once, and none of them before a newer
    one. *)
Definition newestFirst (sorted : DateSort) : Prop :=
  forall l,
    Permutation (sorted l) l
    /\ StronglySorted (fun a b => olderThan a b = false) (sorted l).

(** A number that is a non-negative integer. *)
Definition asCount (v : JsVal) : option nat :=
  match v with
  | JNum q =>
      if Z.leb 0 (Qnum q) && Z.eqb (Z.rem (Qnum q) (Zpos (Qden q))) 0
      then Some (Z.to_nat (Qnum q / Zpos (Qden q)))
      else None
  | _ => None
  end.

(** What the driver does with a limit or a skip that is not a
    non-negative integer. *)
Definition OddWindow : Type := JsVal -> JsVal -> list Order -> Completion (list Order).

(** [.limit(l).skip(s)] on the sorted matches: the skip applies first,
    and a limit of 0 is no limit. *)
Definition window (odd : OddWindow) (limit skip : JsVal) (found : list Order)
    : Completion (list Order) :=
  match asCount limit, asCount skip with
  | Some l, Some s =>
      let rest := drop s found in
      Normal (if Nat.eqb l 0 then rest else take l rest)
  | _, _ => odd limit skip found
  end.

(** [Math.ceil(n / limit)] as JSON renders it: [None] is the [null] of a
    result that is NaN or infinite. *)
Definition ceilDiv (n : nat) (limit : JsVal) : option Z :=
  match limit with
  | JNum q =>
      if Qeq_bool q 0 then None else Some (Qceiling (inject_Z (Z.of_nat n) / q))
  | _ => None
  end.

Record OrderPage := mkOrderPage {
  orders : list Order;
  totalPages : option Z;
  currentPage : JsVal;
  totalOrders : nat }.

Inductive ListReply :=
  | Listed (page : OrderPage)
  | ListFailed (status : nat) (err : string).

(** [GET /api/orders]. The conversions of [limit] to a number, which the
    source repeats at each use, are made once. *)
Definition listOrders (w : World) (sorted : DateSort) (odd : OddWindow) (store : Store)
    (query : ListQuery) : ListReply :=
  let page := queryValue (JNum 1) (q_page query) in
  let limit := queryValue (JNum 20) (q_limit query) in
  let filter := statusFilter query in
  match (limitN <- toNumber w limit ;;
         pageN <- toNumber w page ;;
         orders <- window odd (mulNum limitN (JNum 1))
                     (mulNum (subNum pageN (JNum 1)) limitN)
                     (sorted (List.filter (matches filter) store)) ;;
         let totalOrders := length (List.filter (matches filter) store) in
         Normal (mkOrderPage orders (ceilDiv totalOrders limitN) page totalOrders)) with
  | Normal page => Listed page
  | Return _ | Throw _ => ListFailed 500 "Failed to fetch orders"
  end.

(** The runtime reads the value [v] as the natural number [n]. *)
Definition readsAs (w : World) (v : JsVal) (n : nat) : Prop :=
  exists q, toNumber w v = Normal (JNum q) /\ (q == inject_Z (Z.of_nat n))%Q.

(** The orders of a reply, none when the request failed. *)
Definition ordersOf (r : ListReply) : list Order :=
  match r with Listed page => orders page | ListFailed _ _ => [] end.

(** * The product data of POST and PUT /api/products *)

(** [s.split(c)] for a one-character separator. *)
Fixpoint splitOn (sep : ascii) (s : string) : list string :=
  match s with
  | EmptyString => [EmptyString]
  | String c rest =>
      if Ascii.eqb c sep then EmptyString :: splitOn sep rest
      else match splitOn sep rest with
           | [] => [String c EmptyString]
           | piece :: pieces => String c piece :: pieces
           end
  end.

(** [// Parse notes if it's a string] *)
Definition parseNotes (notes : JsVal) : list JsVal :=
  if truthy notes then
    match notes with
    | JStr s =>
        map JStr (List.filter (fun note => Nat.ltb 0 (String.length note))
                    (map trim (splitOn "," s)))
    | JArr l => l
    | _ => []
    end
  else [].

(** [String.prototype.toLowerCase] on the code units up to 255. *)
Definition lowerChar (c : ascii) : ascii :=
  let n := nat_of_ascii c in
  if (Nat.leb 65 n && Nat.leb n 90)
     || (Nat.leb 192 n && Nat.leb n 222 && negb (Nat.eqb n 215))
  then ascii_of_nat (n + 32) else c.

Fixpoint toLowerCase (s : string) : string :=
  match s with
  | EmptyString => EmptyString
  | String c rest => String (lowerChar c) (toLowerCase rest)
  end.

(** [category.toLowerCase()] *)
Definition callToLowerCase (v : JsVal) : Completion string :=
  match v with
  | JStr s => Normal (toLowerCase s)
  | JUndefined =>
      Throw (TypeError "Cannot read properties of undefined (reading 'toLowerCase')")
  | JNull => Throw (TypeError "Cannot read properties of null (reading 'toLowerCase')")
  | _ => Throw (TypeError "category.toLowerCase is not a function")
  end.

(** The object [productData] of the POST route, which is [updateData]
    of the PUT route without its [updatedAt]. A number field is [None]
    when it is NaN. *)
Record ProductData := mkProductData {
  pd_name : JsVal;
  pd_description : JsVal;
  pd_price : option Q;
  pd_category : string;
  pd_notes : list JsVal;
  pd_badge : JsVal;
  pd_quantity : Z;
  pd_inStock : bool;
  pd_image : option string }.

(** The statements of both routes from the destructuring of [req.body]
    to the image path; [parseFloat] and [parseInt] are the runtime's,
    [None] their NaN, and [file] is [req.file.filename] when a file was
    uploaded. *)
Definition productData (parseFloat : JsVal -> option Q) (parseInt : JsVal -> option Z)
    (reqBody : JsVal) (file : option string) : Completion ProductData :=
  name <- getProp reqBody "name" ;;
  description <- getProp reqBody "description" ;;
  price <- getProp reqBody "price" ;;
  category <- getProp reqBody "category" ;;
  notes <- getProp reqBody "notes" ;;
  badge <- getProp reqBody "badge" ;;
  quantity <- getProp reqBody "quantity" ;;
  let parsedNotes := parseNotes notes in
  lowered <- callToLowerCase category ;;
  Normal (mkProductData name description (parseFloat price) lowered parsedNotes
            (orVal badge (JStr ""))
            (match parseInt quantity with
             | Some n => if Z.eqb n 0 then 0%Z else n
             | None => 0%Z
             end)
            (match parseInt quantity with Some n => Z.ltb 0 n | None => false end)
            (option_map (fun filename => "/uploads/" ++ filename) file)).

(** The character occurs in the string. *)
Fixpoint occurs (c : ascii) (s : string) : bool :=
  match s with
  | EmptyString => false
  | String c' rest => Ascii.eqb c' c || occurs c rest
  end.

(** A note as the routes store it: not empty, trimmed, without comma. *)
Definition cleanNote (t : string) : Prop :=
  t <> "" /\ trim t = t /\ occurs "," t = false.

(** * Further notions used in the statements *)

(** What the collection holds for one item of an accepted payload: the
    trimmed name, the price and the quantity as sent, each within the
    bounds of the schema. *)
Definition itemStored (item : JsVal) (it : Item) : Prop :=
  exists nm p q,
    read item "name" = JStr nm /\ name it = Val (trim nm) /\ trim nm <> ""
    /\ read item "price" = JNum p /\ price it = Val p /\ (0 < p)%Q
    /\ read item "quantity" = JNum q /\ quantity it = Val q /\ (1 <= q)%Q
    /\ fieldTruthy (productId it) = true.

(** The statuses that have a text of their own in [getOrderStatusSMS]
    and a title in [statusTitles]. *)
Definition announcedStatuses : list string := map fst statusTitles.

(** The text messages of a status without one of its own. *)
Definition genericStatusSMS : string :=
  "Herman Perfume: Order status updated. Track: www.hermanperfume.com/track".

(** The order numbers of a calendar date, one per draw below 1000. *)
Definition numbersOf (d : Date) : list (Field string) :=
  map (fun r => Val (generateOrderNumber d r)) (seq 0 1000).

(** The order carries one of the order numbers of the date [d]. *)
Definition drawnOn (d : Date) (o : Order) : bool :=
  existsb (sameKey (orderNumber o)) (numbersOf d).

(** Every order has a date and no two have the same. *)
Definition distinctDates (l : list Order) : Prop :=
  Forall (fun o => exists t, createdAt o = Val t) l /\ List.NoDup (map createdAt l).

(** A date as the clock gives it. *)
Definition calendarDate (d : Date) : Prop :=
  (10 <= fullYear d)%Z /\ month d <= 11 /\ dayOfMonth d <= 31.

(** The message of the item loop for an item that does not pass it. *)
Definition itemDefect (item : JsVal) : string :=
  if falsy (read item "productId") || falsy (read item "name")
     || falsy (read item "price") || falsy (read item "quantity")
  then "Each item must have productId, name, price, and quantity"
  else if negb (isNumber (read item "price")) || leZero (read item "price")
  then "Item price must be a positive number"
  else "Item quantity must be a positive number".

(** ** More sample data *)

(** A payload with one more key. *)
Definition withKey (key : string) (x v : JsVal) : JsVal :=
  match v with JObj m => JObj (<[key := x]> m) | _ => v end.

(** A payload that names a status, admin notes and a payment status of
    its own. *)
Definition forgedPayload : JsVal :=
  withKey "status" (JStr "delivered")
    (withKey "adminNotes" (JStr "paid in full")
       (payloadWith sampleCustomer [("method", JStr "cod"); ("status", JStr "paid")])).

(** A payload whose total is not the sum of its parts. *)
Definition underpaidPayload : JsVal :=
  withKey "totals"
    (JObj (obj [("subtotal", JNum 130); ("deliveryCharge", JNum 60); ("total", JNum 1)]))
    samplePayload.

(** The keys of the sample payload. *)
Definition sampleMap : gmap string JsVal :=
  match samplePayload with JObj m => m | _ => ∅ end.

(** An item whose price is sent as text. *)
Definition pricedInText : JsVal :=
  JObj (obj [("productId", JStr "p3"); ("name", JStr "Musk");
             ("price", JStr "45"); ("quantity", JNum 1)]).

(** A sequence of decimal digits as a number. *)
Fixpoint parseDigits (acc : nat) (s : string) : option nat :=
  match s with
  | EmptyString => Some acc
  | String c rest =>
      if isDigit c then parseDigits (acc * 10 + (nat_of_ascii c - 48)) rest else None
  end.

(** The sample world with a runtime that reads decimal numerals. *)
Definition readingWorld : World :=
  mkWorld 1736899200000 (mkDate 2025 0 15) 42 1%N (fun _ => None)
    (fun v => match v with
              | JStr s => inr (option_map (fun n => inject_Z (Z.of_nat n)) (parseDigits 0 s))
              | _ => inr None
              end)
    (fun _ => inr "[object Object]") (fun _ => "130")
    (fun _ => None) (fun _ => None) (fun _ _ => "Cast failed")
    "E11000 duplicate key error" 1736899200250
    sampleInheritedText.

(** The sample order with another id, number, status and date. *)
Definition stamped (id : ObjectId) (number s : string) (t : Z) : Order :=
  mkOrder id (Val number) (customer sampleSaved) (delivery sampleSaved)
    (payment sampleSaved) (items sampleSaved) (totals sampleSaved)
    (Val s) (Val "") (Val "") (Val t) (Val t).

Definition threeOrders : Store :=
  [stamped 1%N "HM250115001" "pending" 100; stamped 2%N "HM250115002" "shipped" 300;
   stamped 3%N "HM250115003" "pending" 200].

(** A driver that refuses every limit and skip it is not sure about. *)
Definition strictWindow : OddWindow :=
  fun _ _ _ => Throw (Error "limit and skip must be non-negative integers").

(** [parseInt] and [parseFloat] on decimal numerals. *)
Definition sampleParseInt (v : JsVal) : option Z :=
  match v with
  | JStr (String c rest) => option_map Z.of_nat (parseDigits 0 (String c rest))
  | _ => None
  end.

Definition sampleParseFloat (v : JsVal) : option Q :=
  option_map inject_Z (sampleParseInt v).

(** The fields of a product form. *)
Definition sampleProductForm : JsVal :=
  JObj (obj [("name", JStr "Royal Essence"); ("description", JStr "Oud and rose");
             ("price", JStr "250"); ("category", JStr "Oriental");
             ("notes", JStr "Oud, Rose , ,Gold Accents"); ("quantity", JStr "10")]).

(** bKash with a transaction id of white space only. *)
Definition blankTransactionPayload : JsVal :=
  payloadWith sampleCustomer [("method", JStr "bkash"); ("transactionId", JStr "  ")].

(** A cast of route parameters to ids: 24 hexadecimal digits, read as a
    number. *)
Definition hexDigit (c : ascii) : option N :=
  let n := N_of_ascii c in
  if (48 <=? n)%N && (n <=? 57)%N then Some (n - 48)%N
  else if (97 <=? n)%N && (n <=? 102)%N then Some (n - 87)%N
  else if (65 <=? n)%N && (n <=? 70)%N then Some (n - 55)%N
  else None.

Fixpoint parseHex (acc : N) (s : string) : option N :=
  match s with
  | EmptyString => Some acc
  | String c rest =>
      match hexDigit c with
      | Some d => parseHex (16 * acc + d)%N rest
      | None => None
      end
  end.

Definition sampleIdCast : IdCast :=
  fun param => if Nat.eqb (String.length param) 24 then parseHex 0 param else None.

(** * Properties *)

(** ** Trimming *)

Lemma trimStart_head s :
  trimStart s = "" \/ exists c r, trimStart s = String c r /\ isWhiteSpace c = false.
Proof.
  induction s as [|c s IH]; simpl; [auto|].
  destruct (isWhiteSpace c) eqn:E; [exact IH | right; eauto].
Qed.

Lemma trimStart_fixed c r : isWhiteSpace c = false -> trimStart (String c r) = String c r.
Proof. simpl; intros ->; reflexivity. Qed.

Lemma trimEnd_idem s : trimEnd (trimEnd s) = trimEnd s.
Proof.
  induction s as [|c s IH]; simpl; [reflexivity|].
  destruct (isWhiteSpace c && String.eqb (trimEnd s) "") eqn:E; simpl; [reflexivity|].
  rewrite IH, E; reflexivity.
Qed.

Lemma trim_idem s : trim (trim s) = trim s.
Proof.
  unfold trim.
  destruct (trimStart_head s) as [-> | (c & r & -> & Hc)]; [reflexivity|].
  cbn [trimEnd]; rewrite Hc; cbn [andb].
  rewrite (trimStart_fixed _ _ Hc).
  pose proof (trimEnd_idem (String c r)) as H.
  cbn [trimEnd] in H; rewrite Hc in H; cbn [andb] in H.
  exact H.
Qed.

Lemma trimStart_blank s : allWhiteSpace s = true -> trimStart s = "".
Proof.
  induction s as [|c s IH]; simpl; [reflexivity|].
  intros H; apply andb_prop in H as [-> H]; auto.
Qed.

(** A string of white space only trims to the empty string. *)
Lemma trim_blank s : allWhiteSpace s = true -> trim s = "".
Proof. intros H; unfold trim; rewrite (trimStart_blank _ H); reflexivity. Qed.

(** ** Reads *)

Lemma getProp_read v k : nullish v = false -> getProp v k = Normal (read v k).
Proof. unfold read; destruct v; simpl; intros; congruence. Qed.

Lemma truthy_not_nullish v : truthy v = true -> nullish v = false.
Proof. destruct v; simpl; congruence. Qed.

Lemma falsy_false v : falsy v = false -> nullish v = false.
Proof.
  unfold falsy; intros H; apply truthy_not_nullish.
  destruct (truthy v); simpl in H; congruence.
Qed.

Lemma getPath1 v k : nullish v = false -> getPath v [k] = Normal (read v k).
Proof. intros H; simpl; rewrite (getProp_read _ _ H); reflexivity. Qed.

Lemma getPath2 v k1 k2 :
  nullish v = false -> nullish (read v k1) = false ->
  getPath v [k1; k2] = Normal (read (read v k1) k2).
Proof.
  intros H1 H2; simpl.
  rewrite (getProp_read _ _ H1); simpl.
  rewrite (getProp_read _ _ H2); reflexivity.
Qed.

Lemma missing1 v k : nullish v = false -> missing v [k] = Normal (falsy (read v k)).
Proof. intros H; unfold missing; rewrite (getPath1 _ _ H); reflexivity. Qed.

Lemma missing2 v k1 k2 :
  nullish v = false -> nullish (read v k1) = false ->
  missing v [k1; k2] = Normal (falsy (read (read v k1) k2)).
Proof. intros H1 H2; unfold missing; rewrite (getPath2 _ _ _ H1 H2); reflexivity. Qed.

(** ** The checks of POST /api/orders, block by block *)

Lemma validateRequired_spec od :
  nullish od = false ->
  validateRequired od =
    if requiredMissing od then Return (reject 400 "Missing required order information")
    else Normal tt.
Proof.
  intros H; unfold validateRequired, requiredMissing.
  rewrite !(missing1 _ _ H).
  destruct (falsy (read od "customer")); [reflexivity|].
  destruct (falsy (read od "delivery")); [reflexivity|].
  destruct (falsy (read od "payment")); [reflexivity|].
  destruct (falsy (read od "items")) eqn:Hi; [reflexivity|].
  rewrite (getPath2 _ _ _ H (falsy_false _ Hi)); simpl.
  destruct (isZero _); reflexivity.
Qed.

Lemma validateCustomer_spec od :
  nullish od = false -> nullish (read od "customer") = false ->
  validateCustomer od =
    if customerMissing od then Return (reject 400 "Customer name and phone are required")
    else Normal tt.
Proof.
  intros H Hc; unfold validateCustomer, customerMissing.
  rewrite !(missing2 _ _ _ H Hc); simpl.
  destruct (falsy (read _ "firstName")); [reflexivity|].
  destruct (falsy (read _ "lastName")); [reflexivity|].
  destruct (falsy (read _ "phone")); reflexivity.
Qed.

Lemma validateDelivery_spec od :
  nullish od = false -> nullish (read od "delivery") = false ->
  validateDelivery od =
    if deliveryMissing od then Return (reject 400 "Delivery address and city are required")
    else Normal tt.
Proof.
  intros H Hd; unfold validateDelivery, deliveryMissing.
  rewrite !(missing2 _ _ _ H Hd); simpl.
  destruct (falsy (read _ "address")); [reflexivity|].
  destruct (falsy (read _ "city")); reflexivity.
Qed.

Lemma validatePayment_spec od :
  nullish od = false -> nullish (read od "payment") = false ->
  validatePayment od =
    if methodInvalid od
    then Return (reject 400 "Valid payment method is required (bkash or cod)")
    else if transactionMissing od
    then Return (reject 400 "Transaction ID is required for bKash payment")
    else Normal tt.
Proof.
  intros H Hp; unfold validatePayment, methodInvalid, transactionMissing.
  rewrite !(missing2 _ _ _ H Hp), !(getPath2 _ _ _ H Hp).
  cbv zeta.
  destruct (falsy (read _ "method")); [reflexivity|]; cbn [orElse andAlso bind orb].
  destruct (negb (includes _ _)); [reflexivity|].
  destruct (isStr _ "bkash"); [|reflexivity]; cbn [andb].
  destruct (falsy (read _ "transactionId")); reflexivity.
Qed.

Lemma validateItemList_spec od :
  nullish od = false -> nullish (read od "items") = false ->
  validateItemList od =
    if itemsInvalid od then Return (reject 400 "Order must contain at least one item")
    else validateItems (itemsOf (read od "items")).
Proof.
  intros H Hi; unfold validateItemList, itemsInvalid.
  rewrite (getPath2 _ _ _ H Hi), !(getProp_read _ _ H).
  cbv zeta; cbn [orElse bind].
  destruct (negb (isArray _)); [reflexivity|]; cbn [orb].
  destruct (isZero _); reflexivity.
Qed.

Lemma validateTotals_spec od :
  nullish od = false ->
  validateTotals od =
    if totalsInvalid od then Return (reject 400 "Valid order total is required")
    else Normal tt.
Proof.
  intros H; unfold validateTotals, totalsInvalid.
  rewrite (missing1 _ _ H); cbv zeta; cbn [orElse bind].
  destruct (falsy (read od "totals")) eqn:Ht; [reflexivity|]; cbn [orb].
  rewrite (getPath2 _ _ _ H (falsy_false _ Ht)); cbn [bind].
  destruct (negb (isNumber _)); [reflexivity|]; cbn [orb bind].
  destruct (leZero _); reflexivity.
Qed.

Lemma validateItems_step item rest :
  nullish item = false ->
  validateItems (item :: rest) =
    if falsy (read item "productId") || falsy (read item "name")
       || falsy (read item "price") || falsy (read item "quantity")
    then Return (reject 400 "Each item must have productId, name, price, and quantity")
    else if negb (isNumber (read item "price")) || leZero (read item "price")
    then Return (reject 400 "Item price must be a positive number")
    else if negb (isNumber (read item "quantity")) || leZero (read item "quantity")
    then Return (reject 400 "Item quantity must be a positive number")
    else validateItems rest.
Proof.
  intros H; cbn [validateItems].
  rewrite !(missing1 _ _ H), !(getProp_read _ _ H); cbn [orElse bind].
  destruct (falsy (read item "productId")); [reflexivity|].
  destruct (falsy (read item "name")); [reflexivity|].
  destruct (falsy (read item "price")); [reflexivity|].
  destruct (falsy (read item "quantity")); [reflexivity|]; cbn [orb].
  destruct (negb (isNumber (read item "price")) || leZero (read item "price"));
    [reflexivity|].
  destruct (negb (isNumber (read item "quantity")) || leZero (read item "quantity"));
    reflexivity.
Qed.

Lemma validateItems_nullish item rest :
  nullish item = true -> exists e, validateItems (item :: rest) = Throw e.
Proof. destruct item; simpl; intros; try discriminate; eexists; reflexivity. Qed.

Lemma validateItems_Normal l :
  validateItems l = Normal tt <-> forallb itemOk l = true.
Proof.
  induction l as [|item rest IH]; [simpl; tauto|].
  cbn [forallb]; unfold itemOk at 1.
  destruct (nullish item) eqn:Hn.
  - destruct (validateItems_nullish item rest Hn) as [e ->]; simpl.
    split; discriminate.
  - rewrite (validateItems_step _ _ Hn); unfold falsy.
    destruct (truthy (read item "productId")), (truthy (read item "name")),
      (truthy (read item "price")), (truthy (read item "quantity")),
      (isNumber (read item "price")), (leZero (read item "price")),
      (isNumber (read item "quantity")), (leZero (read item "quantity"));
      simpl; try (split; discriminate); exact IH.
Qed.

Lemma requiredMissing_false od :
  requiredMissing od = false ->
  nullish (read od "customer") = false /\ nullish (read od "delivery") = false
  /\ nullish (read od "payment") = false /\ nullish (read od "items") = false.
Proof.
  unfold requiredMissing; intros H.
  repeat (apply orb_false_elim in H; destruct H as [H ?]).
  auto using falsy_false.
Qed.

Lemma validateOrder_nullish od :
  nullish od = true -> exists e, validateOrder od = Throw e.
Proof. destruct od; simpl; intros; try discriminate; eexists; reflexivity. Qed.

Lemma validateOrder_Normal od :
  validateOrder od = Normal tt <-> passesChecks od = true.
Proof.
  unfold passesChecks.
  destruct (nullish od) eqn:Hn.
  - destruct (validateOrder_nullish od Hn) as [e ->]; simpl; split; discriminate.
  - unfold validateOrder. rewrite (validateRequired_spec _ Hn).
    destruct (requiredMissing od) eqn:Hr; [simpl; split; discriminate|].
    destruct (requiredMissing_false _ Hr) as (Hc & Hd & Hp & Hi).
    rewrite (validateCustomer_spec _ Hn Hc), (validateDelivery_spec _ Hn Hd),
      (validatePayment_spec _ Hn Hp), (validateItemList_spec _ Hn Hi),
      (validateTotals_spec _ Hn).
    destruct (customerMissing od); [simpl; split; discriminate|].
    destruct (deliveryMissing od); [simpl; split; discriminate|].
    destruct (methodInvalid od); [simpl; split; discriminate|].
    destruct (transactionMissing od); [simpl; split; discriminate|].
    destruct (itemsInvalid od); [simpl; split; discriminate|].
    cbn [bind negb andb].
    destruct (validateItems _) as [[]| |] eqn:Hv.
    + apply validateItems_Normal in Hv; rewrite Hv; cbn [bind andb].
      destruct (totalsInvalid od); simpl; split; congruence.
    + cbn [bind]. destruct (forallb itemOk _) eqn:Hf.
      * apply validateItems_Normal in Hf; congruence.
      * simpl; split; discriminate.
    + cbn [bind]. destruct (forallb itemOk _) eqn:Hf.
      * apply validateItems_Normal in Hf; congruence.
      * simpl; split; discriminate.
Qed.

Lemma passesChecks_reads od :
  passesChecks od = true ->
  nullish od = false /\ nullish (read od "customer") = false
  /\ nullish (read od "delivery") = false /\ nullish (read od "payment") = false
  /\ nullish (read od "items") = false /\ nullish (read od "totals") = false.
Proof.
  unfold passesChecks; intros H.
  repeat (apply andb_prop in H; destruct H as [H ?]).
  apply negb_true_iff in H.
  match goal with Hr : negb (requiredMissing od) = true |- _ =>
    apply negb_true_iff, requiredMissing_false in Hr; destruct Hr as (? & ? & ? & ?) end.
  match goal with Ht : negb (totalsInvalid od) = true |- _ =>
    apply negb_true_iff in Ht; unfold totalsInvalid in Ht;
    repeat (apply orb_false_elim in Ht; destruct Ht as [Ht ?]);
    apply falsy_false in Ht end.
  auto 10.
Qed.

(** ** Computations that never answer early *)

Lemma noReturn_Normal {A} (a : A) : noReturn (Normal a).
Proof. intros r; discriminate. Qed.

Lemma noReturn_Throw {A} e : noReturn (@Throw A e).
Proof. intros r; discriminate. Qed.

Lemma noReturn_bind {A B} (c : Completion A) (k : A -> Completion B) :
  noReturn c -> (forall a, noReturn (k a)) -> noReturn (bind c k).
Proof.
  intros Hc Hk r; destruct c as [a|r'|e]; simpl.
  - apply Hk.
  - destruct (Hc r'); reflexivity.
  - discriminate.
Qed.

Lemma noReturn_lift {A} (x : Exn + A) : noReturn (lift x).
Proof. destruct x; intros r; discriminate. Qed.

Lemma noReturn_getProp v k : noReturn (getProp v k).
Proof. destruct v; intros r; simpl; discriminate. Qed.

Lemma noReturn_getPath v ks : noReturn (getPath v ks).
Proof.
  revert v; induction ks as [|k ks IH]; intros v; simpl.
  - apply noReturn_Normal.
  - apply noReturn_bind; [apply noReturn_getProp | auto].
Qed.

Lemma noReturn_callTrim v : noReturn (callTrim v).
Proof. destruct v; intros r; simpl; discriminate. Qed.

Lemma noReturn_trimOr v alt : noReturn (trimOr v alt).
Proof.
  unfold trimOr; destruct (truthy v); [apply noReturn_callTrim | apply noReturn_Normal].
Qed.

Lemma noReturn_toNumber w v : noReturn (toNumber w v).
Proof.
  destruct v; simpl; try apply noReturn_Normal;
    (apply noReturn_bind; [apply noReturn_lift | intros; apply noReturn_Normal]).
Qed.

Lemma noReturn_numberOrZero w v : noReturn (numberOrZero w v).
Proof.
  apply noReturn_bind; [apply noReturn_toNumber | intros; apply noReturn_Normal].
Qed.

Lemma noReturn_mapM {A B} (f : A -> Completion B) l :
  (forall a, noReturn (f a)) -> noReturn (mapM f l).
Proof.
  intros Hf; induction l as [|a l IH]; simpl.
  - apply noReturn_Normal.
  - apply noReturn_bind; [apply Hf|]; intros b.
    apply noReturn_bind; [apply IH|]; intros; apply noReturn_Normal.
Qed.

Create HintDb noret.

#[local] Hint Resolve noReturn_Normal noReturn_Throw noReturn_getProp noReturn_getPath
  noReturn_callTrim noReturn_trimOr noReturn_toNumber noReturn_numberOrZero : noret.

Ltac no_return :=
  repeat first
    [ progress auto with noret
    | apply noReturn_bind; [| intros ?]
    | match goal with |- noReturn (if ?b then _ else _) => destruct b end ].

Lemma noReturn_cleanItem w item : noReturn (cleanItem w item).
Proof. unfold cleanItem; no_return. Qed.

Lemma noReturn_cleanOrderData w od : noReturn (cleanOrderData w od).
Proof.
  unfold cleanOrderData; no_return.
  apply noReturn_mapM, noReturn_cleanItem.
Qed.

Lemma noReturn_save w store doc : noReturn (save w store doc).
Proof.
  unfold save; destruct doc as [this errs].
  destruct (validationErrors (this, errs)); [|apply noReturn_Throw].
  destruct (duplicateKey _ _); no_return.
Qed.

(** ** Normalisation *)

Lemma callTrim_Normal v x :
  callTrim v = Normal x -> exists s, v = JStr s /\ x = JStr (trim s).
Proof. destruct v; simpl; intros H; try discriminate; injection H as <-; eauto. Qed.

Lemma trimOr_Normal v alt x :
  trimOr v alt = Normal x ->
  (truthy v = false /\ x = alt) \/ (exists s, v = JStr s /\ truthy v = true /\ x = JStr (trim s)).
Proof.
  unfold trimOr; destruct (truthy v) eqn:Ht; intros H.
  - right. apply callTrim_Normal in H as (s & -> & ->); eauto.
  - left. injection H as <-; auto.
Qed.

Lemma cleanOrderData_Normal w od clean :
  passesChecks od = true ->
  cleanOrderData w od = Normal clean ->
  exists k : Cleaned, normalises w od k /\ clean = literalOf w od k.
Proof.
  intros Hp; destruct (passesChecks_reads _ Hp) as (Hn & Hc & Hd & Hpay & Hi & Ht).
  unfold cleanOrderData, normalises, literalOf.
  rewrite !(getPath2 _ _ _ Hn Hc), !(getPath2 _ _ _ Hn Hd), !(getPath2 _ _ _ Hn Hpay),
    !(getPath2 _ _ _ Hn Ht), !(getProp_read _ _ Hn).
  cbn [bind].
  destruct (callTrim (read (read od "customer") "firstName"))
    as [x1| |] eqn:E1; try discriminate.
  destruct (callTrim (read (read od "customer") "lastName"))
    as [x2| |] eqn:E2; try discriminate.
  destruct (callTrim (read (read od "customer") "phone"))
    as [x3| |] eqn:E3; try discriminate.
  destruct (trimOr (read (read od "customer") "email") _)
    as [x4| |] eqn:E4; try discriminate.
  destruct (callTrim (read (read od "delivery") "address"))
    as [x5| |] eqn:E5; try discriminate.
  destruct (callTrim (read (read od "delivery") "city"))
    as [x6| |] eqn:E6; try discriminate.
  destruct (trimOr (read (read od "delivery") "postalCode") _)
    as [x7| |] eqn:E7; try discriminate.
  destruct (trimOr (read (read od "payment") "transactionId") _)
    as [x8| |] eqn:E8; try discriminate.
  destruct (mapM _ _) as [x9| |] eqn:E9; try discriminate.
  destruct (numberOrZero w (read (read od "totals") "subtotal"))
    as [x10| |] eqn:E10; try discriminate.
  destruct (numberOrZero w (read (read od "totals") "deliveryCharge"))
    as [x11| |] eqn:E11; try discriminate.
  destruct (toNumber w (read (read od "totals") "total"))
    as [x12| |] eqn:E12; try discriminate.
  destruct (trimOr (read od "orderNotes") _)
    as [x13| |] eqn:E13; try discriminate.
  cbn [bind]. intros [= <-].
  apply callTrim_Normal in E1 as (s1 & -> & ->), E2 as (s2 & -> & ->), E3 as (s3 & -> & ->),
    E5 as (s5 & -> & ->), E6 as (s6 & -> & ->).
  exists (mkCleaned s1 s2 s3 x4 s5 s6 x7 x8 x9 x10 x11 x12 x13); cbn.
  repeat split; reflexivity.
Qed.

Lemma dropIfFalsy_customer a b c e :
  dropIfFalsy "email" (obj [("firstName", a); ("lastName", b); ("phone", c); ("email", e)]) =
  if falsy e then obj [("firstName", a); ("lastName", b); ("phone", c)]
  else obj [("firstName", a); ("lastName", b); ("phone", c); ("email", e)].
Proof.
  unfold dropIfFalsy.
  change (falsy (default JUndefined
    (obj [("firstName", a); ("lastName", b); ("phone", c); ("email", e)] !! "email")))
    with (falsy e).
  destruct (falsy e); reflexivity.
Qed.

Lemma dropIfFalsy_delivery a c p :
  dropIfFalsy "postalCode" (obj [("address", a); ("city", c); ("postalCode", p)]) =
  if falsy p then obj [("address", a); ("city", c)]
  else obj [("address", a); ("city", c); ("postalCode", p)].
Proof.
  unfold dropIfFalsy.
  change (falsy (default JUndefined
    (obj [("address", a); ("city", c); ("postalCode", p)] !! "postalCode")))
    with (falsy p).
  destruct (falsy p); reflexivity.
Qed.

Lemma dropIfFalsy_payment m t s :
  dropIfFalsy "transactionId" (obj [("method", m); ("transactionId", t); ("status", s)]) =
  if falsy t then obj [("method", m); ("status", s)]
  else obj [("method", m); ("transactionId", t); ("status", s)].
Proof.
  unfold dropIfFalsy.
  change (falsy (default JUndefined
    (obj [("method", m); ("transactionId", t); ("status", s)] !! "transactionId")))
    with (falsy t).
  destruct (falsy t); reflexivity.
Qed.

Lemma hydrate_literal w fn ln ph em ad ci pc me tx its sub dc tot notes :
  hydrate w (orderLiteral w fn ln ph em ad ci pc me tx its sub dc tot notes) =
  let firstName := stringPath w true Unset "customer.firstName" fn in
  let lastName := stringPath w true Unset "customer.lastName" ln in
  let phone := stringPath w true Unset "customer.phone" ph in
  let email := stringPath w true Unset "customer.email" (kept em) in
  let address := stringPath w true Unset "delivery.address" ad in
  let city := stringPath w true Unset "delivery.city" ci in
  let postalCode := stringPath w true Unset "delivery.postalCode" (kept pc) in
  let method := stringPath w false Unset "payment.method" me in
  let transactionId := stringPath w true Unset "payment.transactionId" (kept tx) in
  let its := hydrateItems w 0 its in
  let subtotal := numberPath w "totals.subtotal" sub in
  let deliveryCharge := numberPath w "totals.deliveryCharge" dc in
  let total := numberPath w "totals.total" tot in
  let orderNotes := stringPath w false (Val "") "orderNotes" notes in
  (mkOrder (newObjectId w) Unset
     (mkCustomer (fst firstName) (fst lastName) (fst phone) (fst email))
     (mkDelivery (fst address) (fst city) (fst postalCode))
     (mkPayment (fst method) (fst transactionId) (Val "pending"))
     (fst its)
     (mkTotals (fst subtotal) (fst deliveryCharge) (fst total))
     (Val "pending") (fst orderNotes) (Val "") (Val (clock w)) (Val (clock w)),
   concat [[]; snd firstName; snd lastName; snd phone; snd email;
           snd address; snd city; snd postalCode; snd method; snd transactionId;
           []; snd its; snd subtotal; snd deliveryCharge; snd total;
           []; snd orderNotes; []; []; []]).
Proof.
  unfold orderLiteral, kept.
  rewrite dropIfFalsy_customer, dropIfFalsy_delivery, dropIfFalsy_payment.
  destruct (falsy em), (falsy pc), (falsy tx); reflexivity.
Qed.

(** The customer of the document built from the normalised payload. *)
Lemma hydrate_customer w od k :
  customer (fst (hydrate w (literalOf w od k))) =
    mkCustomer (Val (trim (c_firstName k))) (Val (trim (c_lastName k)))
      (Val (trim (c_phone k)))
      (fst (stringPath w true Unset "customer.email" (kept (c_email k)))).
Proof.
  unfold literalOf; rewrite hydrate_literal; cbn [fst customer stringPath].
  rewrite !trim_idem; reflexivity.
Qed.

(** ** Saving *)

Lemma filter_all {A} (l : list A) : List.filter (fun _ => true) l = l.
Proof. induction l as [|a l IH]; [reflexivity|]. cbn; rewrite IH; reflexivity. Qed.

Lemma validationErrors_cast_free doc :
  validationErrors (doc, []) = validateDoc doc.
Proof. unfold validationErrors; cbn. apply filter_all. Qed.

Lemma save_Normal w store doc errs saved store' :
  save w store (doc, errs) = Normal (saved, store') ->
  errs = [] /\ validateDoc doc = [] /\ saved = preSave w doc
  /\ duplicateKey store saved = false /\ store' = (store ++ [saved])%list.
Proof.
  unfold save.
  destruct (validationErrors (doc, errs)) eqn:He; [|discriminate].
  apply app_eq_nil in He as [-> Hv].
  rewrite filter_all in Hv.
  destruct (duplicateKey store (preSave w doc)) eqn:Hd; [discriminate|].
  intros [= <- <-]; auto.
Qed.

Lemma preSave_customer w o : customer (preSave w o) = customer o.
Proof. unfold preSave; destruct (negb _); reflexivity. Qed.

Lemma preSave_delivery w o : delivery (preSave w o) = delivery o.
Proof. unfold preSave; destruct (negb _); reflexivity. Qed.

Lemma preSave_payment w o : payment (preSave w o) = payment o.
Proof. unfold preSave; destruct (negb _); reflexivity. Qed.

Lemma preSave_items w o : items (preSave w o) = items o.
Proof. unfold preSave; destruct (negb _); reflexivity. Qed.

Lemma preSave_totals w o : totals (preSave w o) = totals o.
Proof. unfold preSave; destruct (negb _); reflexivity. Qed.

Lemma preSave_orderNumber w o :
  orderNumber (preSave w o) =
    if fieldTruthy (orderNumber o) then orderNumber o
    else Val (generateOrderNumber (today w) (random1000 w)).
Proof. unfold preSave; destruct (fieldTruthy _); reflexivity. Qed.

Lemma requiredString_nil path msg f :
  requiredString path msg f = [] -> exists s, f = Val s /\ s <> "".
Proof.
  unfold requiredString; destruct f as [| |s]; simpl; try discriminate.
  destruct (String.eqb s "") eqn:E; simpl; [discriminate|].
  intros _; exists s; split; [reflexivity|].
  intros ->; discriminate.
Qed.

Lemma validateDoc_customer o :
  validateDoc o = [] ->
  (exists s, firstName (customer o) = Val s /\ s <> "")
  /\ (exists s, lastName (customer o) = Val s /\ s <> "")
  /\ (exists s, phone (customer o) = Val s /\ s <> "").
Proof.
  unfold validateDoc; cbn [concat]; intros H.
  apply app_eq_nil in H as [H1 H]. apply app_eq_nil in H as [H2 H].
  apply app_eq_nil in H as [H3 H].
  repeat split; eapply requiredString_nil; eassumption.
Qed.

(** ** Placing an order *)

Lemma validateItems_Return l r : validateItems l = Return r -> code r = 400.
Proof.
  induction l as [|item rest IH]; [discriminate|].
  destruct (nullish item) eqn:Hn.
  - destruct (validateItems_nullish item rest Hn) as [e ->]; discriminate.
  - rewrite (validateItems_step _ _ Hn).
    repeat match goal with |- context [if ?b then _ else _] => destruct b end;
      try (intros [= <-]; reflexivity); exact IH.
Qed.

(** Every early answer of the inline validation is a 400. *)
Lemma validateOrder_Return od r : validateOrder od = Return r -> code r = 400.
Proof.
  destruct (nullish od) eqn:Hn.
  { destruct (validateOrder_nullish od Hn) as [e ->]; discriminate. }
  unfold validateOrder. rewrite (validateRequired_spec _ Hn).
  destruct (requiredMissing od) eqn:Hr; [intros [= <-]; reflexivity|].
  destruct (requiredMissing_false _ Hr) as (Hc & Hd & Hp & Hi).
  rewrite (validateCustomer_spec _ Hn Hc), (validateDelivery_spec _ Hn Hd),
    (validatePayment_spec _ Hn Hp), (validateItemList_spec _ Hn Hi),
    (validateTotals_spec _ Hn).
  destruct (customerMissing od); [intros [= <-]; reflexivity|].
  destruct (deliveryMissing od); [intros [= <-]; reflexivity|].
  destruct (methodInvalid od); [intros [= <-]; reflexivity|].
  destruct (transactionMissing od); [intros [= <-]; reflexivity|].
  destruct (itemsInvalid od); [intros [= <-]; reflexivity|].
  cbn [bind].
  destruct (validateItems _) as [[]| |] eqn:Hv; cbn [bind].
  - destruct (totalsInvalid od); [intros [= <-]; reflexivity | discriminate].
  - intros [= <-]; eapply validateItems_Return; eassumption.
  - discriminate.
Qed.

Lemma placeOrder_Return w store od r : placeOrder w store od = Return r -> code r = 400.
Proof.
  unfold placeOrder.
  destruct (validateOrder od) as [[]| |] eqn:Hv; cbn [bind].
  - destruct (cleanOrderData w od) as [clean| |] eqn:Hc; cbn [bind].
    + intros H; destruct (noReturn_save _ _ _ _ H).
    + intros _; destruct (noReturn_cleanOrderData _ _ _ Hc).
    + discriminate.
  - intros [= <-]; eapply validateOrder_Return; eassumption.
  - discriminate.
Qed.

Lemma onCreateError_code e : code (onCreateError e) = 400 \/ code (onCreateError e) = 500.
Proof. destruct e; simpl; auto. Qed.

(** The three ways [POST /api/orders] ends. *)
Lemma createOrderWith_cases notify w store od :
  (exists saved store',
      placeOrder w store od = Normal (saved, store')
      /\ createOrderWith notify w store od =
           mkOutcomeOf (orderPlaced saved) store' (Some (notify saved)))
  \/ ((code (response (createOrderWith notify w store od)) = 400
       \/ code (response (createOrderWith notify w store od)) = 500)
      /\ collection (createOrderWith notify w store od) = store
      /\ notification (createOrderWith notify w store od) = None
      /\ forall x, placeOrder w store od <> Normal x).
Proof.
  unfold createOrderWith.
  destruct (placeOrder w store od) as [[saved store']|r|e] eqn:Hp.
  - left; eauto.
  - right; simpl; repeat split; try discriminate.
    left; eapply placeOrder_Return; eassumption.
  - right; simpl; repeat split; try discriminate.
    apply onCreateError_code.
Qed.

Lemma created_iff_placed notify w store od :
  code (response (createOrderWith notify w store od)) = 201 <->
  exists saved store', placeOrder w store od = Normal (saved, store').
Proof.
  destruct (createOrderWith_cases notify w store od)
    as [(saved & store' & Hp & ->) | ([Hc|Hc] & _ & _ & Hn)].
  - simpl; split; eauto.
  - rewrite Hc; split; [discriminate | intros (? & ? & H); destruct (Hn _ H)].
  - rewrite Hc; split; [discriminate | intros (? & ? & H); destruct (Hn _ H)].
Qed.

(** What a successful [placeOrder] went through. *)
Lemma placeOrder_Normal w store od saved store' :
  placeOrder w store od = Normal (saved, store') ->
  passesChecks od = true
  /\ exists k : Cleaned,
       normalises w od k
       /\ cleanOrderData w od = Normal (literalOf w od k)
       /\ snd (hydrate w (literalOf w od k)) = []
       /\ validateDoc (fst (hydrate w (literalOf w od k))) = []
       /\ saved = preSave w (fst (hydrate w (literalOf w od k)))
       /\ duplicateKey store saved = false
       /\ store' = (store ++ [saved])%list.
Proof.
  unfold placeOrder.
  destruct (validateOrder od) as [[]| |] eqn:Hv; try discriminate; cbn [bind].
  apply validateOrder_Normal in Hv.
  destruct (cleanOrderData w od) as [clean| |] eqn:Hc; try discriminate; cbn [bind].
  destruct (cleanOrderData_Normal _ _ _ Hv Hc) as (k & Hk & ->).
  destruct (hydrate w (literalOf w od k)) as [doc errs] eqn:Hh.
  intros Hs; apply save_Normal in Hs as (-> & Hd & -> & Hdup & ->).
  split; [assumption|]; exists k; rewrite Hh; cbn [fst snd].
  split; [exact Hk|]; auto 7.
Qed.

(** C3. A payload whose customer first name, last name or phone is a
    string that trims to the empty string (a string of white space only,
    for one) fails validation: the request is answered with an error,
    the collection is left as it was and no notification goes out. And
    when a payload is accepted (201), the three fields are strings that
    are not empty after trimming, stored trimmed. *)
Theorem blank_customer_field_rejected :
  forall (w : World) (store : Store) (od : JsVal),
    (forall (key s : string),
        In key ["firstName"; "lastName"; "phone"] ->
        read (read od "customer") key = JStr s ->
        trim s = "" \/ allWhiteSpace s = true ->
        (code (response (createOrder w store od)) = 400
         \/ code (response (createOrder w store od)) = 500)
        /\ collection (createOrder w store od) = store
        /\ notification (createOrder w store od) = None)
    /\ (code (response (createOrder w store od)) = 201 ->
        exists fn ln ph saved,
          read (read od "customer") "firstName" = JStr fn /\ trim fn <> ""
          /\ read (read od "customer") "lastName" = JStr ln /\ trim ln <> ""
          /\ read (read od "customer") "phone" = JStr ph /\ trim ph <> ""
          /\ response (createOrder w store od) = orderPlaced saved
          /\ firstName (customer saved) = Val (trim fn)
          /\ lastName (customer saved) = Val (trim ln)
          /\ phone (customer saved) = Val (trim ph)).
Proof.
  intros w store od.
  assert (Hacc : forall saved store',
    placeOrder w store od = Normal (saved, store') ->
    exists fn ln ph,
      read (read od "customer") "firstName" = JStr fn /\ trim fn <> ""
      /\ read (read od "customer") "lastName" = JStr ln /\ trim ln <> ""
      /\ read (read od "customer") "phone" = JStr ph /\ trim ph <> ""
      /\ firstName (customer saved) = Val (trim fn)
      /\ lastName (customer saved) = Val (trim ln)
      /\ phone (customer saved) = Val (trim ph)).
  { intros saved store' Hp.
    apply placeOrder_Normal in Hp as (_ & k & Hk & _ & _ & Hv & -> & _).
    destruct Hk as (H1 & H2 & H3 & _).
    apply validateDoc_customer in Hv.
    rewrite preSave_customer, hydrate_customer in *; cbn in Hv |- *.
    destruct Hv as ((s1 & [= <-] & N1) & (s2 & [= <-] & N2) & (s3 & [= <-] & N3)).
    exists (c_firstName k), (c_lastName k), (c_phone k); auto 12. }
  unfold createOrder.
  destruct (createOrderWith_cases (sendOrderConfirmation w) w store od)
    as [(saved & store' & Hp & Hout) | (Hc & Hs & Hn & _)].
  - destruct (Hacc _ _ Hp) as (fn & ln & ph & F1 & N1 & F2 & N2 & F3 & N3 & P1 & P2 & P3).
    split.
    + intros key s Hin Hr Ht; exfalso.
      assert (Hs : trim s = "")
        by (destruct Ht as [Ht|Ht]; [exact Ht | apply trim_blank, Ht]).
      cbn in Hin; destruct Hin as [<-|[<-|[<-|[]]]]; congruence.
    + intros _; exists fn, ln, ph, saved; rewrite Hout; cbn; auto 12.
  - split.
    + intros; repeat split; assumption.
    + intros H201; destruct Hc as [Hc|Hc]; rewrite Hc in H201; discriminate.
Qed.

(** ** Notification dispatch *)

Lemma sendOrderConfirmation_total w order :
  exists results,
    sendOrderConfirmation w order = Normal results
    /\ r_sms results = Some sent
    /\ (fieldTruthy (email (customer order)) = false -> r_email results = None)
    /\ (fieldTruthy (email (customer order)) = true ->
        exists o, r_email results = Some o
                  /\ (o = sent \/ exists m, o = mkOutcome false (Some m)))
    /\ (fieldTruthy (email (customer order)) = true ->
        forall s, status order = Val s ->
        r_email results =
          Some (match sendMail w (mkMail (showField (email (customer order)))
                                    ("Order Confirmation - " ++ showField (orderNumber order)
                                     ++ " | Herman Perfume")) with
                | None => sent
                | Some m => mkOutcome false (Some m)
                end)).
Proof.
  unfold sendOrderConfirmation.
  destruct (fieldTruthy (email (customer order))) eqn:He.
  - unfold getOrderConfirmationEmail, awaitSendMail.
    destruct (status order) as [| |s] eqn:Hs; cbn.
    1,2: eexists; repeat split; cbn; try discriminate; eauto.
    destruct (sendMail w _) as [m|] eqn:Hm; cbn.
    all: eexists; repeat split; cbn; try discriminate; eauto.
    all: intros _ s' _; rewrite Hm; reflexivity.
  - cbn. eexists; repeat split; cbn; try discriminate; eauto.
Qed.

Lemma preSave_status w o : status (preSave w o) = status o.
Proof. unfold preSave; destruct (negb _); reflexivity. Qed.




(** ** The order of the checks *)

(** The inline validation as a decision list over the values read. *)
Lemma validateOrder_spec od :
  nullish od = false ->
  validateOrder od =
    if requiredMissing od then Return (reject 400 "Missing required order information")
    else if customerMissing od then Return (reject 400 "Customer name and phone are required")
    else if deliveryMissing od
    then Return (reject 400 "Delivery address and city are required")
    else if methodInvalid od
    then Return (reject 400 "Valid payment method is required (bkash or cod)")
    else if transactionMissing od
    then Return (reject 400 "Transaction ID is required for bKash payment")
    else if itemsInvalid od then Return (reject 400 "Order must contain at least one item")
    else (_ <- validateItems (itemsOf (read od "items")) ;;
          if totalsInvalid od then Return (reject 400 "Valid order total is required")
          else Normal tt).
Proof.
  intros Hn; unfold validateOrder. rewrite (validateRequired_spec _ Hn).
  destruct (requiredMissing od) eqn:Hr; [reflexivity|].
  destruct (requiredMissing_false _ Hr) as (Hc & Hd & Hp & Hi).
  rewrite (validateCustomer_spec _ Hn Hc), (validateDelivery_spec _ Hn Hd),
    (validatePayment_spec _ Hn Hp), (validateItemList_spec _ Hn Hi),
    (validateTotals_spec _ Hn).
  destruct (customerMissing od); [reflexivity|].
  destruct (deliveryMissing od); [reflexivity|].
  destruct (methodInvalid od); [reflexivity|].
  destruct (transactionMissing od); [reflexivity|].
  destruct (itemsInvalid od); [reflexivity|].
  cbn [bind]. destruct (validateItems _) as [[]| |]; reflexivity.
Qed.

Lemma createOrderWith_rejected notify w store od r :
  validateOrder od = Return r ->
  createOrderWith notify w store od = mkOutcomeOf r store None.
Proof. intros H; unfold createOrderWith, placeOrder; rewrite H; reflexivity. Qed.

Lemma read_delete_ne m k k' :
  k <> k' -> read (JObj (delete k m)) k' = read (JObj m) k'.
Proof. intros H; unfold read; cbn. rewrite lookup_delete_ne by exact H; reflexivity. Qed.

Lemma read_delete_eq m k : read (JObj (delete k m)) k = JUndefined.
Proof. unfold read; cbn. rewrite lookup_delete_eq; reflexivity. Qed.

(** C4, as the code has it. A payload in which [customer], [delivery],
    [payment] or [items] is missing, or whose [items] array is empty, is
    answered 400 with the one message "Missing required order
    information", whichever of the four is missing; nothing is stored. A
    payload that passes every check and then loses its [totals] is
    answered 400 with "Valid order total is required". *)
Theorem missing_section_messages :
  forall (w : World) (store : Store) (od : JsVal),
    (nullish od = false ->
     falsy (read od "customer") = true \/ falsy (read od "delivery") = true
     \/ falsy (read od "payment") = true \/ falsy (read od "items") = true
     \/ read od "items" = JArr [] ->
     createOrder w store od =
       mkOutcomeOf (reject 400 "Missing required order information") store None)
    /\ (forall m, od = JObj m -> passesChecks od = true ->
        createOrder w store (JObj (delete "totals" m)) =
          mkOutcomeOf (reject 400 "Valid order total is required") store None).
Proof.
  intros w store od; split.
  - intros Hn H; apply createOrderWith_rejected.
    rewrite (validateOrder_spec _ Hn).
    replace (requiredMissing od) with true; [reflexivity|].
    unfold requiredMissing.
    destruct H as [->|[->|[->|[->| ->]]]]; rewrite ?orb_true_r; reflexivity.
  - intros m -> Hp; apply createOrderWith_rejected.
    rewrite validateOrder_spec by reflexivity.
    unfold passesChecks in Hp.
    repeat (apply andb_prop in Hp; destruct Hp as [Hp ?]).
    repeat match goal with H : negb _ = true |- _ => apply negb_true_iff in H end.
    unfold requiredMissing, customerMissing, deliveryMissing, methodInvalid,
      transactionMissing, itemsInvalid, totalsInvalid in *.
    rewrite !(read_delete_ne m "totals") by discriminate.
    rewrite read_delete_eq.
    repeat match goal with H : _ = false |- _ => rewrite H; clear H end.
    match goal with H : forallb itemOk _ = true |- _ =>
      apply validateItems_Normal in H; rewrite H end.
    reflexivity.
Qed.

Lemma missing_section_messages_witness :
  falsy (read (without "payment" samplePayload) "payment") = true
  /\ createOrder sampleWorld [] (without "payment" samplePayload) =
       mkOutcomeOf (reject 400 "Missing required order information") [] None.
Proof.
  split; [reflexivity|].
  apply (proj1 (missing_section_messages sampleWorld [] (without "payment" samplePayload)));
    [reflexivity|].
  right; right; left; reflexivity.
Defined.

(** Counterexample to C4 as stated: without [customer] and without [delivery] the
    same payload gets the same message, which names neither. *)
Lemma missing_sections_not_distinguished :
  response (createOrder sampleWorld [] (without "customer" samplePayload)) =
    reject 400 "Missing required order information"
  /\ response (createOrder sampleWorld [] (without "delivery" samplePayload)) =
       reject 400 "Missing required order information"
  /\ ~ (response (createOrder sampleWorld [] (without "customer" samplePayload)) <>
        response (createOrder sampleWorld [] (without "delivery" samplePayload))).
Proof.
  split; [vm_compute; reflexivity|].
  split; [vm_compute; reflexivity|].
  intros H; apply H; vm_compute; reflexivity.
Qed.

(** ** Acceptance from its parts *)

(** Normalisation succeeds on a payload that passes the checks and whose
    fields normalise. *)
Lemma cleanOrderData_complete w od k :
  passesChecks od = true -> normalises w od k ->
  cleanOrderData w od = Normal (literalOf w od k).
Proof.
  intros Hp; destruct (passesChecks_reads _ Hp) as (Hn & Hc & Hd & Hpay & Hi & Ht).
  intros (H1 & H2 & H3 & H4 & H5 & H6 & H7 & H8 & H9 & H10 & H11 & H12 & H13).
  unfold cleanOrderData, literalOf.
  rewrite !(getPath2 _ _ _ Hn Hc), !(getPath2 _ _ _ Hn Hd), !(getPath2 _ _ _ Hn Hpay),
    !(getPath2 _ _ _ Hn Ht), !(getProp_read _ _ Hn).
  cbn [bind].
  rewrite H1, H2, H3, H4, H5, H6, H7, H8, H9, H10, H11, H12, H13.
  reflexivity.
Qed.

(** The order is placed when the payload passes the checks, its fields
    normalise, the document built from them has no cast error and no
    validation error, and its keys are free. *)
Lemma placeOrder_complete w store od k :
  passesChecks od = true -> normalises w od k ->
  snd (hydrate w (literalOf w od k)) = [] ->
  validateDoc (fst (hydrate w (literalOf w od k))) = [] ->
  duplicateKey store (preSave w (fst (hydrate w (literalOf w od k)))) = false ->
  placeOrder w store od =
    Normal (preSave w (fst (hydrate w (literalOf w od k))),
            (store ++ [preSave w (fst (hydrate w (literalOf w od k)))])%list).
Proof.
  intros Hp Hk Hcast Hv Hd; unfold placeOrder.
  rewrite (proj2 (validateOrder_Normal od) Hp); cbn [bind].
  rewrite (cleanOrderData_complete w od k Hp Hk); cbn [bind].
  destruct (hydrate w (literalOf w od k)) as [doc errs]; cbn [fst snd] in *; subst errs.
  unfold save; rewrite validationErrors_cast_free, Hv, Hd; reflexivity.
Qed.

(** The same payload with another [payment], of method "cod" and without
    transaction id. *)
Lemma passesChecks_cod od od0 :
  passesChecks od0 = true ->
  (forall key, key <> "payment" -> read od key = read od0 key) ->
  read (read od "payment") "method" = JStr "cod" ->
  passesChecks od = true.
Proof.
  intros Hp Hsame Hm.
  assert (Hn : nullish od = false) by (destruct od; try reflexivity; discriminate Hm).
  assert (Hpay : falsy (read od "payment") = false).
  { destruct (read od "payment") as [| | | | | | | |]; try discriminate Hm; reflexivity. }
  unfold passesChecks in *.
  unfold requiredMissing, customerMissing, deliveryMissing, methodInvalid,
    transactionMissing, itemsInvalid, totalsInvalid in *.
  rewrite Hn, Hpay, Hm.
  rewrite !(Hsame "customer"), !(Hsame "delivery"), !(Hsame "items"), !(Hsame "totals")
    by discriminate.
  repeat (apply andb_prop in Hp as [Hp ?]).
  repeat match goal with H : negb _ = true |- _ => apply negb_true_iff in H end.
  repeat match goal with H : _ || _ = false |- _ => apply orb_false_iff in H as [H ?] end.
  repeat match goal with H : _ = false |- _ => rewrite H; clear H end.
  repeat match goal with H : _ = true |- _ => rewrite H; clear H end.
  reflexivity.
Qed.

Lemma duplicateKey_identity store o o' :
  _id o' = _id o -> orderNumber o' = orderNumber o ->
  duplicateKey store o' = duplicateKey store o.
Proof. unfold duplicateKey; intros -> ->; reflexivity. Qed.

(** A payload that differs from an accepted one in its [payment] only,
    and pays on delivery without transaction id, is accepted. *)
Lemma cod_accepted w store od od0 saved0 store0 :
  placeOrder w store od0 = Normal (saved0, store0) ->
  (forall key, key <> "payment" -> read od key = read od0 key) ->
  read (read od "payment") "method" = JStr "cod" ->
  falsy (read (read od "payment") "transactionId") = true ->
  exists saved,
    placeOrder w store od = Normal (saved, (store ++ [saved])%list)
    /\ method (payment saved) = Val "cod"
    /\ transactionId (payment saved) = Unset.
Proof.
  intros Hp Hsame Hm Htx.
  apply placeOrder_Normal in Hp as (Hchecks & k & Hk & _ & Hcast & Hv & -> & Hdup & _).
  pose proof (passesChecks_cod od od0 Hchecks Hsame Hm) as Hchecks'.
  set (k' := mkCleaned (c_firstName k) (c_lastName k) (c_phone k) (c_email k)
               (c_address k) (c_city k) (c_postalCode k) JUndefined (c_items k)
               (c_subtotal k) (c_deliveryCharge k) (c_total k) (c_orderNotes k)).
  assert (Hk' : normalises w od k').
  { destruct Hk as (H1 & H2 & H3 & H4 & H5 & H6 & H7 & H8 & H9 & H10 & H11 & H12 & H13).
    unfold normalises; cbn [k' c_firstName c_lastName c_phone c_email c_address c_city
      c_postalCode c_transactionId c_items c_subtotal c_deliveryCharge c_total c_orderNotes].
    rewrite !(Hsame "customer"), !(Hsame "delivery"), !(Hsame "items"), !(Hsame "totals"),
      !(Hsame "orderNotes") by discriminate.
    repeat (split; [assumption|]).
    split; [|split; [assumption|]].
    - unfold trimOr; unfold falsy in Htx; apply negb_true_iff in Htx; rewrite Htx.
      reflexivity.
    - repeat (split; [assumption|]). assumption. }
  revert Hcast Hv Hdup.
  unfold literalOf at 1 2 3; rewrite hydrate_literal; cbv zeta; cbn [fst snd].
  intros Hcast Hv Hdup.
  apply concat_nil_Forall in Hcast.
  unfold validateDoc in Hv; cbn [customer delivery payment items totals status
    firstName lastName phone address city method payment_status subtotal deliveryCharge
    total] in Hv.
  apply concat_nil_Forall in Hv.
  repeat match goal with H : Forall _ (_ :: _) |- _ => inversion_clear H end.
  assert (Hlit : hydrate w (literalOf w od k') =
    hydrate w (orderLiteral w (JStr (trim (c_firstName k))) (JStr (trim (c_lastName k)))
                 (JStr (trim (c_phone k))) (c_email k)
                 (JStr (trim (c_address k))) (JStr (trim (c_city k)))
                 (c_postalCode k) (JStr "cod") JUndefined (c_items k)
                 (c_subtotal k) (c_deliveryCharge k) (c_total k) (c_orderNotes k))).
  { unfold literalOf; rewrite Hm; reflexivity. }
  eexists; split; [apply (placeOrder_complete w store od k' Hchecks' Hk')|].
  - rewrite Hlit, hydrate_literal; cbv zeta; cbn [snd].
    apply concat_nil_Forall; repeat (constructor; try assumption); reflexivity.
  - rewrite Hlit, hydrate_literal; cbv zeta; cbn [fst].
    unfold validateDoc; cbn [customer delivery payment items totals status
      firstName lastName phone address city method payment_status subtotal deliveryCharge
      total].
    apply concat_nil_Forall; repeat (constructor; try assumption); reflexivity.
  - rewrite <- Hdup; apply duplicateKey_identity.
    + rewrite Hlit, hydrate_literal; unfold preSave; cbv zeta; cbn [fst orderNumber fieldTruthy negb];
        reflexivity.
    + rewrite Hlit, hydrate_literal; unfold preSave; cbv zeta; cbn [fst orderNumber fieldTruthy negb];
        reflexivity.
  - rewrite !preSave_payment, Hlit, hydrate_literal; split; reflexivity.
Qed.

(** C5, as the code has it. With [payment.method] "bkash" and a missing
    (or otherwise falsy) [payment.transactionId] the request is answered
    400 and nothing is stored; the message is the one about the
    transaction id whenever the three checks before it pass, and
    otherwise the message of the first of these three checks that
    fails. With "cod" the transaction id plays no part: a payload that
    passes the other inline checks passes them all, and a payload that
    differs only in its [payment] from one that is accepted, and that
    pays on delivery without transaction id, is accepted as well: the
    schema validators pass, the order is stored with method "cod" and no
    transaction id, and the answer is 201. A method that is neither
    "bkash" nor "cod" is never accepted. *)
Theorem payment_method_checks :
  forall (w : World) (store : Store) (od : JsVal),
    let supplied := read (read od "payment") "method" in
    let suppliedId := read (read od "payment") "transactionId" in
    (supplied = JStr "bkash" -> falsy suppliedId = true ->
     code (response (createOrder w store od)) = 400
     /\ collection (createOrder w store od) = store
     /\ (requiredMissing od = false -> customerMissing od = false ->
         deliveryMissing od = false ->
         response (createOrder w store od) =
           reject 400 "Transaction ID is required for bKash payment")
     /\ response (createOrder w store od) =
          reject 400
            (if requiredMissing od then "Missing required order information"
             else if customerMissing od then "Customer name and phone are required"
             else if deliveryMissing od then "Delivery address and city are required"
             else "Transaction ID is required for bKash payment"))
    /\ (supplied = JStr "cod" ->
        requiredMissing od = false -> customerMissing od = false ->
        deliveryMissing od = false -> itemsInvalid od = false ->
        forallb itemOk (itemsOf (read od "items")) = true -> totalsInvalid od = false ->
        validateOrder od = Normal tt)
    /\ (supplied = JStr "cod" -> falsy suppliedId = true ->
        forall (od0 : JsVal) (saved0 : Order) (store0 : Store),
          placeOrder w store od0 = Normal (saved0, store0) ->
          (forall key, key <> "payment" -> read od key = read od0 key) ->
          exists saved,
            placeOrder w store od = Normal (saved, (store ++ [saved])%list)
            /\ response (createOrder w store od) = orderPlaced saved
            /\ code (response (createOrder w store od)) = 201
            /\ collection (createOrder w store od) = (store ++ [saved])%list
            /\ method (payment saved) = Val "cod"
            /\ transactionId (payment saved) = Unset)
    /\ (includes ["bkash"; "cod"] supplied = false ->
        (code (response (createOrder w store od)) = 400
         \/ code (response (createOrder w store od)) = 500)
        /\ collection (createOrder w store od) = store).
Proof.
  intros w store od supplied suppliedId; subst supplied suppliedId.
  split; [|split; [|split]].
  - intros Hm Ht.
    assert (Hn : nullish od = false) by (destruct od; try reflexivity; discriminate).
    assert (Hv : validateOrder od =
              Return (reject 400
                (if requiredMissing od then "Missing required order information"
                 else if customerMissing od then "Customer name and phone are required"
                 else if deliveryMissing od then "Delivery address and city are required"
                 else "Transaction ID is required for bKash payment"))).
    { rewrite (validateOrder_spec _ Hn).
      unfold methodInvalid, transactionMissing; rewrite Hm, Ht; cbn.
      destruct (requiredMissing od); [reflexivity|].
      destruct (customerMissing od); [reflexivity|].
      destruct (deliveryMissing od); reflexivity. }
    unfold createOrder; rewrite (createOrderWith_rejected _ _ _ _ _ Hv); cbn.
    split; [reflexivity|]. split; [reflexivity|]. split; [|reflexivity].
    intros -> -> ->; reflexivity.
  - intros Hm Hr Hc Hd Hi Hit Ht.
    apply validateOrder_Normal; unfold passesChecks.
    assert (Hn : nullish od = false) by (destruct od; try reflexivity; discriminate).
    rewrite Hn, Hr, Hc, Hd, Hi, Hit, Ht.
    unfold methodInvalid, transactionMissing; rewrite Hm; reflexivity.
  - intros Hm Ht od0 saved0 store0 Hp Hsame.
    destruct (cod_accepted w store od od0 saved0 store0 Hp Hsame Hm Ht)
      as (saved & Hplaced & Hmethod & Htx).
    exists saved; split; [exact Hplaced|].
    unfold createOrder, createOrderWith; rewrite Hplaced; cbn.
    repeat split; assumption.
  - intros Hm. unfold createOrder.
    destruct (createOrderWith_cases (sendOrderConfirmation w) w store od)
      as [(saved & store' & Hp & _) | (Hc & Hs & _)].
    + apply placeOrder_Normal in Hp as (Hp & _).
      unfold passesChecks in Hp.
      repeat (apply andb_prop in Hp; destruct Hp as [Hp ?]).
      match goal with H : negb (methodInvalid od) = true |- _ =>
        apply negb_true_iff in H; unfold methodInvalid in H;
        apply orb_false_elim in H as [_ H]; rewrite Hm in H; discriminate end.
    + split; assumption.
Qed.

Lemma payloadWith_read customer pay pay' key :
  key <> "payment" ->
  read (payloadWith customer pay) key = read (payloadWith customer pay') key.
Proof.
  intros Hkey; unfold payloadWith, read, obj; cbn [getProp list_to_map foldr fst snd].
  destruct (decide (key = "customer")) as [->|H1]; [reflexivity|].
  rewrite !(lookup_insert_ne _ "customer" key) by congruence.
  destruct (decide (key = "delivery")) as [->|H2]; [reflexivity|].
  rewrite !(lookup_insert_ne _ "delivery" key) by congruence.
  rewrite !(lookup_insert_ne _ "payment" key) by congruence.
  reflexivity.
Qed.

Lemma payment_method_checks_witness :
  read (read bkashPayload "payment") "method" = JStr "bkash"
  /\ falsy (read (read bkashPayload "payment") "transactionId") = true
  /\ response (createOrder sampleWorld [] bkashPayload) =
       reject 400 "Transaction ID is required for bKash payment"
  /\ read (read samplePayload "payment") "method" = JStr "cod"
  /\ validateOrder samplePayload = Normal tt
  /\ placeOrder sampleWorld [] paidPayload = Normal (paidSaved, [paidSaved])
  /\ code (response (createOrder sampleWorld [] samplePayload)) = 201.
Proof.
  split; [reflexivity|]. split; [reflexivity|].
  pose proof (payment_method_checks sampleWorld [] bkashPayload) as Hb.
  pose proof (payment_method_checks sampleWorld [] samplePayload) as Hc.
  cbv zeta in Hb, Hc.
  split; [|split; [reflexivity|split; [|split]]].
  - apply (proj1 Hb); reflexivity.
  - apply (proj1 (proj2 Hc)); reflexivity.
  - vm_compute; reflexivity.
  - destruct (proj1 (proj2 (proj2 Hc)) eq_refl eq_refl paidPayload paidSaved [paidSaved])
      as (saved & _ & _ & H201 & _).
    + vm_compute; reflexivity.
    + intros key Hkey; apply payloadWith_read; exact Hkey.
    + exact H201.
Defined.

(** Counterexample to C5 as stated, where an earlier check answers first: with
    "bkash", no transaction id and no [customer], the error is the one
    about required information and says nothing of a transaction id. *)
Lemma bkash_error_not_always_transaction_id :
  read (read (without "customer" bkashPayload) "payment") "method" = JStr "bkash"
  /\ read (read (without "customer" bkashPayload) "payment") "transactionId" = JUndefined
  /\ response (createOrder sampleWorld [] (without "customer" bkashPayload)) =
       reject 400 "Missing required order information".
Proof. repeat split; vm_compute; reflexivity. Qed.

(** ** Optional fields and defaults *)

Lemma kept_trimOr v x :
  trimOr v JUndefined = Normal x ->
  (blank v /\ kept x = JUndefined)
  \/ (exists s, v = JStr s /\ trim s <> "" /\ kept x = JStr (trim s)).
Proof.
  intros H; apply trimOr_Normal in H as [[Hf ->] | (s & -> & Ht & ->)].
  - left; split; [|reflexivity]. left; unfold falsy; rewrite Hf; reflexivity.
  - unfold kept, falsy; cbn.
    destruct (String.eqb_spec (trim s) "") as [E|E]; cbn.
    + left; split; [|reflexivity]. right; eauto.
    + right; eauto.
Qed.

Lemma blank_dropped v x :
  trimOr v JUndefined = Normal x -> blank v -> falsy x = true.
Proof.
  intros H Hb; apply trimOr_Normal in H as [[Hf ->] | (s & -> & Ht & ->)];
    [reflexivity|].
  destruct Hb as [Hf | (s' & [= <-] & Hs')].
  - unfold falsy in Hf; rewrite Ht in Hf; discriminate.
  - rewrite Hs'; reflexivity.
Qed.

(** An optional String path with [trim], cast from what normalisation
    kept. *)
Lemma optional_path w path v x :
  trimOr v JUndefined = Normal x ->
  let f := fst (stringPath w true Unset path (kept x)) in
  unsetOrFilled f /\ (blank v -> f = Unset).
Proof.
  intros H; cbv zeta.
  destruct (kept_trimOr _ _ H) as [[Hb ->] | (s & -> & Hs & ->)]; cbn.
  - split; [left; reflexivity | reflexivity].
  - rewrite trim_idem; split; [right; eauto|].
    intros [Hf | (s' & [= <-] & Hs')]; [|contradiction].
    unfold falsy in Hf; cbn in Hf.
    destruct (String.eqb_spec s "") as [->|]; [destruct Hs; reflexivity | discriminate].
Qed.

Lemma unsetOrFilled_not f : unsetOrFilled f -> f <> Null /\ f <> Val "".
Proof.
  intros [-> | (s & -> & Hs)]; split; try discriminate.
  intros [= ->]; contradiction.
Qed.

Lemma cleanItem_Normal w item ci :
  cleanItem w item = Normal ci ->
  exists id nm pr qt,
    ci = JObj (obj [("productId", id); ("name", nm); ("price", pr); ("quantity", qt);
                    ("category", orVal (read item "category") (JStr "other"))]).
Proof.
  unfold cleanItem.
  destruct (nullish item) eqn:Hn.
  { destruct item; try discriminate Hn; discriminate. }
  rewrite !(getProp_read _ _ Hn); cbn [bind].
  destruct (truthy (read item "productId")); cbn [bind];
    destruct (callTrim _) as [nm| |]; try discriminate; cbn [bind];
    destruct (toNumber w (read item "price")) as [pr| |]; try discriminate; cbn [bind];
    destruct (toNumber w (read item "quantity")) as [qt| |]; try discriminate; cbn [bind];
    intros [= <-]; eauto.
Qed.

Lemma hydrateItems_category w l :
  forall its i,
    mapM (cleanItem w) l = Normal its ->
    Forall2 categoryDefaulted l (fst (hydrateItems w i its)).
Proof.
  induction l as [|item rest IH]; intros its i; cbn [mapM].
  - intros [= <-]; constructor.
  - destruct (cleanItem w item) as [ci| |] eqn:Hc; try discriminate; cbn [bind].
    destruct (mapM (cleanItem w) rest) as [cis| |] eqn:Hm; try discriminate; cbn [bind].
    intros [= <-]; cbn [hydrateItems fst].
    constructor; [|apply IH; reflexivity].
    apply cleanItem_Normal in Hc as (id & nm & pr & qt & ->).
    intros Hf; unfold orVal; unfold falsy in Hf.
    destruct (truthy (read item "category")); [discriminate|].
    reflexivity.
Qed.

Lemma numberOrZero_undefined w : numberOrZero w JUndefined = Normal (JNum 0).
Proof. reflexivity. Qed.

(** C6. For a payload that is accepted, the normalised order handed to
    the document constructor has no [customer.email], [delivery.postalCode]
    or [payment.transactionId] key whenever the supplied value is missing
    (or otherwise falsy) or trims to the empty string, and the persisted
    document has the path unset; such a path is never stored as [null] or
    as the empty string. An item without [category] is stored with
    category "other", and missing [totals.subtotal] and
    [totals.deliveryCharge] are stored as 0. *)
Theorem optional_fields_absent_when_empty :
  forall (w : World) (store : Store) (od : JsVal) (saved : Order) (store' : Store),
    placeOrder w store od = Normal (saved, store') ->
    let c := read od "customer" in
    let d := read od "delivery" in
    let p := read od "payment" in
    let t := read od "totals" in
    (exists clean,
        cleanOrderData w od = Normal clean
        /\ saved = preSave w (fst (hydrate w clean))
        /\ (blank (read c "email") -> ownKey (prop clean "customer") "email" = None)
        /\ (blank (read d "postalCode") -> ownKey (prop clean "delivery") "postalCode" = None)
        /\ (blank (read p "transactionId") ->
            ownKey (prop clean "payment") "transactionId" = None))
    /\ (blank (read c "email") -> email (customer saved) = Unset)
    /\ (blank (read d "postalCode") -> postalCode (delivery saved) = Unset)
    /\ (blank (read p "transactionId") -> transactionId (payment saved) = Unset)
    /\ unsetOrFilled (email (customer saved))
    /\ unsetOrFilled (postalCode (delivery saved))
    /\ unsetOrFilled (transactionId (payment saved))
    /\ Forall2 categoryDefaulted (itemsOf (read od "items")) (items saved)
    /\ (read t "subtotal" = JUndefined -> subtotal (totals saved) = Val 0%Q)
    /\ (read t "deliveryCharge" = JUndefined -> deliveryCharge (totals saved) = Val 0%Q).
Proof.
  intros w store od saved store' Hp; cbv zeta.
  apply placeOrder_Normal in Hp as (Hchecks & k & Hk & Hclean & _ & _ & -> & _).
  destruct Hk as (_ & _ & _ & He & _ & _ & Hpc & Htx & Hits & Hsub & Hdc & _ & _).
  rewrite preSave_customer, preSave_delivery, preSave_payment, preSave_items,
    preSave_totals.
  split.
  - exists (literalOf w od k); split; [exact Hclean|]; split; [reflexivity|].
    unfold literalOf, orderLiteral.
    repeat split; intros Hb.
    + change (prop (JObj (obj _)) "customer") with
        (JObj (dropIfFalsy "email"
           (obj [("firstName", JStr (trim (c_firstName k)));
                 ("lastName", JStr (trim (c_lastName k)));
                 ("phone", JStr (trim (c_phone k))); ("email", c_email k)]))).
      rewrite dropIfFalsy_customer, (blank_dropped _ _ He Hb); reflexivity.
    + change (prop (JObj (obj _)) "delivery") with
        (JObj (dropIfFalsy "postalCode"
           (obj [("address", JStr (trim (c_address k))); ("city", JStr (trim (c_city k)));
                 ("postalCode", c_postalCode k)]))).
      rewrite dropIfFalsy_delivery, (blank_dropped _ _ Hpc Hb); reflexivity.
    + change (prop (JObj (obj _)) "payment") with
        (JObj (dropIfFalsy "transactionId"
           (obj [("method", read (read od "payment") "method");
                 ("transactionId", c_transactionId k); ("status", JStr "pending")]))).
      rewrite dropIfFalsy_payment, (blank_dropped _ _ Htx Hb); reflexivity.
  - unfold literalOf; rewrite hydrate_literal;
      cbn [fst customer delivery payment items totals email postalCode transactionId
           subtotal deliveryCharge].
    destruct (optional_path w "customer.email" _ _ He) as [Fe Ue].
    destruct (optional_path w "delivery.postalCode" _ _ Hpc) as [Fp Up].
    destruct (optional_path w "payment.transactionId" _ _ Htx) as [Ft Ut].
    repeat split; try assumption.
    + apply hydrateItems_category; exact Hits.
    + intros E; rewrite E, numberOrZero_undefined in Hsub; injection Hsub as <-; reflexivity.
    + intros E; rewrite E, numberOrZero_undefined in Hdc; injection Hdc as <-; reflexivity.
Qed.

(** ** The format of order numbers *)

Lemma append_cons x (a b : string) : String x a ++ b = String x (a ++ b).
Proof. reflexivity. Qed.

Lemma append_assoc_str (a b c : string) : (a ++ b) ++ c = a ++ (b ++ c).
Proof.
  induction a as [|x a IH]; [reflexivity|].
  rewrite !append_cons, IH; reflexivity.
Qed.

Lemma digitsFuel_acc fuel :
  forall n acc, digitsFuel fuel n acc = digitsFuel fuel n "" ++ acc.
Proof.
  induction fuel as [|f IH]; intros n acc; cbn [digitsFuel]; [reflexivity|].
  destruct (Nat.ltb n 10); [reflexivity|].
  rewrite (IH _ (String _ acc)), (IH _ (String _ "")), append_assoc_str.
  reflexivity.
Qed.

(** From 10 on, the decimal text of a number ends with its last two
    digits. *)
Lemma natToString_last_two n :
  10 <= n -> exists p, natToString n = p ++ twoDigits n.
Proof.
  intros Hn; unfold natToString.
  assert (Hlog : 1 <= Nat.log2 n).
  { change 1 with (Nat.log2 2); apply Nat.log2_le_mono; lia. }
  destruct (Nat.log2 n) as [|f]; [lia|].
  cbn [digitsFuel].
  destruct (Nat.ltb_spec n 10) as [|_]; [lia|].
  destruct (Nat.ltb (n / 10) 10).
  - exists ""; reflexivity.
  - rewrite digitsFuel_acc; eexists; reflexivity.
Qed.

Lemma dropString_app p t : dropString (String.length p) (p ++ t) = t.
Proof.
  induction p as [|c p IH]; [destruct t; reflexivity|].
  rewrite append_cons; exact IH.
Qed.

Lemma length_append_str (a b : string) :
  String.length (a ++ b) = String.length a + String.length b.
Proof.
  induction a as [|x a IH]; [reflexivity|].
  rewrite append_cons; cbn [String.length]; rewrite IH; reflexivity.
Qed.

Lemma sliceLast_app p t : sliceLast (String.length t) (p ++ t) = t.
Proof.
  unfold sliceLast; rewrite length_append_str.
  replace (String.length p + String.length t - String.length t) with (String.length p) by lia.
  apply dropString_app.
Qed.

Lemma year_two_digits (y : Z) :
  (10 <= y)%Z -> sliceLast 2 (intToString y) = twoDigits (Z.to_nat y).
Proof.
  intros Hy; unfold intToString.
  destruct y as [|p|p]; try lia.
  destruct (natToString_last_two (Z.to_nat (Z.pos p))) as [q ->]; [lia|].
  apply (sliceLast_app q (twoDigits _)).
Qed.

Lemma below_checked (P : nat -> bool) (bound : nat) :
  forallb P (seq 0 bound) = true -> forall n, n < bound -> P n = true.
Proof.
  intros H n Hn.
  apply (proj1 (forallb_forall P (seq 0 bound)) H).
  apply in_seq; lia.
Qed.

Lemma pad2_two_digits n : n < 100 -> padStart 2 "0" (natToString n) = twoDigits n.
Proof.
  intros Hn; apply String.eqb_eq.
  apply (below_checked (fun n => String.eqb (padStart 2 "0" (natToString n)) (twoDigits n)) 100);
    [vm_compute; reflexivity | exact Hn].
Qed.

Lemma pad3_three_digits n : n < 1000 -> padStart 3 "0" (natToString n) = threeDigits n.
Proof.
  intros Hn; apply String.eqb_eq.
  apply (below_checked
           (fun n => String.eqb (padStart 3 "0" (natToString n)) (threeDigits n)) 1000);
    [vm_compute; reflexivity | exact Hn].
Qed.

Lemma isDigit_digitChar d : d < 10 -> isDigit (digitChar d) = true.
Proof. intros H; do 10 (destruct d as [|d]; [reflexivity|]); lia. Qed.

Lemma twoDigits_digits n : allDigits (twoDigits n) = true /\ String.length (twoDigits n) = 2.
Proof.
  split; [|reflexivity]. cbn [twoDigits allDigits].
  rewrite !isDigit_digitChar by (apply Nat.mod_upper_bound; lia); reflexivity.
Qed.

Lemma threeDigits_digits n : allDigits (threeDigits n) = true.
Proof.
  unfold threeDigits; cbn [allDigits].
  rewrite isDigit_digitChar by (apply Nat.mod_upper_bound; lia).
  apply twoDigits_digits.
Qed.

Lemma allDigits_app a b : allDigits (a ++ b) = allDigits a && allDigits b.
Proof.
  induction a as [|c a IH]; [reflexivity|].
  rewrite append_cons; cbn [allDigits]; rewrite IH, andb_assoc; reflexivity.
Qed.

(** An order number drawn on a calendar date is ["HM"], the last two
    digits of the year, the month and the day on two digits each, and
    the draw on three. *)
Lemma generateOrderNumber_format d random :
  (10 <= fullYear d)%Z -> month d <= 11 -> dayOfMonth d <= 31 -> random < 1000 ->
  generateOrderNumber d random =
    "HM" ++ twoDigits (Z.to_nat (fullYear d)) ++ twoDigits (month d + 1)
    ++ twoDigits (dayOfMonth d) ++ threeDigits random
  /\ orderNumberFormat (generateOrderNumber d random) = true
  /\ String.length (generateOrderNumber d random) = 11.
Proof.
  intros Hy Hm Hd Hr.
  assert (E : generateOrderNumber d random =
    "HM" ++ twoDigits (Z.to_nat (fullYear d)) ++ twoDigits (month d + 1)
    ++ twoDigits (dayOfMonth d) ++ threeDigits random).
  { unfold generateOrderNumber.
    rewrite (year_two_digits _ Hy), !pad2_two_digits, pad3_three_digits by lia.
    reflexivity. }
  rewrite E; split; [reflexivity|]; split; [|reflexivity].
  change (orderNumberFormat ("HM" ++ ?r)) with (Nat.eqb (String.length r) 9 && allDigits r).
  rewrite !allDigits_app, threeDigits_digits, !(proj1 (twoDigits_digits _)).
  reflexivity.
Qed.

(** ** PUT /api/orders/:id *)

Lemma updateData_updatedAt w st an ps :
  updateData w st an ps !! "updatedAt" = Some (JNum (inject_Z (clock w))).
Proof.
  unfold updateData; destruct (truthy st), (isDefined an), (truthy ps); reflexivity.
Qed.

Lemma updateData_status w st an ps :
  updateData w st an ps !! "status" = if truthy st then Some st else None.
Proof.
  unfold updateData; destruct (truthy st), (isDefined an), (truthy ps); reflexivity.
Qed.

Lemma updateData_adminNotes w st an ps :
  updateData w st an ps !! "adminNotes" = if isDefined an then Some an else None.
Proof.
  unfold updateData; destruct (truthy st), (isDefined an), (truthy ps); reflexivity.
Qed.

Lemma updateData_paymentStatus w st an ps :
  updateData w st an ps !! "payment.status" = if truthy ps then Some ps else None.
Proof.
  unfold updateData; destruct (truthy st), (isDefined an), (truthy ps); reflexivity.
Qed.

Lemma castUpdate_updatedAt w st an ps :
  castUpdate (datePath w) (updateData w st an ps) "updatedAt" = Normal (Some (Val (clock w))).
Proof.
  unfold castUpdate; rewrite updateData_updatedAt; cbn.
  rewrite Z.quot_1_r; reflexivity.
Qed.

Lemma castUpdate_status w st an ps :
  castUpdate (stringPath w false Null) (updateData w st an ps) "status" =
    castSupplied w "status" (truthy st) st.
Proof.
  unfold castUpdate, castSupplied; rewrite updateData_status.
  destruct (truthy st); reflexivity.
Qed.

Lemma castUpdate_adminNotes w st an ps :
  castUpdate (stringPath w false Null) (updateData w st an ps) "adminNotes" =
    castSupplied w "adminNotes" (isDefined an) an.
Proof.
  unfold castUpdate, castSupplied; rewrite updateData_adminNotes.
  destruct (isDefined an); reflexivity.
Qed.

Lemma castUpdate_paymentStatus w st an ps :
  castUpdate (stringPath w false Null) (updateData w st an ps) "payment.status" =
    castSupplied w "payment.status" (truthy ps) ps.
Proof.
  unfold castUpdate, castSupplied; rewrite updateData_paymentStatus.
  destruct (truthy ps); reflexivity.
Qed.

Lemma castSupplied_cases w key supplied v :
  (exists e, castSupplied w key supplied v = Throw e)
  \/ (exists f, castSupplied w key supplied v = Normal f
                /\ (supplied = false -> f = None)
                /\ (supplied = true -> exists x, f = Some x)
                /\ (forall s, supplied = true -> v = JStr s -> f = Some (Val s))).
Proof.
  unfold castSupplied; destruct supplied.
  - destruct (stringPath w false Null key v) as [f [|[p m] errs]] eqn:E.
    + right; exists (Some f).
      split; [reflexivity|]; split; [discriminate|]; split; [eauto|].
      intros s _ ->; cbn in E; congruence.
    + left; eauto.
  - right; exists None.
    split; [reflexivity|]; split; [reflexivity|]; split; discriminate.
Qed.

Lemma noReturn_castSupplied w key supplied v : noReturn (castSupplied w key supplied v).
Proof.
  unfold castSupplied; destruct supplied; [|apply noReturn_Normal].
  destruct (stringPath w false Null key v) as [f [|[p m] errs]];
    [apply noReturn_Normal | apply noReturn_Throw].
Qed.

(** [PUT /api/orders/:id] on an existing order, step by step. *)
Lemma updateOrder_spec w store id reqBody o :
  nullish reqBody = false ->
  findById store id = Some o ->
  let st := read reqBody "status" in
  let an := read reqBody "adminNotes" in
  let ps := read reqBody "paymentStatus" in
  updateOrder w store id reqBody =
    match castSupplied w "status" (truthy st) st with
    | Normal fs =>
        match castSupplied w "adminNotes" (isDefined an) an with
        | Normal fa =>
            match castSupplied w "payment.status" (truthy ps) ps with
            | Normal fp =>
                match (enumString "status" orderStatuses (enumMessage "status")
                         (default Unset fs)
                       ++ enumString "payment.status" paymentStatuses
                            (enumMessage "payment.status") (default Unset fp))%list with
                | [] =>
                    mkOutcomeOf (mkResponse 200 (OrderBody (updated w fs fa fp o)))
                      (replaceById id (updated w fs fa fp o) store)
                      (if truthy st && differs st (status o)
                       then Some (sendStatusUpdateNotification w (updated w fs fa fp o) st)
                       else None)
                | errors => rejectUpdate store (ValidationError errors)
                end
            | Return r => mkOutcomeOf r store None
            | Throw e => rejectUpdate store e
            end
        | Return r => mkOutcomeOf r store None
        | Throw e => rejectUpdate store e
        end
    | Return r => mkOutcomeOf r store None
    | Throw e => rejectUpdate store e
    end.
Proof.
  intros Hn Hf; cbv zeta. unfold updateOrder.
  rewrite !(getProp_read _ _ Hn); cbn [bind]. unfold updateFields; rewrite Hf.
  unfold findByIdAndUpdate.
  rewrite castUpdate_updatedAt, castUpdate_status, castUpdate_adminNotes,
    castUpdate_paymentStatus; cbn [bind].
  destruct (castSupplied w "status" _ _) as [fs| |e]; cbn [bind]; try reflexivity.
  destruct (castSupplied w "adminNotes" _ _) as [fa| |e]; cbn [bind]; try reflexivity.
  destruct (castSupplied w "payment.status" _ _) as [fp| |e]; cbn [bind]; try reflexivity.
  destruct (_ ++ _)%list; [|reflexivity].
  cbn [bind]; rewrite Hf; reflexivity.
Qed.

(** The ways [PUT /api/orders/:id] ends for an existing order. *)
Lemma updateOrder_cases w store id reqBody o :
  findById store id = Some o ->
  let st := read reqBody "status" in
  let an := read reqBody "adminNotes" in
  let ps := read reqBody "paymentStatus" in
  (exists msg, updateOrder w store id reqBody = mkOutcomeOf (reject 400 msg) store None)
  \/ (exists fs fa fp,
        updateOrder w store id reqBody =
          mkOutcomeOf (mkResponse 200 (OrderBody (updated w fs fa fp o)))
            (replaceById id (updated w fs fa fp o) store)
            (if truthy st && differs st (status o)
             then Some (sendStatusUpdateNotification w (updated w fs fa fp o) st)
             else None)
        /\ castSupplied w "status" (truthy st) st = Normal fs
        /\ castSupplied w "adminNotes" (isDefined an) an = Normal fa
        /\ castSupplied w "payment.status" (truthy ps) ps = Normal fp
        /\ enumString "status" orderStatuses (enumMessage "status") (default Unset fs) = []
        /\ enumString "payment.status" paymentStatuses (enumMessage "payment.status")
             (default Unset fp) = []).
Proof.
  intros Hf; cbv zeta.
  destruct (nullish reqBody) eqn:Hn.
  { left; destruct reqBody; try discriminate Hn; cbn; eauto. }
  rewrite (updateOrder_spec _ _ _ _ _ Hn Hf).
  destruct (castSupplied w "status" _ _) as [fs|r|e] eqn:Es;
    [|destruct (noReturn_castSupplied _ _ _ _ _ Es)|left; unfold rejectUpdate; cbn; eauto].
  destruct (castSupplied w "adminNotes" _ _) as [fa|r|e] eqn:Ea;
    [|destruct (noReturn_castSupplied _ _ _ _ _ Ea)|left; unfold rejectUpdate; cbn; eauto].
  destruct (castSupplied w "payment.status" _ _) as [fp|r|e] eqn:Ep;
    [|destruct (noReturn_castSupplied _ _ _ _ _ Ep)|left; unfold rejectUpdate; cbn; eauto].
  destruct (_ ++ _)%list eqn:E; [|left; unfold rejectUpdate; cbn; eauto].
  apply app_eq_nil in E as [E1 E2].
  right; exists fs, fa, fp; split; [reflexivity|]; auto.
Qed.

Lemma updated_frame w fs fa fp o : frame (updated w fs fa fp o) = frame o.
Proof. destruct fs, fa, fp; reflexivity. Qed.

Lemma updated_updatedAt w fs fa fp o : updatedAt (updated w fs fa fp o) = Val (clock w).
Proof. destruct fs, fa, fp; reflexivity. Qed.

Lemma updated_status w fs fa fp o : status (updated w fs fa fp o) = default (status o) fs.
Proof. destruct fs, fa, fp; reflexivity. Qed.

Lemma updated_adminNotes w fs fa fp o :
  adminNotes (updated w fs fa fp o) = default (adminNotes o) fa.
Proof. destruct fs, fa, fp; reflexivity. Qed.

Lemma updated_paymentStatus w fs fa fp o :
  payment_status (payment (updated w fs fa fp o)) = default (payment_status (payment o)) fp.
Proof. destruct fs, fa, fp; reflexivity. Qed.

Lemma updated_id w fs fa fp o : _id (updated w fs fa fp o) = _id o.
Proof. destruct fs, fa, fp; reflexivity. Qed.

Lemma updated_orderNumber w fs fa fp o : orderNumber (updated w fs fa fp o) = orderNumber o.
Proof. destruct fs, fa, fp; reflexivity. Qed.

Lemma findById_Some store id o : findById store id = Some o -> _id o = id /\ In o store.
Proof.
  unfold findById; intros H; apply find_some in H as [Hin Hid].
  apply N.eqb_eq in Hid; auto.
Qed.

Lemma findById_replaceById store id o o' :
  findById store id = Some o -> _id o' = id ->
  findById (replaceById id o' store) id = Some o'.
Proof.
  intros Hf Hid; induction store as [|x rest IH]; [discriminate|].
  cbn in Hf |- *. destruct (N.eqb (_id x) id) eqn:E.
  - cbn; rewrite Hid, N.eqb_refl; reflexivity.
  - cbn; rewrite E; auto.
Qed.

Lemma findById_replaceById_ne store id id' o' :
  _id o' = id -> id' <> id ->
  findById (replaceById id o' store) id' = findById store id'.
Proof.
  intros Hid Hne; induction store as [|x rest IH]; [reflexivity|].
  cbn. destruct (N.eqb (_id x) id) eqn:E.
  - apply N.eqb_eq in E. cbn.
    rewrite Hid, E. destruct (N.eqb_spec id id') as [->|_]; [contradiction|reflexivity].
  - cbn. destruct (N.eqb (_id x) id'); [reflexivity | exact IH].
Qed.

Lemma map_replaceById {B} (f : Order -> B) store id o o' :
  findById store id = Some o -> f o' = f o ->
  map f (replaceById id o' store) = map f store.
Proof.
  intros Hf Hfo; induction store as [|x rest IH]; [reflexivity|].
  cbn in Hf |- *. destruct (N.eqb (_id x) id).
  - injection Hf as ->; cbn; rewrite Hfo; reflexivity.
  - cbn; rewrite IH by exact Hf; reflexivity.
Qed.

Lemma castSupplied_enum w key values v :
  absentOrOneOf values v -> ~ In "" values ->
  exists f, castSupplied w key (truthy v) v = Normal f
            /\ enumString key values (enumMessage key) (default Unset f) = []
            /\ (truthy v = true <-> exists s, v = JStr s).
Proof.
  intros [-> | (s & -> & Hin)] Hne.
  - exists None; repeat split; try reflexivity; try discriminate.
    intros (s & Hs); discriminate Hs.
  - assert (Ht : truthy (JStr s) = true).
    { cbn. destruct (String.eqb_spec s "") as [->|]; [contradiction | reflexivity]. }
    exists (Some (Val s)); rewrite Ht; repeat split; eauto.
    cbn. replace (existsb (String.eqb s) values) with true; [reflexivity|].
    symmetry; apply existsb_exists; exists s; split; [exact Hin | apply String.eqb_refl].
Qed.

Lemma castSupplied_text w key v :
  v = JUndefined \/ (exists x, v = JStr x) ->
  exists f, castSupplied w key (isDefined v) v = Normal f.
Proof. intros [-> | (x & ->)]; cbn; eauto. Qed.

(** A well-typed body is accepted on an existing order. *)
Lemma wellTypedUpdate_accepted w store id reqBody o :
  findById store id = Some o -> wellTypedUpdate reqBody ->
  exists fs fa fp,
    updateOrder w store id reqBody =
      mkOutcomeOf (mkResponse 200 (OrderBody (updated w fs fa fp o)))
        (replaceById id (updated w fs fa fp o) store)
        (if truthy (read reqBody "status") && differs (read reqBody "status") (status o)
         then Some (sendStatusUpdateNotification w (updated w fs fa fp o)
                      (read reqBody "status"))
         else None).
Proof.
  intros Hf (Hn & Hs & Ha & Hp).
  destruct (castSupplied_enum w "status" _ _ Hs) as (fs & Es & Vs & _).
  { cbn; intuition discriminate. }
  destruct (castSupplied_text w "adminNotes" _ Ha) as (fa & Ea).
  destruct (castSupplied_enum w "payment.status" _ _ Hp) as (fp & Ep & Vp & _).
  { cbn; intuition discriminate. }
  exists fs, fa, fp.
  rewrite (updateOrder_spec _ _ _ _ _ Hn Hf), Es, Ea, Ep, Vs, Vp; reflexivity.
Qed.

(** C8. On an existing order, a body that supplies only [adminNotes] (a
    string) is accepted; the stored order keeps its [status], its
    [payment.status] and every other field, takes the new notes and has
    [updatedAt] set to the time of the request. For any accepted update,
    [status], [adminNotes] and [payment.status] change only when the
    body supplies them, [updatedAt] is set, nothing else changes and the
    other orders are untouched. Every body of the shape
    [{status?, adminNotes?, paymentStatus?}] is accepted, and a request
    that is not accepted changes nothing. *)
Theorem update_changes_only_supplied_fields :
  forall (w : World) (store : Store) (id : ObjectId) (reqBody : JsVal) (o : Order),
    findById store id = Some o ->
    let st := read reqBody "status" in
    let an := read reqBody "adminNotes" in
    let ps := read reqBody "paymentStatus" in
    (forall x, an = JStr x -> truthy st = false -> truthy ps = false ->
       let o' := setUpdatedAt (Val (clock w)) (setAdminNotes (Val x) o) in
       response (updateOrder w store id reqBody) = mkResponse 200 (OrderBody o')
       /\ findById (collection (updateOrder w store id reqBody)) id = Some o'
       /\ status o' = status o
       /\ payment_status (payment o') = payment_status (payment o)
       /\ frame o' = frame o
       /\ adminNotes o' = Val x
       /\ updatedAt o' = Val (clock w))
    /\ (forall o',
          response (updateOrder w store id reqBody) = mkResponse 200 (OrderBody o') ->
          findById (collection (updateOrder w store id reqBody)) id = Some o'
          /\ frame o' = frame o
          /\ updatedAt o' = Val (clock w)
          /\ (truthy st = false -> status o' = status o)
          /\ (isDefined an = false -> adminNotes o' = adminNotes o)
          /\ (truthy ps = false -> payment_status (payment o') = payment_status (payment o))
          /\ (forall id', id' <> id ->
                findById (collection (updateOrder w store id reqBody)) id' =
                  findById store id'))
    /\ (wellTypedUpdate reqBody ->
        exists o', response (updateOrder w store id reqBody) = mkResponse 200 (OrderBody o'))
    /\ (code (response (updateOrder w store id reqBody)) <> 200 ->
        collection (updateOrder w store id reqBody) = store).
Proof.
  intros w store id reqBody o Hf; cbv zeta.
  refine ((fun H12 H34 => conj (proj1 H12) (conj (proj2 H12) H34)) _ _); cycle 1.
  { split.
    - intros Hw.
      destruct (wellTypedUpdate_accepted w store id reqBody o Hf Hw) as (fs & fa & fp & ->).
      eexists; reflexivity.
    - destruct (updateOrder_cases w store id reqBody o Hf)
        as [(msg & ->) | (fs & fa & fp & -> & _)]; cbn; [reflexivity|].
      intros H; destruct H; reflexivity. }
  destruct (findById_Some _ _ _ Hf) as [Hid _].
  destruct (updateOrder_cases w store id reqBody o Hf)
    as [(msg & Hout) | (fs & fa & fp & Hout & Es & Ea & Ep & _ & _)].
  - split.
    + intros x Han Hst Hps; exfalso.
      assert (Hn : nullish reqBody = false).
      { destruct reqBody; try reflexivity; discriminate Han. }
      rewrite (updateOrder_spec _ _ _ _ _ Hn Hf), Han, Hst, Hps in Hout.
      discriminate Hout.
    + intros o' Hr; rewrite Hout in Hr; discriminate Hr.
  - rewrite Hout; cbn [response collection].
    split.
    + intros x Han Hst Hps; cbv zeta.
      rewrite Han, Hst, Hps in *; cbn in Es, Ea, Ep.
      injection Es as <-; injection Ea as <-; injection Ep as <-.
      change (updated w None (Some (Val x)) None o)
        with (setUpdatedAt (Val (clock w)) (setAdminNotes (Val x) o)).
      split; [reflexivity|].
      split; [apply (findById_replaceById _ _ o); [exact Hf | exact Hid]|].
      repeat split.
    + intros o' [= <-].
      split; [apply (findById_replaceById _ _ o); [exact Hf | rewrite updated_id; exact Hid]|].
      split; [apply updated_frame|].
      split; [apply updated_updatedAt|].
      split; [|split; [|split]].
      * intros Hst; rewrite Hst in Es; injection Es as <-. apply updated_status.
      * intros Han; rewrite Han in Ea; injection Ea as <-. apply updated_adminNotes.
      * intros Hps; rewrite Hps in Ep; injection Ep as <-. apply updated_paymentStatus.
      * intros id' Hne; apply findById_replaceById_ne; [|exact Hne].
        rewrite updated_id; exact Hid.
Qed.

Lemma noReturn_toString w v : noReturn (toString w v).
Proof. destruct v; cbn; try apply noReturn_Normal; apply noReturn_lift. Qed.

Lemma tryCatch_Normal {A} (c : Completion A) (handler : Exn -> A) :
  noReturn c -> exists a, tryCatch c (fun e => Normal (handler e)) = Normal a.
Proof.
  intros Hc; destruct c as [a|r|e]; cbn; eauto.
  destruct (Hc r); reflexivity.
Qed.

(** The status dispatcher never throws either. *)
Lemma sendStatusUpdateNotification_total w order newStatus :
  exists results, sendStatusUpdateNotification w order newStatus = Normal results.
Proof.
  unfold sendStatusUpdateNotification.
  assert (H1 : exists r1,
    (if fieldTruthy (email (customer order)) then
       tryCatch
         (key <- toString w newStatus ;;
          _ <- callToUpperCase newStatus ;;
          _ <- awaitSendMail w
                 (mkMail (showField (email (customer order)))
                    (default "undefined" (lookupMember w key statusTitles) ++ " - "
                     ++ showField (orderNumber order) ++ " | Herman Perfume")) ;;
          Normal (setEmail (mkResults None None) sent))
         (fun error => Normal (setEmail (mkResults None None) (failed error)))
     else Normal (mkResults None None)) = Normal r1).
  { destruct (fieldTruthy _); [|eauto].
    apply (tryCatch_Normal _ (fun error => setEmail (mkResults None None) (failed error))).
    apply noReturn_bind; [apply noReturn_toString|]; intros key.
    apply noReturn_bind; [destruct newStatus; cbn; auto with noret|]; intros _.
    apply noReturn_bind; [|intros; apply noReturn_Normal].
    unfold awaitSendMail; destruct (sendMail w _); auto with noret. }
  destruct H1 as [r1 ->]; cbn [bind].
  apply (tryCatch_Normal _ (fun error => setSms r1 (failed error))).
  apply noReturn_bind; [|intros; apply noReturn_Normal].
  unfold getOrderStatusSMS.
  apply noReturn_bind; [apply noReturn_toString | intros; apply noReturn_Normal].
Qed.

Ltac quiet_update :=
  split;
    [intros _; split;
       [intros Hnone; destruct Hnone; reflexivity | intros [? ?]; discriminate]|];
  split; [intros _; reflexivity|];
  split; [intros; reflexivity|];
  intros ? Hsome; discriminate Hsome.

(** C9. For an update of an existing order, the status-update
    dispatcher is invoked if and only if the body supplies a status that
    differs from the status the order had. This holds for every body of
    the shape [{status?, adminNotes?, paymentStatus?}], which is always
    accepted, and for every accepted update with "supplied" read as the
    handler's [if (status)] reads it (an empty string is treated as
    absent). A body that supplies no status, or the status the order
    already has, never triggers the dispatcher; when it is invoked it is
    with the updated order and the new status, and it completes without
    throwing. *)
Theorem status_notification_iff_status_changed :
  forall (w : World) (store : Store) (id : ObjectId) (reqBody : JsVal) (o : Order),
    findById store id = Some o ->
    let st := read reqBody "status" in
    let out := updateOrder w store id reqBody in
    (wellTypedUpdate reqBody ->
     code (response out) = 200
     /\ (notification out <> None <-> exists s, st = JStr s /\ status o <> Val s))
    /\ (code (response out) = 200 ->
        (notification out <> None <-> truthy st = true /\ differs st (status o) = true))
    /\ (truthy st = false \/ differs st (status o) = false -> notification out = None)
    /\ (forall s, st = JStr s -> status o = Val s -> notification out = None)
    /\ (forall c, notification out = Some c ->
          exists o' results,
            response out = mkResponse 200 (OrderBody o')
            /\ c = sendStatusUpdateNotification w o' st
            /\ c = Normal results).
Proof.
  intros w store id reqBody o Hf; cbv zeta.
  assert (Hcond : forall s, read reqBody "status" = JStr s -> status o = Val s ->
            differs (read reqBody "status") (status o) = false).
  { intros s -> ->; cbn; rewrite String.eqb_refl; reflexivity. }
  split.
  { intros Hw.
    destruct (wellTypedUpdate_accepted w store id reqBody o Hf Hw) as (fs & fa & fp & ->).
    cbn [response notification code]. split; [reflexivity|].
    destruct Hw as (_ & Hs & _).
    destruct Hs as [-> | (s & -> & Hin)]; cbn [truthy andb].
    - split; [intros H; destruct H; reflexivity | intros (s & Hs & _); discriminate Hs].
    - assert (Ht : negb (String.eqb s "") = true).
      { destruct (String.eqb_spec s "") as [->|]; [|reflexivity].
        cbn in Hin; intuition discriminate. }
      rewrite Ht; cbn [andb].
      destruct (status o) as [| |s'] eqn:Ho; cbn [differs].
      + split; [intros _; exists s; split; [reflexivity | discriminate] | discriminate].
      + split; [intros _; exists s; split; [reflexivity | discriminate] | discriminate].
      + destruct (String.eqb_spec s s') as [->|Hne]; cbn [negb].
        * split; [intros H; destruct H; reflexivity|].
          intros (s & [= <-] & Hd); destruct Hd; reflexivity.
        * split; [|discriminate].
          intros _; exists s; split; [reflexivity|]. intros [= ->]; contradiction. }
  destruct (updateOrder_cases w store id reqBody o Hf)
    as [(msg & ->) | (fs & fa & fp & -> & _)]; cbn [response notification code reject].
  - repeat split; try discriminate; try reflexivity.
  - destruct (truthy (read reqBody "status")) eqn:Ht;
      destruct (differs (read reqBody "status") (status o)) eqn:Hd; cbn [andb].
    + split; [intros _; split; [auto | discriminate]|].
      split; [intros [H|H]; discriminate|].
      split; [intros s Hs Ho; pose proof (Hcond s Hs Ho); congruence|].
      intros c [= <-].
      destruct (sendStatusUpdateNotification_total w (updated w fs fa fp o)
                  (read reqBody "status")) as [results Hr].
      eauto.
    + quiet_update.
    + quiet_update.
    + quiet_update.
Qed.



Lemma read_insert_eq m k v : read (JObj (<[k := v]> m)) k = v.
Proof. unfold read; cbn. rewrite lookup_insert_eq; reflexivity. Qed.

Lemma read_insert_ne m k k' v :
  k <> k' -> read (JObj (<[k := v]> m)) k' = read (JObj m) k'.
Proof. intros H; unfold read; cbn. rewrite lookup_insert_ne by exact H; reflexivity. Qed.

Lemma updateOrder_reads w store id reqBody :
  nullish reqBody = false ->
  updateOrder w store id reqBody =
    match updateFields w store id (read reqBody "status") (read reqBody "adminNotes")
            (read reqBody "paymentStatus") with
    | Normal out => out
    | Return r => mkOutcomeOf r store None
    | Throw e => mkOutcomeOf (onUpdateError e) store None
    end.
Proof. intros Hn; unfold updateOrder; rewrite !(getProp_read _ _ Hn); reflexivity. Qed.


(** ** Order numbers in the collection *)

Lemma generateOrderNumber_truthy d r : fieldTruthy (Val (generateOrderNumber d r)) = true.
Proof. reflexivity. Qed.

Lemma preSave_numbered w o : fieldTruthy (orderNumber (preSave w o)) = true.
Proof.
  rewrite preSave_orderNumber.
  destruct (fieldTruthy (orderNumber o)) eqn:E; [exact E | reflexivity].
Qed.

(** The hook leaves a number that is already there. *)
Lemma preSave_keeps_number w o :
  fieldTruthy (orderNumber o) = true -> orderNumber (preSave w o) = orderNumber o.
Proof. intros H; rewrite preSave_orderNumber, H; reflexivity. Qed.

Lemma placed_number w store od saved store' :
  placeOrder w store od = Normal (saved, store') ->
  orderNumber saved = Val (generateOrderNumber (today w) (random1000 w))
  /\ duplicateKey store saved = false
  /\ store' = (store ++ [saved])%list.
Proof.
  intros Hp; apply placeOrder_Normal in Hp as (_ & k & _ & _ & _ & _ & -> & Hd & ->).
  split; [|auto].
  rewrite preSave_orderNumber.
  unfold literalOf; rewrite hydrate_literal; reflexivity.
Qed.

Lemma sameKey_truthy a b :
  fieldTruthy a = true -> fieldTruthy b = true -> sameKey a b = false -> a <> b.
Proof.
  destruct a as [| |x], b as [| |y]; cbn; try discriminate.
  intros _ _ H [= ->]; rewrite String.eqb_refl in H; discriminate.
Qed.

Lemma duplicateKey_false store o :
  duplicateKey store o = false ->
  forall o', In o' store ->
    _id o' <> _id o /\ sameKey (orderNumber o') (orderNumber o) = false.
Proof.
  unfold duplicateKey; intros H o' Hin.
  destruct (N.eqb_spec (_id o') (_id o)) as [E|E];
    destruct (sameKey (orderNumber o') (orderNumber o)) eqn:Es; auto; exfalso.
  all: assert (Ht : existsb (fun o' => N.eqb (_id o') (_id o)
                       || sameKey (orderNumber o') (orderNumber o)) store = true)
         by (apply existsb_exists; exists o'; split; [exact Hin|];
             rewrite Es; try rewrite E; try rewrite N.eqb_refl;
             rewrite ?orb_true_r; reflexivity).
  all: rewrite Ht in H; discriminate.
Qed.

Lemma createOrder_collection w store od :
  collection (createOrder w store od) = store
  \/ exists saved,
       placeOrder w store od = Normal (saved, (store ++ [saved])%list)
       /\ collection (createOrder w store od) = (store ++ [saved])%list.
Proof.
  unfold createOrder.
  destruct (createOrderWith_cases (sendOrderConfirmation w) w store od)
    as [(saved & store' & Hp & ->) | (_ & Hs & _)]; [|auto].
  right; exists saved.
  destruct (placed_number _ _ _ _ _ Hp) as (_ & _ & ->); auto.
Qed.

Lemma updateOrder_collection w store id reqBody :
  collection (updateOrder w store id reqBody) = store
  \/ exists o o',
       findById store id = Some o
       /\ identity o' = identity o
       /\ collection (updateOrder w store id reqBody) = replaceById id o' store.
Proof.
  destruct (findById store id) as [o|] eqn:Hf.
  - destruct (updateOrder_cases w store id reqBody o Hf)
      as [(msg & ->) | (fs & fa & fp & -> & _)]; [auto|].
    right; exists o, (updated w fs fa fp o); repeat split.
    unfold identity; rewrite updated_id, updated_orderNumber; reflexivity.
  - left; unfold updateOrder.
    destruct (nullish reqBody) eqn:Hn.
    + destruct reqBody; try discriminate Hn; reflexivity.
    + rewrite !(getProp_read _ _ Hn); cbn [bind]; unfold updateFields; rewrite Hf.
      reflexivity.
Qed.

(** A request keeps every stored order's id and order number, and at
    most appends one order. *)
Lemma step_identities s s' :
  step s s' -> exists l, map identity s' = (map identity s ++ l)%list.
Proof.
  intros [(w & od & ->) | (w & id & reqBody & ->)].
  - destruct (createOrder_collection w s od) as [-> | (saved & _ & ->)].
    + exists []; rewrite app_nil_r; reflexivity.
    + exists [identity saved]; rewrite map_app; reflexivity.
  - exists []; rewrite app_nil_r.
    destruct (updateOrder_collection w s id reqBody) as [-> | (o & o' & Hf & Hi & ->)];
      [reflexivity|].
    apply (map_replaceById identity _ _ o); assumption.
Qed.

Lemma steps_identities s s' :
  rtc step s s' -> exists l, map identity s' = (map identity s ++ l)%list.
Proof.
  induction 1 as [s | s s1 s2 Hstep _ IH].
  - exists []; rewrite app_nil_r; reflexivity.
  - destruct (step_identities _ _ Hstep) as [l1 E1], IH as [l2 E2].
    exists (l1 ++ l2)%list; rewrite E2, E1, <- app_assoc; reflexivity.
Qed.

Lemma step_numbered s s' : step s s' -> numbered s -> numbered s'.
Proof.
  intros [(w & od & ->) | (w & id & reqBody & ->)] [Hall Hnd].
  - destruct (createOrder_collection w s od) as [-> | (saved & Hp & ->)];
      [split; assumption|].
    destruct (placed_number _ _ _ _ _ Hp) as (Hnum & Hdup & _).
    assert (Ht : fieldTruthy (orderNumber saved) = true) by (rewrite Hnum; reflexivity).
    unfold numbered; rewrite map_app; cbn [map].
    split.
    + apply Forall_app; split; [exact Hall|]. constructor; [exact Ht | constructor].
    + apply NoDup_app; split; [exact Hnd|]. split; [|apply NoDup_singleton].
      intros n Hn Hs. apply list_elem_of_singleton in Hs as ->.
      apply list_elem_of_In, in_map_iff in Hn as (o' & Eo & Hin).
      destruct (duplicateKey_false _ _ Hdup o' Hin) as [_ Hk].
      assert (Ht' : fieldTruthy (orderNumber o') = true).
      { rewrite Forall_forall in Hall; apply Hall.
        apply list_elem_of_In, in_map; exact Hin. }
      exact (sameKey_truthy _ _ Ht' Ht Hk Eo).
  - destruct (updateOrder_collection w s id reqBody) as [-> | (o & o' & Hf & Hi & ->)];
      [split; assumption|].
    unfold numbered.
    rewrite (map_replaceById orderNumber _ _ o o' Hf) by (injection Hi; auto).
    split; assumption.
Qed.

Lemma reachable_numbered s : reachable s -> numbered s.
Proof.
  unfold reachable; intros H.
  assert (G : forall a b, rtc step a b -> numbered a -> numbered b).
  { induction 1 as [|a b c Hs _ IH]; [auto|]. intros Ha; apply IH, (step_numbered _ _ Hs Ha). }
  apply (G [] s H). split; constructor.
Qed.

Lemma lookup_map {A B} (f : A -> B) (l : list A) :
  forall i x, l !! i = Some x -> map f l !! i = Some (f x).
Proof.
  induction l as [|a l IH]; intros [|i] x H; try discriminate.
  - injection H as ->; reflexivity.
  - apply (IH i x H).
Qed.

Lemma numbered_distinct s :
  numbered s ->
  forall i j o1 o2,
    s !! i = Some o1 -> s !! j = Some o2 -> i <> j -> orderNumber o1 <> orderNumber o2.
Proof.
  intros [_ Hnd] i j o1 o2 H1 H2 Hij E.
  apply Hij, (NoDup_lookup (map orderNumber s) i j (orderNumber o1)); [exact Hnd| |].
  - apply lookup_map; exact H1.
  - rewrite E; apply lookup_map; exact H2.
Qed.

Lemma duplicateKey_number store o o' :
  In o' store -> fieldTruthy (orderNumber o') = true ->
  orderNumber o' = orderNumber o -> duplicateKey store o = true.
Proof.
  intros Hin Ht E; unfold duplicateKey.
  apply existsb_exists; exists o'; split; [exact Hin|].
  rewrite <- E. destruct (orderNumber o') as [| |n]; try discriminate Ht.
  cbn; rewrite String.eqb_refl, orb_true_r; reflexivity.
Qed.

(** C2, as the code has it. In every collection the two routes can
    produce, any two stored orders have different order numbers: the
    unique index refuses a second order with a number already stored.
    There is no retry: when the number drawn for a new order is the
    number of a stored order, the save fails, nothing is stored, and a
    payload that would otherwise have been accepted is answered 500 with
    the storage layer's duplicate-key message. *)
Theorem order_numbers_unique_without_retry :
  (forall (s : Store), reachable s ->
     forall i j o1 o2,
       s !! i = Some o1 -> s !! j = Some o2 -> i <> j -> orderNumber o1 <> orderNumber o2)
  /\ (forall (w : World) (store : Store) (od : JsVal) (o : Order),
        In o store ->
        orderNumber o = Val (generateOrderNumber (today w) (random1000 w)) ->
        (code (response (createOrder w store od)) = 400
         \/ code (response (createOrder w store od)) = 500)
        /\ collection (createOrder w store od) = store
        /\ forall saved s',
             placeOrder w [] od = Normal (saved, s') ->
             createOrder w store od =
               mkOutcomeOf
                 (reject 500 ("Failed to place order: " ++ duplicateKeyMessage w)) store None).
Proof.
  split.
  - intros s Hs; apply numbered_distinct, reachable_numbered, Hs.
  - intros w store od o Hin Hnum.
    assert (Hno : forall x, placeOrder w store od <> Normal x).
    { intros [saved store'] Hp.
      destruct (placed_number _ _ _ _ _ Hp) as (Hs & Hdup & _).
      rewrite (duplicateKey_number store saved o Hin) in Hdup; [discriminate| |congruence].
      rewrite Hnum; reflexivity. }
    unfold createOrder.
    destruct (createOrderWith_cases (sendOrderConfirmation w) w store od)
      as [(saved & store' & Hp & _) | (Hc & Hs & _)]; [destruct (Hno _ Hp)|].
    split; [exact Hc|].
    split; [exact Hs|].
    intros saved s' Hp.
    destruct (placed_number _ _ _ _ _ Hp) as (Hsn & _ & _).
    apply placeOrder_Normal in Hp as (Hchecks & k & _ & Hclean & Herrs & Hv & -> & _).
    unfold createOrderWith, placeOrder.
    rewrite (proj2 (validateOrder_Normal od) Hchecks); cbn [bind].
    rewrite Hclean; cbn [bind].
    unfold save. destruct (hydrate w (literalOf w od k)) as [doc errs].
    cbn [fst snd] in *. rewrite Herrs, validationErrors_cast_free, Hv.
    rewrite (duplicateKey_number store (preSave w doc) o Hin); [reflexivity| |congruence].
    rewrite Hnum; reflexivity.
Qed.

Lemma order_numbers_unique_without_retry_witness :
  In sampleSaved [sampleSaved]
  /\ orderNumber sampleSaved =
       Val (generateOrderNumber (today laterWorld) (random1000 laterWorld))
  /\ collection (createOrder laterWorld [sampleSaved] samplePayload) = [sampleSaved].
Proof.
  split; [left; reflexivity|]. split; [vm_compute; reflexivity|].
  apply (proj2 order_numbers_unique_without_retry laterWorld [sampleSaved] samplePayload
           sampleSaved); [left; reflexivity | vm_compute; reflexivity].
Defined.

(** Counterexample to C2 as stated: a second order on the same day with the same
    draw is not given another number; the request is answered 500 and
    the order is not stored. The same payload with that draw is accepted
    when the collection is empty. *)
Lemma colliding_order_number_is_an_error :
  placeOrder sampleWorld [] samplePayload = Normal (sampleSaved, [sampleSaved])
  /\ createOrder laterWorld [sampleSaved] samplePayload =
       mkOutcomeOf (reject 500 "Failed to place order: E11000 duplicate key error")
         [sampleSaved] None.
Proof. split; vm_compute; reflexivity. Qed.

(** C7. The order number is assigned by the first save and never again.
    A payload has no say in it: the document built from an accepted
    payload has no number, and the hook gives it the number drawn from
    the date and the random draw. For a calendar date with a year of at
    least two digits and a draw below 1000 that number is ["HM"], two
    digits of year, two of month, two of day and three of draw, eleven
    characters in all. Saving again keeps the number, and whatever
    requests follow, every stored order keeps its id and its number. *)
Theorem order_number_assigned_once :
  forall (w : World) (store : Store) (od : JsVal) (saved : Order) (store' : Store),
    placeOrder w store od = Normal (saved, store') ->
    let d := today w in
    (exists clean,
        cleanOrderData w od = Normal clean
        /\ orderNumber (fst (hydrate w clean)) = Unset
        /\ saved = preSave w (fst (hydrate w clean)))
    /\ orderNumber saved = Val (generateOrderNumber d (random1000 w))
    /\ ((10 <= fullYear d)%Z -> month d <= 11 -> dayOfMonth d <= 31 -> random1000 w < 1000 ->
        generateOrderNumber d (random1000 w) =
          "HM" ++ twoDigits (Z.to_nat (fullYear d)) ++ twoDigits (month d + 1)
          ++ twoDigits (dayOfMonth d) ++ threeDigits (random1000 w)
        /\ orderNumberFormat (generateOrderNumber d (random1000 w)) = true
        /\ String.length (generateOrderNumber d (random1000 w)) = 11)
    /\ (forall w', orderNumber (preSave w' saved) = orderNumber saved)
    /\ (forall w' id reqBody,
          map identity (collection (updateOrder w' store' id reqBody)) = map identity store')
    /\ (forall later, rtc step store' later ->
          exists l, map identity later = (map identity store' ++ l)%list).
Proof.
  intros w store od saved store' Hp; cbv zeta.
  destruct (placed_number _ _ _ _ _ Hp) as (Hnum & _ & _).
  split.
  { apply placeOrder_Normal in Hp as (_ & k & _ & Hclean & _ & _ & Hsaved & _).
    exists (literalOf w od k); split; [exact Hclean|]; split; [|exact Hsaved].
    unfold literalOf; rewrite hydrate_literal; reflexivity. }
  split; [exact Hnum|].
  split; [intros; apply generateOrderNumber_format; assumption|].
  split; [intros w'; apply preSave_keeps_number; rewrite Hnum; reflexivity|].
  split; [|apply steps_identities].
  intros w' id reqBody.
  destruct (updateOrder_collection w' store' id reqBody) as [-> | (o & o' & Hf & Hi & ->)];
    [reflexivity|].
  apply (map_replaceById identity _ _ o); assumption.
Qed.

Lemma order_number_assigned_once_witness :
  placeOrder sampleWorld [] samplePayload = Normal (sampleSaved, [sampleSaved])
  /\ orderNumber sampleSaved = Val "HM250115042"
  /\ orderNumberFormat "HM250115042" = true.
Proof.
  split; [vm_compute; reflexivity|].
  pose proof (order_number_assigned_once sampleWorld [] samplePayload sampleSaved
                [sampleSaved]) as H.
  cbv zeta in H.
  destruct H as (_ & Hnum & Hfmt & _); [vm_compute; reflexivity|].
  split; [exact Hnum|].
  apply Hfmt; vm_compute; try reflexivity; try lia; discriminate.
Defined.

(** ** The theorems at sample inputs *)

Lemma blank_customer_field_rejected_witness :
  In "firstName" ["firstName"; "lastName"; "phone"]
  /\ read (read blankNamePayload "customer") "firstName" = JStr "   "
  /\ allWhiteSpace "   " = true
  /\ (code (response (createOrder sampleWorld [] blankNamePayload)) = 400
      \/ code (response (createOrder sampleWorld [] blankNamePayload)) = 500).
Proof.
  split; [left; reflexivity|]. split; [reflexivity|]. split; [reflexivity|].
  apply (proj1 (blank_customer_field_rejected sampleWorld [] blankNamePayload)
           "firstName" "   "); [left; reflexivity | reflexivity | right; reflexivity].
Defined.

Lemma optional_fields_absent_when_empty_witness :
  placeOrder sampleWorld [] blankEmailPayload = Normal (blankEmailSaved, [blankEmailSaved])
  /\ blank (read (read blankEmailPayload "customer") "email")
  /\ email (customer blankEmailSaved) = Unset.
Proof.
  split; [vm_compute; reflexivity|].
  assert (Hb : blank (read (read blankEmailPayload "customer") "email")).
  { right; exists "  "; split; reflexivity. }
  split; [exact Hb|].
  pose proof (optional_fields_absent_when_empty sampleWorld [] blankEmailPayload
                blankEmailSaved [blankEmailSaved]) as H.
  cbv zeta in H.
  destruct H as (_ & He & _); [vm_compute; reflexivity|].
  exact (He Hb).
Defined.

Lemma update_changes_only_supplied_fields_witness :
  findById [sampleSaved] 1%N = Some sampleSaved
  /\ read (JObj {["adminNotes" := JStr "call before delivery"]}) "adminNotes" =
       JStr "call before delivery"
  /\ response (updateOrder laterWorld [sampleSaved] 1%N
                 (JObj {["adminNotes" := JStr "call before delivery"]})) =
       mkResponse 200
         (OrderBody (setUpdatedAt (Val (clock laterWorld))
                       (setAdminNotes (Val "call before delivery") sampleSaved))).
Proof.
  split; [reflexivity|]. split; [reflexivity|].
  pose proof (update_changes_only_supplied_fields laterWorld [sampleSaved] 1%N
                (JObj {["adminNotes" := JStr "call before delivery"]}) sampleSaved) as H.
  cbv zeta in H.
  destruct H as (H & _); [reflexivity|].
  destruct (H "call before delivery") as (Hr & _); [reflexivity..|].
  exact Hr.
Defined.

Lemma status_notification_iff_status_changed_witness :
  findById [sampleSaved] 1%N = Some sampleSaved
  /\ wellTypedUpdate (JObj {["status" := JStr "shipped"]})
  /\ code (response (updateOrder laterWorld [sampleSaved] 1%N
                       (JObj {["status" := JStr "shipped"]}))) = 200
  /\ notification (updateOrder laterWorld [sampleSaved] 1%N
                     (JObj {["status" := JStr "shipped"]})) <> None.
Proof.
  split; [reflexivity|].
  assert (Hw : wellTypedUpdate (JObj {["status" := JStr "shipped"]})).
  { split; [reflexivity|].
    split; [right; exists "shipped"; split; [reflexivity | cbn; auto 10]|].
    split; left; reflexivity. }
  split; [exact Hw|].
  pose proof (status_notification_iff_status_changed laterWorld [sampleSaved] 1%N
                (JObj {["status" := JStr "shipped"]}) sampleSaved) as H.
  cbv zeta in H.
  destruct H as (H1 & H2 & _); [reflexivity|].
  destruct (H1 Hw) as [Hc _].
  split; [exact Hc|].
  apply (proj2 (H2 Hc)); split; reflexivity.
Defined.


(** ** Worked examples *)

(** Two items (50 x 2 and 30 x 1) with a total of 130: the request is
    answered 201 with an order numbered ["HM"], date, three digits, in
    status "pending". *)
Example two_items_order_placed :
  response (createOrder sampleWorld [] samplePayload) = orderPlaced sampleSaved
  /\ code (orderPlaced sampleSaved) = 201
  /\ orderNumber sampleSaved = Val "HM250115042"
  /\ status sampleSaved = Val "pending".
Proof. repeat split; vm_compute; reflexivity. Qed.

(** A first name of white space only is refused by the schema's
    [required] validator once it has been trimmed. *)
Example blank_first_name_response :
  response (createOrder sampleWorld [] blankNamePayload) =
    mkResponse 400
      (ErrorDetails "Order validation failed"
         [("customer.firstName", "First name is required")]).
Proof. vm_compute; reflexivity. Qed.

(** Setting the status to "shipped" on an order with an email: the
    response carries the order with the new status, the email outcome is
    a success when the transport accepts the mail, and the SMS text
    speaks of the shipping. *)
Example shipped_update_notifies :
  let out := updateOrder sampleWorld [sampleSaved] 1%N (JObj {["status" := JStr "shipped"]}) in
  response out =
    mkResponse 200
      (OrderBody (setUpdatedAt (Val (clock sampleWorld)) (setStatus (Val "shipped") sampleSaved)))
  /\ notification out = Some (Normal (mkResults (Some sent) (Some sent)))
  /\ getOrderStatusSMS sampleWorld sampleSaved (JStr "shipped") =
       Normal ("Herman Perfume: Great news! Your order HM250115042 has been shipped "
               ++ "and is on the way. Track: www.hermanperfume.com/track").
Proof. repeat split; vm_compute; reflexivity. Qed.

(** A status that is not one of the six gets the fallback text. *)
Example unknown_status_sms :
  getOrderStatusSMS sampleWorld sampleSaved (JStr "returned") =
    Normal "Herman Perfume: Order status updated. Track: www.hermanperfume.com/track".
Proof. vm_compute; reflexivity. Qed.

(** * Orders once stored *)

Lemma Normal_inj {A} (a b : A) : Normal a = Normal b -> a = b.
Proof. congruence. Qed.

Lemma preSave_adminNotes w o : adminNotes (preSave w o) = adminNotes o.
Proof. unfold preSave; destruct (negb _); reflexivity. Qed.

Lemma preSave_createdAt w o : createdAt (preSave w o) = createdAt o.
Proof. unfold preSave; destruct (negb _); reflexivity. Qed.

Lemma preSave_updatedAt w o : updatedAt (preSave w o) = Val (saveClock w).
Proof. unfold preSave; destruct (negb _); reflexivity. Qed.

Lemma preSave_id w o : _id (preSave w o) = _id o.
Proof. unfold preSave; destruct (negb _); reflexivity. Qed.

Lemma validateDoc_preSave w o : validateDoc (preSave w o) = validateDoc o.
Proof. unfold preSave; destruct (negb _); reflexivity. Qed.

(** X1. Whatever the payload says, a new order starts in the state the
    route gives it: status "pending", payment status "pending", empty
    admin notes, and the id the constructor drew. Its [createdAt] is the
    time the handler read when it built the order and its [updatedAt]
    the time the [pre('save')] hook read later, so the two need not be
    equal. Keys such as [status], [adminNotes], [payment.status],
    [createdAt] or [updatedAt] in the payload have no effect. *)
Theorem new_order_starts_pending :
  forall (w : World) (store : Store) (od : JsVal) (saved : Order) (store' : Store),
    placeOrder w store od = Normal (saved, store') ->
    status saved = Val "pending"
    /\ payment_status (payment saved) = Val "pending"
    /\ adminNotes saved = Val ""
    /\ createdAt saved = Val (clock w)
    /\ updatedAt saved = Val (saveClock w)
    /\ _id saved = newObjectId w.
Proof.
  intros w store od saved store' Hp.
  apply placeOrder_Normal in Hp as (_ & k & _ & _ & _ & _ & -> & _).
  rewrite preSave_status, preSave_payment, preSave_adminNotes, preSave_createdAt,
    preSave_updatedAt, preSave_id.
  unfold literalOf; rewrite hydrate_literal.
  repeat split.
Qed.

Lemma requiredMin_nil path msg m minMsg f :
  requiredMin path msg m minMsg f = [] -> exists q, f = Val q /\ (m <= q)%Q.
Proof.
  destruct f as [| |q]; cbn; try discriminate.
  destruct (Qle_bool m q) eqn:E; [|discriminate].
  intros _; exists q; split; [reflexivity|]. apply Qle_bool_iff; exact E.
Qed.

Lemma validateDoc_totals o :
  validateDoc o = [] ->
  (exists q, subtotal (totals o) = Val q /\ (0 <= q)%Q)
  /\ (exists q, deliveryCharge (totals o) = Val q /\ (0 <= q)%Q)
  /\ (exists q, total (totals o) = Val q /\ (0 <= q)%Q).
Proof.
  unfold validateDoc; intros H.
  apply concat_nil_Forall in H.
  repeat match goal with H : Forall _ (_ :: _) |- _ => inversion_clear H end.
  repeat split; eapply requiredMin_nil; eassumption.
Qed.

Lemma validateDoc_items o : validateDoc o = [] -> validateItemDocs 0 (items o) = [].
Proof.
  unfold validateDoc; intros H.
  apply concat_nil_Forall in H.
  repeat match goal with H : Forall _ (_ :: _) |- _ => inversion_clear H end.
  assumption.
Qed.

Lemma number_positive v :
  isNumber v = true -> leZero v = false -> truthy v = true \/ v = JNaN ->
  (exists q, v = JNum q /\ (0 < q)%Q) \/ v = JNaN.
Proof.
  destruct v; cbn; try discriminate; auto.
  intros _ Hle _; left; exists q; split; [reflexivity|].
  apply Qnot_le_lt; intros Hq; apply Qle_bool_iff in Hq; congruence.
Qed.

Lemma orVal_number q : exists q', orVal (JNum q) (JNum 0) = JNum q' /\ (q' == q)%Q.
Proof.
  unfold orVal; cbn. destruct (Qeq_bool q 0) eqn:E; cbn.
  - exists 0%Q; split; [reflexivity|]. apply Qeq_bool_iff in E. symmetry; exact E.
  - exists q; split; reflexivity.
Qed.

(** X2. The totals of an accepted order are stored as the client sent
    them: a numeric [totals.total] is stored unchanged and is positive,
    numeric [subtotal] and [deliveryCharge] are stored with their value
    and are not negative. Nothing compares them with each other or with
    the items. *)
Theorem totals_stored_as_sent :
  forall (w : World) (store : Store) (od : JsVal) (saved : Order) (store' : Store),
    placeOrder w store od = Normal (saved, store') ->
    let t := read od "totals" in
    (forall q, read t "total" = JNum q -> total (totals saved) = Val q /\ (0 < q)%Q)
    /\ (forall q, read t "subtotal" = JNum q ->
          exists q', subtotal (totals saved) = Val q' /\ (q' == q)%Q /\ (0 <= q)%Q)
    /\ (forall q, read t "deliveryCharge" = JNum q ->
          exists q', deliveryCharge (totals saved) = Val q' /\ (q' == q)%Q /\ (0 <= q)%Q).
Proof.
  intros w store od saved store' Hp; cbv zeta.
  apply placeOrder_Normal in Hp as (Hchecks & k & Hk & _ & _ & Hv & -> & _).
  destruct Hk as (_ & _ & _ & _ & _ & _ & _ & _ & _ & Hsub & Hdc & Htot & _).
  apply validateDoc_totals in Hv; revert Hv.
  rewrite preSave_totals.
  unfold literalOf; rewrite hydrate_literal; cbn [fst totals subtotal deliveryCharge total].
  intros ((qs & Hqs & Hs0) & (qd & Hqd & Hd0) & _).
  unfold passesChecks in Hchecks.
  repeat (apply andb_prop in Hchecks as [Hchecks ?]).
  match goal with H : negb (totalsInvalid od) = true |- _ => rename H into Ht end.
  apply negb_true_iff in Ht; unfold totalsInvalid in Ht.
  apply orb_false_iff in Ht as [Ht Hle]; apply orb_false_iff in Ht as [_ Hn].
  split; [intros q E; split|split].
  - rewrite E in Htot; cbn in Htot; injection Htot as <-; reflexivity.
  - rewrite E in Hle; cbn in Hle.
    apply Qnot_le_lt; intros Hq; apply Qle_bool_iff in Hq; congruence.
  - intros q E; rewrite E in Hsub;
      change (numberOrZero w (JNum q)) with (Normal (orVal (JNum q) (JNum 0))) in Hsub.
    destruct (orVal_number q) as (q' & Eo & Eq).
    injection Hsub as Hsub. rewrite <- Hsub, Eo in Hqs; cbn in Hqs.
    exists q'; split; [rewrite <- Hsub, Eo; reflexivity|]. split; [exact Eq|].
    injection Hqs as <-. rewrite <- Eq; exact Hs0.
  - intros q E; rewrite E in Hdc;
      change (numberOrZero w (JNum q)) with (Normal (orVal (JNum q) (JNum 0))) in Hdc.
    destruct (orVal_number q) as (q' & Eo & Eq).
    injection Hdc as Hdc. rewrite <- Hdc, Eo in Hqd; cbn in Hqd.
    exists q'; split; [rewrite <- Hdc, Eo; reflexivity|]. split; [exact Eq|].
    injection Hqd as <-. rewrite <- Eq; exact Hd0.
Qed.

Lemma hydrateItem_literal w i id nm pr qt ct :
  hydrateItem w i (JObj (obj [("productId", id); ("name", nm); ("price", pr);
                              ("quantity", qt); ("category", ct)])) =
  let p k := "items." ++ natToString i ++ "." ++ k in
  let productId := stringPath w false Unset (p "productId") id in
  let name := stringPath w true Unset (p "name") nm in
  let price := numberPath w (p "price") pr in
  let quantity := numberPath w (p "quantity") qt in
  let category := stringPath w false (Val "other") (p "category") ct in
  (mkItem (fst productId) (fst name) (fst price) (fst quantity) (fst category),
   concat [snd productId; snd name; snd price; snd quantity; snd category]).
Proof. reflexivity. Qed.

Lemma truthy_number v :
  truthy v = true -> isNumber v = true -> exists q, v = JNum q.
Proof. destruct v; cbn; try discriminate; eauto. Qed.

Lemma item_stored w item ci i :
  itemOk item = true ->
  cleanItem w item = Normal ci ->
  validateItem i (fst (hydrateItem w i ci)) = [] ->
  itemStored item (fst (hydrateItem w i ci)).
Proof.
  unfold itemOk; intros Hok.
  repeat (apply andb_prop in Hok as [Hok ?]).
  apply negb_true_iff in Hok.
  destruct (truthy_number (read item "price")) as (p & Ep); [assumption..|].
  destruct (truthy_number (read item "quantity")) as (q & Eq); [assumption..|].
  unfold cleanItem; rewrite !(getProp_read item) by exact Hok; cbn [bind].
  destruct (truthy (read item "productId")) eqn:Hpid; [|discriminate]; cbn [bind].
  destruct (callTrim (read item "name")) as [nm'| |] eqn:Hnm; try discriminate; cbn [bind].
  apply callTrim_Normal in Hnm as (nm & Enm & ->).
  rewrite Ep, Eq; cbn [toNumber bind].
  intros [= <-].
  change (hydrateItem w i _) with
    (hydrateItem w i
       (JObj (obj [("productId", read item "productId"); ("name", JStr (trim nm));
                   ("price", JNum p); ("quantity", JNum q);
                   ("category", orVal (read item "category") (JStr "other"))]))).
  rewrite hydrateItem_literal; cbv zeta; cbn [fst].
  unfold validateItem; intros Hv; apply concat_nil_Forall in Hv.
  repeat match goal with H : Forall _ (_ :: _) |- _ => inversion_clear H end.
  cbn [productId name price quantity] in *.
  exists nm, p, q.
  match goal with H : requiredString _ "Product name is required" _ = [] |- _ =>
    apply requiredString_nil in H as (s & Es & Hs); rewrite trim_idem in Es;
    injection Es as <- end.
  assert (Hq1 : (1 <= q)%Q).
  { match goal with H : (if Qle_bool 1 q then _ else _) = [] |- _ =>
      destruct (Qle_bool 1 q) eqn:E; [apply Qle_bool_iff; exact E | discriminate] end. }
  match goal with H : requiredString _ "Product ID is required" ?f = [] |- _ =>
    assert (Hid : fieldTruthy f = true)
      by (unfold requiredString in H; destruct (fieldTruthy f); [reflexivity|discriminate])
  end.
  repeat split; try assumption; try reflexivity.
  - cbn; rewrite trim_idem; reflexivity.
  - match goal with H : negb (leZero (read item "price")) = true |- _ =>
      rewrite Ep in H; cbn in H; apply negb_true_iff in H;
      apply Qnot_le_lt; intros Hq; apply Qle_bool_iff in Hq; congruence end.
Qed.

Lemma hydrateItems_stored w l :
  forall its i,
    forallb itemOk l = true ->
    mapM (cleanItem w) l = Normal its ->
    validateItemDocs i (fst (hydrateItems w i its)) = [] ->
    Forall2 itemStored l (fst (hydrateItems w i its)).
Proof.
  induction l as [|item rest IH]; intros its i; cbn [mapM forallb].
  - intros _ [= <-] _; constructor.
  - intros Hok; apply andb_prop in Hok as [Hok Hrest].
    destruct (cleanItem w item) as [ci| |] eqn:Hc; try discriminate; cbn [bind].
    destruct (mapM (cleanItem w) rest) as [cis| |] eqn:Hm; try discriminate; cbn [bind].
    intros [= <-]; cbn [hydrateItems fst validateItemDocs].
    intros Hv; apply concat_nil_Forall in Hv.
    repeat match goal with H : Forall _ (_ :: _) |- _ => inversion_clear H end.
    constructor; [eapply item_stored; eassumption|].
    apply IH; [exact Hrest | reflexivity | assumption].
Qed.

(** X3. The items of an accepted order are stored one for one, in the
    order of the payload: each with its trimmed name, which is not
    empty, its price, which is a positive number, its quantity, which is
    a number of at least 1, and a product id; the list is not empty. *)
Theorem stored_items_within_bounds :
  forall (w : World) (store : Store) (od : JsVal) (saved : Order) (store' : Store),
    placeOrder w store od = Normal (saved, store') ->
    Forall2 itemStored (itemsOf (read od "items")) (items saved)
    /\ items saved <> [].
Proof.
  intros w store od saved store' Hp.
  apply placeOrder_Normal in Hp as (Hchecks & k & Hk & _ & _ & Hv & -> & _).
  destruct Hk as (_ & _ & _ & _ & _ & _ & _ & _ & Hits & _).
  apply validateDoc_items in Hv; revert Hv.
  rewrite preSave_items.
  unfold literalOf; rewrite hydrate_literal; cbn [fst items].
  intros Hv.
  unfold passesChecks in Hchecks.
  repeat (apply andb_prop in Hchecks as [Hchecks ?]).
  match goal with H : forallb itemOk _ = true |- _ => rename H into Hok end.
  match goal with H : negb (itemsInvalid od) = true |- _ => rename H into Hinv end.
  assert (HF : Forall2 itemStored (itemsOf (read od "items"))
                 (fst (hydrateItems w 0 (c_items k))))
    by (apply hydrateItems_stored; assumption).
  split; [exact HF|].
  intros E; rewrite E in HF; inversion HF as [El|]; subst.
  apply negb_true_iff in Hinv; unfold itemsInvalid in Hinv.
  apply orb_false_iff in Hinv as [Harr Hlen].
  destruct (read od "items") as [| | | | | | |l|]; try discriminate.
  cbn in El; subst l. discriminate.
Qed.

Lemma validateDoc_updated w fs fa fp o :
  validateDoc o = [] ->
  enumString "status" orderStatuses (enumMessage "status") (default Unset fs) = [] ->
  enumString "payment.status" paymentStatuses (enumMessage "payment.status")
    (default Unset fp) = [] ->
  validateDoc (updated w fs fa fp o) = [].
Proof.
  unfold validateDoc; intros H Hs Hp.
  apply concat_nil_Forall in H; apply concat_nil_Forall.
  repeat match goal with H : Forall _ (_ :: _) |- _ => inversion_clear H end.
  destruct o as [i n c d [m t ps] its tot s on an ca ua].
  destruct fs as [s'|], fa as [a'|], fp as [p'|]; cbn in *;
    repeat (constructor; try assumption).
Qed.

Lemma Forall_replaceById (P : Order -> Prop) id o' store :
  Forall P store -> P o' -> Forall P (replaceById id o' store).
Proof.
  intros H Ho'; induction H as [|o rest Ho Hrest IH]; cbn; [constructor|].
  destruct (N.eqb (_id o) id); constructor; assumption.
Qed.

Lemma updateOrder_unknown w store id reqBody :
  findById store id = None -> collection (updateOrder w store id reqBody) = store.
Proof.
  intros Hf.
  destruct (updateOrder_collection w store id reqBody) as [E|(o & _ & Ho & _)];
    [exact E | congruence].
Qed.

Lemma step_valid s s' :
  step s s' -> Forall (fun o => validateDoc o = []) s ->
  Forall (fun o => validateDoc o = []) s'.
Proof.
  intros [(w & od & ->)|(w & id & reqBody & ->)] Hs.
  - destruct (createOrder_collection w s od) as [->|(saved & Hp & ->)]; [exact Hs|].
    apply Forall_app; split; [exact Hs|]. constructor; [|constructor].
    apply placeOrder_Normal in Hp as (_ & k & _ & _ & _ & Hv & -> & _).
    rewrite validateDoc_preSave; exact Hv.
  - destruct (findById s id) as [o|] eqn:Hf; [|rewrite updateOrder_unknown; assumption].
    destruct (updateOrder_cases w s id reqBody o Hf)
      as [(msg & ->)|(fs & fa & fp & -> & _ & _ & _ & Hes & Hep)]; [exact Hs|].
    cbn [collection]. apply Forall_replaceById; [exact Hs|].
    apply validateDoc_updated; [|assumption..].
    apply findById_Some in Hf as [_ Hin].
    rewrite List.Forall_forall in Hs; apply Hs; exact Hin.
Qed.

(** X4. Every order of every collection the two routes can produce
    passes every validator of the order schema: updates cannot take a
    stored order out of the schema. *)
Theorem stored_orders_stay_valid :
  forall s : Store, reachable s -> Forall (fun o => validateDoc o = []) s.
Proof.
  intros s H; unfold reachable in H.
  apply rtc_ind_r with (x := @nil Order) (P := fun s => Forall (fun o => validateDoc o = []) s)
    in H; [exact H | constructor |].
  intros y z _ Hstep IH; eapply step_valid; eassumption.
Qed.

Lemma stored_orders_stay_valid_witness :
  reachable [sampleSaved] /\ Forall (fun o => validateDoc o = []) [sampleSaved].
Proof.
  assert (Hr : reachable [sampleSaved]).
  { apply rtc_once; left; exists sampleWorld, samplePayload; vm_compute; reflexivity. }
  split; [exact Hr|]. exact (stored_orders_stay_valid [sampleSaved] Hr).
Defined.

Lemma find_app_new {A} (f : A -> bool) l a :
  (forall x, In x l -> f x = false) -> f a = true -> List.find f (l ++ [a])%list = Some a.
Proof.
  intros Hl Ha; induction l as [|x l IH]; cbn.
  - rewrite Ha; reflexivity.
  - rewrite (Hl x) by (left; reflexivity). apply IH; intros y Hy; apply Hl; right; exact Hy.
Qed.

Lemma find_app_old {A} (f : A -> bool) l a :
  f a = false -> List.find f (l ++ [a])%list = List.find f l.
Proof.
  intros Ha; induction l as [|x l IH]; cbn.
  - rewrite Ha; reflexivity.
  - destruct (f x); [reflexivity | exact IH].
Qed.

(** X5. An order that was just placed is what [GET /api/orders/:id]
    answers for its id and what [GET /api/orders/number/:orderNumber]
    answers for its order number; for every other id and every other
    order number the two routes answer as they did before. *)
Theorem placed_order_can_be_fetched :
  forall (w : World) (store : Store) (od : JsVal) (saved : Order) (store' : Store),
    placeOrder w store od = Normal (saved, store') ->
    getOrder store' (_id saved) = mkResponse 200 (OrderBody saved)
    /\ (exists n, orderNumber saved = Val n
                  /\ getOrderByNumber store' n = mkResponse 200 (OrderBody saved)
                  /\ forall n', n' <> n ->
                       getOrderByNumber store' n' = getOrderByNumber store n')
    /\ forall id, id <> _id saved -> getOrder store' id = getOrder store id.
Proof.
  intros w store od saved store' Hp.
  apply placed_number in Hp as (Hn & Hdup & ->).
  pose proof (duplicateKey_false _ _ Hdup) as Hfresh.
  split; [|split].
  - unfold getOrder, findById; rewrite find_app_new; [reflexivity| |apply N.eqb_refl].
    intros o Ho; apply N.eqb_neq; apply (Hfresh o Ho).
  - exists (generateOrderNumber (today w) (random1000 w)); split; [exact Hn|]. split.
    + unfold getOrderByNumber, findByNumber; rewrite find_app_new; [reflexivity| |].
      * intros o Ho; destruct (Hfresh o Ho) as [_ Hk]; rewrite Hn in Hk.
        destruct (orderNumber o); try reflexivity; exact Hk.
      * rewrite Hn; apply String.eqb_refl.
    + intros n' Hn'; unfold getOrderByNumber, findByNumber; rewrite find_app_old; [reflexivity|].
      rewrite Hn; apply String.eqb_neq; congruence.
  - intros id Hid; unfold getOrder, findById; rewrite find_app_old; [reflexivity|].
    apply N.eqb_neq; congruence.
Qed.

Lemma existsb_eqb_In s l : existsb (String.eqb s) l = true <-> In s l.
Proof.
  rewrite existsb_exists; split.
  - intros (x & Hx & E); apply String.eqb_eq in E; subst; exact Hx.
  - intros H; exists s; split; [exact H | apply String.eqb_refl].
Qed.

Lemma enumString_nil path values msg s :
  enumString path values msg (Val s) = [] <-> In s values.
Proof.
  cbn; rewrite <- existsb_eqb_In.
  destruct (existsb (String.eqb s) values); split; congruence.
Qed.

Lemma truthy_JStr s : s <> "" -> truthy (JStr s) = true.
Proof. intros H; cbn; apply negb_true_iff, String.eqb_neq; exact H. Qed.

Lemma update_outside_enum w store id reqBody o :
  findById store id = Some o ->
  (exists s, read reqBody "status" = JStr s /\ s <> "" /\ ~ In s orderStatuses)
  \/ (exists s, read reqBody "paymentStatus" = JStr s /\ s <> "" /\ ~ In s paymentStatuses) ->
  exists msg, updateOrder w store id reqBody = mkOutcomeOf (reject 400 msg) store None.
Proof.
  intros Hf Hbad.
  destruct (updateOrder_cases w store id reqBody o Hf)
    as [(msg & Hout)|(fs & fa & fp & _ & Es & _ & Ep & Hes & Hep)]; [eauto|exfalso].
  destruct Hbad as [(s & E & Hs & Hin)|(s & E & Hs & Hin)]; rewrite E in *.
  - rewrite (truthy_JStr s Hs) in Es; cbn in Es; injection Es as <-.
    apply enumString_nil in Hes; contradiction.
  - rewrite (truthy_JStr s Hs) in Ep; cbn in Ep; injection Ep as <-.
    apply enumString_nil in Hep; contradiction.
Qed.

Lemma updateOrderAt_id toId w store param reqBody id :
  toId param = Some id ->
  updateOrderAt toId w store param reqBody = updateOrder w store id reqBody.
Proof. intros H; unfold updateOrderAt, updateOrder; rewrite H; reflexivity. Qed.

(** X6. [PUT /api/orders/:id] on requests it refuses. Without a body
    the answer is 400. With a body, a route parameter that is not a
    well-formed id is answered 400 with the message of the cast error,
    and a well-formed id that matches no order is answered 404; in both
    cases nothing changes. On an existing order, a [status] or
    [paymentStatus] that is a non-empty string outside its enumeration is
    answered 400; the collection is unchanged and nothing is notified.
    When the body supplies nothing but such a status, the message is the
    validator's. *)
Theorem rejected_updates_change_nothing :
  forall (toId : IdCast) (w : World) (store : Store) (param : string) (reqBody : JsVal),
    let out := updateOrderAt toId w store param reqBody in
    (nullish reqBody = true ->
     code (response out) = 400 /\ collection out = store /\ notification out = None)
    /\ (toId param = None -> nullish reqBody = false ->
        out = mkOutcomeOf (onUpdateError (CastError (castMessage w "_id" (JStr param))))
                store None
        /\ code (response out) = 400)
    /\ (forall id, toId param = Some id -> out = updateOrder w store id reqBody)
    /\ (forall id,
          toId param = Some id -> findById store id = None -> nullish reqBody = false ->
          out = mkOutcomeOf (reject 404 "Order not found") store None)
    /\ (forall id o s,
          toId param = Some id ->
          findById store id = Some o ->
          s <> "" ->
          (read reqBody "status" = JStr s /\ ~ In s orderStatuses)
          \/ (read reqBody "paymentStatus" = JStr s /\ ~ In s paymentStatuses) ->
          code (response out) = 400 /\ collection out = store /\ notification out = None)
    /\ (forall id o s,
          toId param = Some id ->
          findById store id = Some o ->
          read reqBody "status" = JStr s -> s <> "" -> ~ In s orderStatuses ->
          read reqBody "adminNotes" = JUndefined ->
          truthy (read reqBody "paymentStatus") = false ->
          response out =
            reject 400 ("Validation failed: status: `" ++ s
                        ++ "` is not a valid enum value for path `status`.")).
Proof.
  intros toId w store param reqBody; cbv zeta.
  split; [|split; [|split; [|split; [|split]]]].
  - intros Hn; unfold updateOrderAt.
    destruct reqBody; try discriminate Hn; repeat split.
  - intros Hid Hn; unfold updateOrderAt.
    rewrite !(getProp_read reqBody) by exact Hn; cbn [bind]; rewrite Hid.
    split; reflexivity.
  - intros id Hid; apply updateOrderAt_id; exact Hid.
  - intros id Hid Hf Hn; rewrite (updateOrderAt_id _ _ _ _ _ _ Hid).
    rewrite (updateOrder_reads _ _ _ _ Hn).
    unfold updateFields; rewrite Hf; reflexivity.
  - intros id o s Hid Hf Hs Hbad; rewrite (updateOrderAt_id _ _ _ _ _ _ Hid).
    destruct (update_outside_enum w store id reqBody o Hf) as (msg & ->).
    + destruct Hbad as [[E Hin]|[E Hin]]; [left|right]; exists s; auto.
    + repeat split.
  - intros id o s Hid Hf E Hs Hin Ea Ep; rewrite (updateOrderAt_id _ _ _ _ _ _ Hid).
    assert (Hn : nullish reqBody = false)
      by (destruct reqBody; try reflexivity; discriminate E).
    rewrite (updateOrder_spec _ _ _ _ _ Hn Hf), E, Ea, Ep, (truthy_JStr s Hs).
    cbn [castSupplied stringPath isDefined default].
    assert (Hx : existsb (String.eqb s) orderStatuses = false).
    { destruct (existsb (String.eqb s) orderStatuses) eqn:Hx; [|reflexivity].
      apply existsb_eqb_In in Hx; contradiction. }
    change (enumString "status" orderStatuses (enumMessage "status") (Datatypes.id (Val s)))
      with (if existsb (String.eqb s) orderStatuses then []
            else [("status", enumMessage "status" s)]).
    rewrite Hx; reflexivity.
Qed.

Lemma rejected_updates_change_nothing_witness :
  sampleIdCast "abc" = None
  /\ response (updateOrderAt sampleIdCast laterWorld [sampleSaved] "abc"
                 (JObj {["status" := JStr "shipped"]})) = reject 400 "Cast failed"
  /\ sampleIdCast "000000000000000000000001" = Some 1%N
  /\ findById [sampleSaved] 1%N = Some sampleSaved
  /\ response (updateOrderAt sampleIdCast laterWorld [sampleSaved] "000000000000000000000001"
                 (JObj {["status" := JStr "lost"]})) =
       reject 400 "Validation failed: status: `lost` is not a valid enum value for path `status`."
  /\ sampleIdCast "00000000000000000000000a" = Some 10%N
  /\ response (updateOrderAt sampleIdCast laterWorld [sampleSaved] "00000000000000000000000a"
                 (JObj {["status" := JStr "shipped"]})) = reject 404 "Order not found".
Proof.
  split; [reflexivity|]. split.
  { destruct (proj1 (proj2 (rejected_updates_change_nothing sampleIdCast laterWorld
                              [sampleSaved] "abc" (JObj {["status" := JStr "shipped"]})))
                eq_refl eq_refl) as [Hout _].
    rewrite Hout; reflexivity. }
  split; [reflexivity|]. split; [reflexivity|]. split.
  { apply (proj2 (proj2 (proj2 (proj2 (proj2
             (rejected_updates_change_nothing sampleIdCast laterWorld [sampleSaved]
                "000000000000000000000001" (JObj {["status" := JStr "lost"]}))))))
             1%N sampleSaved "lost");
      try reflexivity; try discriminate.
    cbn; intuition discriminate. }
  split; [reflexivity|].
  rewrite (proj1 (proj2 (proj2 (proj2
             (rejected_updates_change_nothing sampleIdCast laterWorld [sampleSaved]
                "00000000000000000000000a" (JObj {["status" := JStr "shipped"]})))))
             10%N eq_refl eq_refl eq_refl).
  reflexivity.
Defined.

(** X7. Status transitions are not guarded: on an existing order, a
    well-typed body with a [status] is accepted whatever the current
    status is, and the stored order takes the new status. *)
Theorem any_status_follows_any :
  forall (w : World) (store : Store) (id : ObjectId) (reqBody : JsVal) (o : Order) (s : string),
    findById store id = Some o ->
    wellTypedUpdate reqBody ->
    read reqBody "status" = JStr s ->
    exists o',
      response (updateOrder w store id reqBody) = mkResponse 200 (OrderBody o')
      /\ status o' = Val s
      /\ findById (collection (updateOrder w store id reqBody)) id = Some o'.
Proof.
  intros w store id reqBody o s Hf Hw E.
  assert (Hs : s <> "").
  { destruct Hw as (_ & [Hu|(s' & E' & Hin)] & _); rewrite E in *; [discriminate|].
    injection E' as <-. intros ->; cbn in Hin; intuition discriminate. }
  destruct (updateOrder_cases w store id reqBody o Hf)
    as [(msg & Hout)|(fs & fa & fp & Hout & Es & _)].
  - destruct (wellTypedUpdate_accepted w store id reqBody o Hf Hw) as (fs & fa & fp & Hacc).
    rewrite Hacc in Hout; discriminate Hout.
  - rewrite Hout; cbn [response collection].
    exists (updated w fs fa fp o); split; [reflexivity|]. split.
    + rewrite updated_status. rewrite E, (truthy_JStr s Hs) in Es; cbn in Es.
      injection Es as <-; reflexivity.
    + apply (findById_replaceById _ _ o); [exact Hf|].
      rewrite updated_id; apply (findById_Some _ _ _ Hf).
Qed.

Lemma any_status_follows_any_witness :
  findById [setStatus (Val "delivered") sampleSaved] 1%N
    = Some (setStatus (Val "delivered") sampleSaved)
  /\ exists o',
       response (updateOrder laterWorld [setStatus (Val "delivered") sampleSaved] 1%N
                   (JObj {["status" := JStr "pending"]})) = mkResponse 200 (OrderBody o')
       /\ status o' = Val "pending".
Proof.
  split; [reflexivity|].
  destruct (any_status_follows_any laterWorld [setStatus (Val "delivered") sampleSaved] 1%N
              (JObj {["status" := JStr "pending"]}) (setStatus (Val "delivered") sampleSaved)
              "pending") as (o' & Hr & Hs & _).
  - reflexivity.
  - split; [reflexivity|]. split; [right; exists "pending"; split; [reflexivity|cbn; auto]|].
    split; [left; reflexivity | left; reflexivity].
  - reflexivity.
  - exists o'; split; assumption.
Defined.

(** * What the notifications say *)

Lemma lookupLiteral_None key l : ~ In key (map fst l) -> lookupLiteral key l = None.
Proof.
  induction l as [|[k v] l IH]; cbn; [reflexivity|].
  intros H; destruct (String.eqb k key) eqn:E.
  - apply String.eqb_eq in E; exfalso; apply H; left; exact E.
  - apply IH; intros Hin; apply H; right; exact Hin.
Qed.

Lemma statusSMS_length w order s text :
  In s announcedStatuses ->
  getOrderStatusSMS w order (JStr s) = Normal text ->
  String.length text =
    String.length (showField (orderNumber order))
    + match s with
      | "confirmed" => 95 | "processing" => 82 | "shipped" => 110
      | "delivered" => 126 | _ => 121
      end.
Proof.
  intros Hin; cbn in Hin.
  destruct Hin as [<-|[<-|[<-|[<-|[<-|[]]]]]]; intros [= <-];
    cbn [default lookupMember lookupLiteral String.eqb Ascii.eqb Bool.eqb];
    rewrite !length_append_str; cbn [String.length]; lia.
Qed.

Lemma lookupMember_own w key l v :
  lookupLiteral key l = Some v -> lookupMember w key l = Some v.
Proof. unfold lookupMember; intros ->; reflexivity. Qed.

Lemma lookupMember_other w key l :
  ~ In key (map fst l) ->
  lookupMember w key l =
    if existsb (String.eqb key) objectPrototypeMembers then Some (inheritedText w key)
    else None.
Proof. intros H; unfold lookupMember; rewrite (lookupLiteral_None key l H); reflexivity. Qed.

Lemma not_inherited key :
  ~ In key objectPrototypeMembers -> existsb (String.eqb key) objectPrototypeMembers = false.
Proof.
  intros H; apply not_true_is_false; intros E.
  apply existsb_exists in E as (m & Hm & E); apply String.eqb_eq in E; subst; auto.
Qed.

Lemma inherited key :
  In key objectPrototypeMembers -> existsb (String.eqb key) objectPrototypeMembers = true.
Proof.
  intros H; apply existsb_exists; exists key; split; [exact H | apply String.eqb_refl].
Qed.

(** No status with a text or a title is the name of an inherited member,
    and no status of the schema is. *)
Lemma announced_not_inherited key :
  In key announcedStatuses \/ In key orderStatuses -> ~ In key objectPrototypeMembers.
Proof.
  intros [H|H] Hm; cbn in H, Hm;
    repeat match goal with H : _ \/ _ |- _ => destruct H as [H|H] end;
    try contradiction; subst; discriminate.
Qed.

(** X8. The text message of a status update. A status with a text of
    its own ("confirmed", "processing", "shipped", "delivered" or
    "cancelled") gets that text, which differs from the generic one and
    from the texts of the other four. A status that names a member
    inherited from [Object.prototype], as "constructor" or "toString",
    gets the runtime's rendering of that member between "Herman
    Perfume: " and the tracking address. Every other status gets the
    generic text; "pending" is one of these. *)
Theorem status_sms_texts :
  forall (w : World) (order : Order) (s : string),
    (~ In s announcedStatuses -> ~ In s objectPrototypeMembers ->
     getOrderStatusSMS w order (JStr s) = Normal genericStatusSMS)
    /\ (In s objectPrototypeMembers ->
        getOrderStatusSMS w order (JStr s) =
          Normal ("Herman Perfume: " ++ inheritedText w s
                  ++ " Track: www.hermanperfume.com/track"))
    /\ (In s announcedStatuses ->
        getOrderStatusSMS w order (JStr s) <> Normal genericStatusSMS
        /\ forall s', In s' announcedStatuses ->
             getOrderStatusSMS w order (JStr s) = getOrderStatusSMS w order (JStr s') ->
             s = s')
    /\ getOrderStatusSMS w order (JStr "pending") = Normal genericStatusSMS.
Proof.
  intros w order s; split; [|split; [|split]].
  - intros Hn Hm; unfold getOrderStatusSMS; cbn [toString bind].
    rewrite lookupMember_other by exact Hn.
    rewrite (not_inherited s Hm); reflexivity.
  - intros Hm; unfold getOrderStatusSMS; cbn [toString bind].
    rewrite lookupMember_other.
    + rewrite (inherited s Hm); reflexivity.
    + intros Hin; apply (announced_not_inherited s); [left; exact Hin | exact Hm].
  - intros Hin.
    assert (Ht : exists text, getOrderStatusSMS w order (JStr s) = Normal text)
      by (eexists; reflexivity).
    destruct Ht as (text & Ht).
    pose proof (statusSMS_length w order s text Hin Ht) as Hl.
    split.
    + rewrite Ht; intros E; apply Normal_inj in E; subst text.
      cbn in Hin; destruct Hin as [<-|[<-|[<-|[<-|[<-|[]]]]]]; cbn in Hl; lia.
    + intros s' Hin' E.
      assert (Ht' : getOrderStatusSMS w order (JStr s') = Normal text) by congruence.
      pose proof (statusSMS_length w order s' text Hin' Ht') as Hl'.
      cbn in Hin, Hin'.
      destruct Hin as [<-|[<-|[<-|[<-|[<-|[]]]]]];
        destruct Hin' as [<-|[<-|[<-|[<-|[<-|[]]]]]]; try reflexivity; lia.
  - reflexivity.
Qed.

Lemma statusNotification_text w order s :
  sendStatusUpdateNotification w order (JStr s) =
    Normal (mkResults
              (if fieldTruthy (email (customer order)) then
                 Some (match sendMail w
                               (mkMail (showField (email (customer order)))
                                  (default "undefined" (lookupMember w s statusTitles) ++ " - "
                                   ++ showField (orderNumber order) ++ " | Herman Perfume")) with
                       | None => sent
                       | Some m => mkOutcome false (Some m)
                       end)
               else None)
              (Some sent)).
Proof.
  unfold sendStatusUpdateNotification, getOrderStatusSMS, awaitSendMail.
  cbn [toString callToUpperCase bind].
  destruct (fieldTruthy (email (customer order))); [|reflexivity].
  destruct (sendMail w _); reflexivity.
Qed.

Lemma differs_status s f : f <> Val s -> differs (JStr s) f = true.
Proof.
  destruct f as [| |s']; cbn; try reflexivity.
  intros H; apply negb_true_iff, String.eqb_neq; congruence.
Qed.

Lemma lookupMember_plain w key l :
  ~ In key objectPrototypeMembers -> lookupMember w key l = lookupLiteral key l.
Proof.
  intros H; unfold lookupMember; destruct (lookupLiteral key l); [reflexivity|].
  rewrite (not_inherited key H); reflexivity.
Qed.

(** X9. A well-typed update that changes the status of an existing
    order notifies the customer: the text message is always reported as
    sent; the email is skipped when the order has no address, otherwise
    its outcome is the transport's answer to a mail to the customer whose
    subject is the title of the new status, the order number and the shop
    name. A status that has no title, as "pending", gives the subject
    "undefined - <order number> | Herman Perfume". *)
Theorem status_change_notification :
  forall (w : World) (store : Store) (id : ObjectId) (reqBody : JsVal) (o : Order) (s : string),
    findById store id = Some o ->
    wellTypedUpdate reqBody ->
    read reqBody "status" = JStr s ->
    status o <> Val s ->
    let title := default "undefined" (lookupLiteral s statusTitles) in
    let mail :=
      mkMail (showField (email (customer o)))
        (title ++ " - " ++ showField (orderNumber o) ++ " | Herman Perfume") in
    notification (updateOrder w store id reqBody) =
      Some (Normal (mkResults
                      (if fieldTruthy (email (customer o)) then
                         Some (match sendMail w mail with
                               | None => sent
                               | Some m => mkOutcome false (Some m)
                               end)
                       else None)
                      (Some sent)))
    /\ (~ In s announcedStatuses -> title = "undefined").
Proof.
  intros w store id reqBody o s Hf Hw E Hs; cbv zeta; split.
  - destruct (wellTypedUpdate_accepted w store id reqBody o Hf Hw) as (fs & fa & fp & ->).
    cbn [notification].
    assert (Ht : truthy (JStr s) = true).
    { destruct Hw as (_ & [Hu|(s' & E' & Hin)] & _); rewrite E in *; [discriminate|].
      injection E' as <-. cbn; apply negb_true_iff, String.eqb_neq.
      intros ->; cbn in Hin; intuition discriminate. }
    rewrite E, Ht, (differs_status s _ Hs); cbn [andb].
    rewrite statusNotification_text.
    assert (Hin : In s orderStatuses).
    { destruct Hw as (_ & [Hu|(s' & E' & Hin)] & _); rewrite E in *; [discriminate|].
      injection E' as <-; exact Hin. }
    rewrite (lookupMember_plain w s statusTitles)
      by (apply announced_not_inherited; right; exact Hin).
    assert (Hc : customer (updated w fs fa fp o) = customer o)
      by (pose proof (updated_frame w fs fa fp o) as Hfr; unfold frame in Hfr; congruence).
    rewrite updated_orderNumber, Hc; reflexivity.
  - intros Hn; rewrite lookupLiteral_None; [reflexivity | exact Hn].
Qed.

Lemma status_change_notification_witness :
  findById [setStatus (Val "shipped") sampleSaved] 1%N
    = Some (setStatus (Val "shipped") sampleSaved)
  /\ notification (updateOrder laterWorld [setStatus (Val "shipped") sampleSaved] 1%N
                     (JObj {["status" := JStr "pending"]})) =
       Some (Normal (mkResults (Some (mkOutcome false (Some "connect ECONNREFUSED")))
                       (Some sent))).
Proof.
  split; [reflexivity|].
  refine (proj1 (status_change_notification laterWorld [setStatus (Val "shipped") sampleSaved]
                   1%N (JObj {["status" := JStr "pending"]})
                   (setStatus (Val "shipped") sampleSaved) "pending" _ _ _ _)).
  - reflexivity.
  - split; [reflexivity|]. split; [right; exists "pending"; split; [reflexivity|cbn; auto]|].
    split; [left; reflexivity | left; reflexivity].
  - reflexivity.
  - discriminate.
Defined.

Lemma status_sms_texts_witness :
  In "constructor" objectPrototypeMembers
  /\ getOrderStatusSMS sampleWorld sampleSaved (JStr "constructor") =
       Normal ("Herman Perfume: function Object() { [native code] }"
               ++ " Track: www.hermanperfume.com/track")
  /\ getOrderStatusSMS sampleWorld sampleSaved (JStr "returned") = Normal genericStatusSMS.
Proof.
  assert (H : In "constructor" objectPrototypeMembers) by (left; reflexivity).
  split; [exact H|]. split.
  - exact (proj1 (proj2 (status_sms_texts sampleWorld sampleSaved "constructor")) H).
  - apply (proj1 (status_sms_texts sampleWorld sampleSaved "returned"));
      cbn; intuition discriminate.
Defined.

(** X10. [POST /api/orders/:id/send-confirmation] answers 404 when
    the lookup finds no order, and for an order it finds answers with
    the results of the confirmation dispatcher, in which the text message
    is sent and the email outcome is [null] exactly when the order has no
    address. It answers 500 exactly when the lookup itself is rejected,
    as it is for a route parameter that is not a well-formed id; a
    failing mail transport never gives a 500, it ends up in the
    results. *)
Theorem resend_confirmation_answers :
  forall (w : World) (found : Completion (option Order)),
    (found = Normal None -> resendWith w found = ResendFailed 404 "Order not found")
    /\ (forall o, found = Normal (Some o) ->
          exists results,
            resendWith w found = ConfirmationSent "Confirmation sent!" results
            /\ sendOrderConfirmation w o = Normal results
            /\ r_sms results = Some sent
            /\ (r_email results = None <-> fieldTruthy (email (customer o)) = false))
    /\ ((forall x, found <> Normal x) ->
        resendWith w found = ResendFailed 500 "Failed to send confirmation")
    /\ (forall msg, resendWith w found = ResendFailed 500 msg -> forall x, found <> Normal x)
    /\ (forall (toId : IdCast) (store : Store) (param : string),
          (toId param = None ->
           resendConfirmationAt toId w store param =
             ResendFailed 500 "Failed to send confirmation")
          /\ (forall id, toId param = Some id ->
                resendConfirmationAt toId w store param = resendConfirmation w store id
                /\ resendConfirmation w store id = resendWith w (Normal (findById store id)))).
Proof.
  intros w found.
  assert (Hsome : forall o, found = Normal (Some o) ->
            exists results,
              resendWith w found = ConfirmationSent "Confirmation sent!" results
              /\ sendOrderConfirmation w o = Normal results
              /\ r_sms results = Some sent
              /\ (r_email results = None <-> fieldTruthy (email (customer o)) = false)).
  { intros o ->; unfold resendWith.
    destruct (sendOrderConfirmation_total w o) as (results & -> & Hsms & Hnone & Hsome & _).
    exists results; split; [reflexivity|]. split; [reflexivity|]. split; [exact Hsms|].
    split; [|exact Hnone].
    intros Hr; destruct (fieldTruthy (email (customer o))); [|reflexivity].
    destruct Hsome as (x & Hx & _); [reflexivity|congruence]. }
  split; [|split; [|split; [|split]]].
  - intros ->; reflexivity.
  - exact Hsome.
  - intros Hrej; destruct found as [x| |]; [destruct (Hrej x); reflexivity|reflexivity..].
  - intros msg H x ->.
    destruct x as [o|]; [|discriminate H].
    destruct (Hsome o eq_refl) as (results & Hr & _); rewrite Hr in H; discriminate H.
  - intros toId store param; split.
    + intros Hid; unfold resendConfirmationAt, lookupOrder; rewrite Hid; reflexivity.
    + intros id Hid; unfold resendConfirmationAt, lookupOrder; rewrite Hid; split; reflexivity.
Qed.

Lemma resend_confirmation_answers_witness :
  findById [sampleSaved] 1%N = Some sampleSaved
  /\ (exists results,
        resendConfirmation laterWorld [sampleSaved] 1%N =
          ConfirmationSent "Confirmation sent!" results
        /\ r_sms results = Some sent)
  /\ sampleIdCast "abc" = None
  /\ resendConfirmationAt sampleIdCast laterWorld [sampleSaved] "abc" =
       ResendFailed 500 "Failed to send confirmation".
Proof.
  split; [reflexivity|]. split.
  - destruct (proj1 (proj2 (resend_confirmation_answers laterWorld
                              (Normal (findById [sampleSaved] 1%N))))
                sampleSaved eq_refl) as (results & Hr & _ & Hsms & _).
    exists results; split; assumption.
  - split; [reflexivity|].
    apply (proj2 (proj2 (proj2 (proj2 (resend_confirmation_answers laterWorld
                                         (Normal None)))))
             sampleIdCast [sampleSaved] "abc"); reflexivity.
Defined.

(** * How many order numbers there are *)

Lemma String_inj c1 c2 (s1 s2 : string) :
  String c1 s1 = String c2 s2 -> c1 = c2 /\ s1 = s2.
Proof. intros E; split; congruence. Qed.

Lemma digitChar_inj a b : a < 10 -> b < 10 -> digitChar a = digitChar b -> a = b.
Proof.
  intros Ha Hb E; unfold digitChar in E.
  apply (f_equal nat_of_ascii) in E.
  rewrite !nat_ascii_embedding in E by lia. lia.
Qed.

Lemma twoDigits_inj a b : twoDigits a = twoDigits b <-> a mod 100 = b mod 100.
Proof.
  assert (Hd : forall n, n mod 100 = 10 * (n / 10 mod 10) + n mod 10).
  { intros n.
    pose proof (Nat.div_mod_eq n 10). pose proof (Nat.div_mod_eq (n / 10) 10).
    pose proof (Nat.div_mod_eq n 100). pose proof (Nat.Div0.div_div n 10 10).
    pose proof (Nat.mod_upper_bound n 10). pose proof (Nat.mod_upper_bound (n / 10) 10).
    pose proof (Nat.mod_upper_bound n 100).
    change (10 * 10) with 100 in *. lia. }
  unfold twoDigits; split.
  - intros E; apply String_inj in E as [E1 E]; apply String_inj in E as [E2 _].
    apply digitChar_inj in E1; [|apply Nat.mod_upper_bound; lia..].
    apply digitChar_inj in E2; [|apply Nat.mod_upper_bound; lia..].
    rewrite (Hd a), (Hd b); lia.
  - intros E.
    assert (E1 : a / 10 mod 10 = b / 10 mod 10 /\ a mod 10 = b mod 10).
    { pose proof (Hd a); pose proof (Hd b).
      pose proof (Nat.mod_upper_bound a 10). pose proof (Nat.mod_upper_bound (a / 10) 10).
      pose proof (Nat.mod_upper_bound b 10). pose proof (Nat.mod_upper_bound (b / 10) 10).
      lia. }
    destruct E1 as [-> ->]; reflexivity.
Qed.

Lemma threeDigits_inj a b : a < 1000 -> b < 1000 -> threeDigits a = threeDigits b -> a = b.
Proof.
  intros Ha Hb; unfold threeDigits; intros E; apply String_inj in E as [E1 E2].
  apply digitChar_inj in E1; [|apply Nat.mod_upper_bound; lia..].
  assert (E3 : a mod 100 = b mod 100) by (apply twoDigits_inj; exact E2).
  pose proof (Nat.div_mod_eq a 100). pose proof (Nat.div_mod_eq b 100).
  assert (a / 100 < 10) by (apply Nat.Div0.div_lt_upper_bound; lia).
  assert (b / 100 < 10) by (apply Nat.Div0.div_lt_upper_bound; lia).
  rewrite !Nat.mod_small in E1 by assumption. lia.
Qed.

Lemma twoDigits_cons n (t : string) :
  twoDigits n ++ t = String (digitChar (n / 10 mod 10)) (String (digitChar (n mod 10)) t).
Proof. reflexivity. Qed.

(** X11. On calendar dates and for draws below 1000, two order
    numbers are equal exactly when the last two digits of the years, the
    months, the days and the draws are: the number determines the day
    within its century and the draw. *)
Theorem order_number_decodes :
  forall (d1 d2 : Date) (r1 r2 : nat),
    calendarDate d1 -> calendarDate d2 -> r1 < 1000 -> r2 < 1000 ->
    (generateOrderNumber d1 r1 = generateOrderNumber d2 r2
     <-> (fullYear d1 mod 100 = fullYear d2 mod 100)%Z
         /\ month d1 = month d2 /\ dayOfMonth d1 = dayOfMonth d2 /\ r1 = r2).
Proof.
  intros d1 d2 r1 r2 (Hy1 & Hm1 & Hd1) (Hy2 & Hm2 & Hd2) Hr1 Hr2.
  destruct (generateOrderNumber_format d1 r1 Hy1 Hm1 Hd1 Hr1) as (-> & _).
  destruct (generateOrderNumber_format d2 r2 Hy2 Hm2 Hd2 Hr2) as (-> & _).
  assert (Hyear : Z.to_nat (fullYear d1) mod 100 = Z.to_nat (fullYear d2) mod 100
                  <-> (fullYear d1 mod 100 = fullYear d2 mod 100)%Z).
  { rewrite <- (Z2Nat.id (fullYear d1)) at 2 by lia.
    rewrite <- (Z2Nat.id (fullYear d2)) at 2 by lia.
    change 100%Z with (Z.of_nat 100).
    rewrite <- !Nat2Z.inj_mod. lia. }
  rewrite !append_cons, !twoDigits_cons.
  split.
  - intros E.
    apply String_inj in E as [_ E]; apply String_inj in E as [_ E].
    apply String_inj in E as [Ey1 E]; apply String_inj in E as [Ey2 E].
    apply String_inj in E as [Em1 E]; apply String_inj in E as [Em2 E].
    apply String_inj in E as [Ed1 E]; apply String_inj in E as [Ed2 Er].
    assert (Ey : twoDigits (Z.to_nat (fullYear d1)) = twoDigits (Z.to_nat (fullYear d2)))
      by (unfold twoDigits; congruence).
    assert (Em : twoDigits (month d1 + 1) = twoDigits (month d2 + 1))
      by (unfold twoDigits; congruence).
    assert (Ed : twoDigits (dayOfMonth d1) = twoDigits (dayOfMonth d2))
      by (unfold twoDigits; congruence).
    apply twoDigits_inj in Ey, Em, Ed.
    rewrite !Nat.mod_small in Em, Ed by lia.
    apply threeDigits_inj in Er; [|assumption..].
    repeat split; [apply Hyear; exact Ey | lia | exact Ed | exact Er].
  - intros (Ey & Em & Ed & Er).
    apply Hyear, twoDigits_inj in Ey.
    apply String_inj in Ey as [-> Ey]; apply String_inj in Ey as [-> _].
    rewrite Em, Ed, Er; reflexivity.
Qed.

Lemma order_number_decodes_witness :
  generateOrderNumber (mkDate 2025 0 15) 42 <> generateOrderNumber (mkDate 2025 0 15) 43
  /\ generateOrderNumber (mkDate 2025 0 15) 42 = generateOrderNumber (mkDate 2125 0 15) 42.
Proof.
  split.
  - intros E.
    apply (order_number_decodes (mkDate 2025 0 15) (mkDate 2025 0 15) 42 43) in E;
      [cbn in E; lia | repeat split; cbn; lia | repeat split; cbn; lia | lia | lia].
  - apply (order_number_decodes (mkDate 2025 0 15) (mkDate 2125 0 15) 42 42);
      [repeat split; cbn; lia | repeat split; cbn; lia | lia | lia |].
    repeat split.
Defined.

Lemma NoDup_map_filter {A B} (f : A -> B) (p : A -> bool) l :
  List.NoDup (map f l) -> List.NoDup (map f (List.filter p l)).
Proof.
  induction l as [|a l IH]; cbn; [auto|].
  intros H; inversion_clear H as [|? ? Hnot Hnd].
  destruct (p a); cbn; [|auto].
  constructor; [|auto].
  intros Hin; apply Hnot.
  apply in_map_iff in Hin as (x & <- & Hx).
  apply filter_In in Hx as [Hx _]. apply in_map; exact Hx.
Qed.

Lemma sameKey_Val f n : sameKey f (Val n) = true -> f = Val n.
Proof.
  destruct f as [| |s]; cbn; try discriminate.
  intros E; apply String.eqb_eq in E; congruence.
Qed.

Lemma drawnOn_In d o : drawnOn d o = true -> In (orderNumber o) (numbersOf d).
Proof.
  unfold drawnOn; intros H; apply existsb_exists in H as (x & Hx & E).
  pose proof Hx as Hx'; unfold numbersOf in Hx'.
  apply in_map_iff in Hx' as (r & <- & _).
  apply sameKey_Val in E; rewrite E; exact Hx.
Qed.

(** X12. In a collection the routes can produce, at most 1000 orders
    carry an order number of any one date. Once every number of today is
    taken and the draw is below 1000, no order is created: the request is
    answered 400 or 500 and the collection is unchanged. *)
Theorem a_thousand_orders_a_day :
  (forall (s : Store) (d : Date),
     reachable s -> length (List.filter (drawnOn d) s) <= 1000)
  /\ (forall (w : World) (store : Store) (od : JsVal),
        random1000 w < 1000 ->
        (forall n, In n (numbersOf (today w)) -> exists o, In o store /\ orderNumber o = n) ->
        (code (response (createOrder w store od)) = 400
         \/ code (response (createOrder w store od)) = 500)
        /\ collection (createOrder w store od) = store).
Proof.
  split.
  - intros s d Hr.
    destruct (reachable_numbered s Hr) as [_ Hnd].
    rewrite <- (length_map orderNumber).
    change 1000 with (length (seq 0 1000)) at 1.
    rewrite <- (length_map (fun r => Val (generateOrderNumber d r)) (seq 0 1000)).
    apply List.NoDup_incl_length.
    + apply NoDup_map_filter. apply NoDup_ListNoDup; exact Hnd.
    + intros n Hn; apply in_map_iff in Hn as (o & <- & Ho).
      apply filter_In in Ho as [_ Ho]. apply drawnOn_In; exact Ho.
  - intros w store od Hr Hfull.
    destruct (Hfull (Val (generateOrderNumber (today w) (random1000 w)))) as (o & Ho & Hn).
    { unfold numbersOf; apply in_map_iff; exists (random1000 w); split; [reflexivity|].
      apply in_seq; lia. }
    destruct (createOrderWith_cases (sendOrderConfirmation w) w store od)
      as [(saved & store' & Hp & _)|(Hc & Hs & _)]; [exfalso|split; assumption].
    apply placed_number in Hp as (Hsaved & Hdup & _).
    rewrite (duplicateKey_number store saved o Ho) in Hdup; [discriminate| |congruence].
    rewrite Hn; apply generateOrderNumber_truthy.
Qed.

Lemma a_thousand_orders_a_day_witness :
  reachable [sampleSaved]
  /\ length (List.filter (drawnOn (mkDate 2025 0 15)) [sampleSaved]) <= 1000.
Proof.
  assert (Hr : reachable [sampleSaved]).
  { apply rtc_once; left; exists sampleWorld, samplePayload; vm_compute; reflexivity. }
  split; [exact Hr|].
  exact (proj1 a_thousand_orders_a_day [sampleSaved] (mkDate 2025 0 15) Hr).
Defined.

(** * The item loop *)

Lemma validateItems_defect good bad rest :
  forallb itemOk good = true -> nullish bad = false -> itemOk bad = false ->
  validateItems (good ++ bad :: rest) = Return (reject 400 (itemDefect bad)).
Proof.
  intros Hgood Hn Hbad; induction good as [|g good IH].
  - cbn [app]; rewrite (validateItems_step _ _ Hn); unfold itemDefect.
    unfold itemOk in Hbad; rewrite Hn in Hbad; unfold falsy; cbn [negb andb] in Hbad.
    destruct (truthy (read bad "productId")), (truthy (read bad "name")),
      (truthy (read bad "price")), (truthy (read bad "quantity")),
      (isNumber (read bad "price")), (leZero (read bad "price")),
      (isNumber (read bad "quantity")), (leZero (read bad "quantity"));
      try reflexivity; discriminate Hbad.
  - cbn [forallb] in Hgood; apply andb_prop in Hgood as [Hg Hgood].
    assert (Hng : nullish g = false).
    { unfold itemOk in Hg; destruct (nullish g); [discriminate|reflexivity]. }
    change ((g :: good) ++ bad :: rest)%list with (g :: (good ++ bad :: rest))%list.
    rewrite (validateItems_step _ _ Hng), (IH Hgood).
    unfold itemOk in Hg; rewrite Hng in Hg; unfold falsy; cbn [negb andb] in Hg.
    destruct (truthy (read g "productId")), (truthy (read g "name")),
      (truthy (read g "price")), (truthy (read g "quantity")),
      (isNumber (read g "price")), (leZero (read g "price")),
      (isNumber (read g "quantity")), (leZero (read g "quantity"));
      try reflexivity; discriminate Hg.
Qed.

Lemma length_nonzero (l : list JsVal) : l <> [] -> isZero (read (JArr l) "length") = false.
Proof.
  destruct l as [|x l]; [congruence|]; intros _.
  unfold read; cbn [getProp String.eqb Ascii.eqb Bool.eqb]; unfold lengthValue, isZero.
  apply not_true_is_false; intros H; apply Qeq_bool_iff in H.
  unfold Qeq in H; cbn in H. lia.
Qed.

(** X13. In a payload that is otherwise accepted, the first item that
    does not pass the item loop decides the answer: 400 with the message
    of that item, whatever follows it in the list; nothing is stored. A
    price or quantity of 0 counts as a missing field, and a price sent as
    text is answered with the price message. *)
Theorem first_defective_item_decides :
  forall (w : World) (store : Store) (m : gmap string JsVal) (good rest : list JsVal)
         (bad : JsVal),
    passesChecks (JObj m) = true ->
    forallb itemOk good = true -> nullish bad = false -> itemOk bad = false ->
    createOrder w store (JObj (<["items" := JArr (good ++ bad :: rest)]> m)) =
      mkOutcomeOf (reject 400 (itemDefect bad)) store None
    /\ (isZero (read bad "price") = true \/ isZero (read bad "quantity") = true ->
        itemDefect bad = "Each item must have productId, name, price, and quantity")
    /\ (forall s, read bad "price" = JStr s ->
        truthy (read bad "productId") = true -> truthy (read bad "name") = true ->
        truthy (read bad "quantity") = true -> s <> "" ->
        itemDefect bad = "Item price must be a positive number").
Proof.
  intros w store m good rest bad Hp Hgood Hn Hbad; split; [|split].
  - apply createOrderWith_rejected.
    rewrite validateOrder_spec by reflexivity.
    unfold passesChecks in Hp.
    repeat (apply andb_prop in Hp; destruct Hp as [Hp ?]).
    repeat match goal with H : negb _ = true |- _ => apply negb_true_iff in H end.
    unfold requiredMissing, customerMissing, deliveryMissing, methodInvalid,
      transactionMissing, itemsInvalid, totalsInvalid in *.
    rewrite !(read_insert_ne m "items") by discriminate.
    rewrite read_insert_eq.
    assert (Hlen : isZero (read (JArr (good ++ bad :: rest)) "length") = false).
    { apply length_nonzero; destruct good; discriminate. }
    rewrite Hlen.
    repeat match goal with H : _ || _ = false |- _ => apply orb_false_iff in H as [H ?] end.
    repeat match goal with H : falsy _ = false |- _ => rewrite H; clear H end.
    repeat match goal with H : negb _ = false |- _ => rewrite H; clear H end.
    repeat match goal with H : _ = false |- _ => rewrite H; clear H end.
    cbn [orb negb isArray falsy truthy itemsOf].
    rewrite (validateItems_defect _ _ _ Hgood Hn Hbad); reflexivity.
  - unfold itemDefect, falsy, isZero.
    intros [H|H].
    + destruct (read bad "price") as [| | |q| | | | |]; try discriminate H.
      cbn [truthy]; rewrite H; cbn; rewrite !orb_true_r; reflexivity.
    + destruct (read bad "quantity") as [| | |q| | | | |]; try discriminate H.
      cbn [truthy]; rewrite H; cbn; rewrite !orb_true_r; reflexivity.
  - intros s E Hid Hnm Hq Hs; unfold itemDefect, falsy.
    rewrite Hid, Hnm, Hq, E, (truthy_JStr s Hs); reflexivity.
Qed.

(** * The debug route *)

Lemma debugIssues_reads data :
  nullish data = false ->
  let c := read data "customer" in
  let d := read data "delivery" in
  let p := read data "payment" in
  let i := read data "items" in
  let t := read data "totals" in
  debugIssues data =
    Normal (concat [
      if falsy c then ["Missing customer object"]
      else concat [pushIf (falsy (read c "firstName")) "Missing customer.firstName" [];
                   pushIf (falsy (read c "lastName")) "Missing customer.lastName" [];
                   pushIf (falsy (read c "phone")) "Missing customer.phone" []];
      if falsy d then ["Missing delivery object"]
      else concat [pushIf (falsy (read d "address")) "Missing delivery.address" [];
                   pushIf (falsy (read d "city")) "Missing delivery.city" []];
      if falsy p then ["Missing payment object"]
      else pushIf (falsy (read p "method")) "Missing payment.method" [];
      if falsy i || negb (isArray i) then ["Missing or invalid items array"]
      else pushIf (isZero (read i "length")) "Items array is empty" [];
      if falsy t then ["Missing totals object"]
      else pushIf (negb (isNumber (read t "total"))) "totals.total is not a number" []]).
Proof.
  intros Hn; cbv zeta; unfold debugIssues.
  rewrite !(getProp_read data) by exact Hn; cbn [bind].
  assert (Hpush : forall c msg l,
            pushIf c msg l = (l ++ (if c then [msg] else []))%list).
  { intros [] msg l; cbn; [reflexivity | rewrite app_nil_r; reflexivity]. }
  assert (Hr : forall v k, falsy v = false -> getProp v k = Normal (read v k)).
  { intros v k H; apply getProp_read, falsy_false; exact H. }
  destruct (falsy (read data "customer")) eqn:Hc.
  all: destruct (falsy (read data "delivery")) eqn:Hd.
  all: destruct (falsy (read data "payment")) eqn:Hp.
  all: destruct (falsy (read data "items")) eqn:Hi;
    [|destruct (isArray (read data "items"))].
  all: destruct (falsy (read data "totals")) eqn:Ht.
  all: repeat match goal with
              | H : falsy ?v = false |- context [getProp ?v ?k] => rewrite (Hr v k H)
              end.
  all: cbn [bind orb negb]; f_equal; rewrite !Hpush; cbn [concat app];
    rewrite ?app_nil_r, <- ?app_assoc; reflexivity.
Qed.

Lemma pushIf_nil c msg : pushIf c msg [] = [] <-> c = false.
Proof. destruct c; cbn; split; congruence. Qed.

Lemma debugIssues_nil od issues :
  nullish od = false -> debugIssues od = Normal issues ->
  (issues = [] <-> wellStructured od = true).
Proof.
  intros Hn Hd; rewrite (debugIssues_reads od Hn) in Hd; cbv zeta in Hd.
  apply Normal_inj in Hd; rewrite <- Hd; clear Hd.
  rewrite concat_nil_Forall.
  unfold wellStructured, customerMissing, deliveryMissing, itemsInvalid, falsy.
  split.
  - intros H.
    repeat match goal with H : Forall _ (_ :: _) |- _ => inversion_clear H end.
    repeat match goal with
           | H : (if ?b then _ else _) = [] |- _ =>
               destruct b eqn:?; [discriminate H|]
           end.
    repeat match goal with
           | H : concat _ = [] |- _ => apply concat_nil_Forall in H
           | H : Forall _ (_ :: _) |- _ => inversion_clear H
           | H : (_ ++ _)%list = [] |- _ => apply app_eq_nil in H as [? ?]
           | H : pushIf _ _ [] = [] |- _ => apply pushIf_nil in H
           end.
    repeat match goal with
           | H : negb _ = false |- _ => apply negb_false_iff in H
           | H : _ || _ = false |- _ => apply orb_false_iff in H as [? ?]
           end.
    repeat match goal with H : _ = true |- _ => rewrite H; clear H end.
    repeat match goal with H : _ = false |- _ => rewrite H; clear H end.
    reflexivity.
  - intros H.
    repeat (apply andb_prop in H as [H ?]).
    repeat match goal with
           | H : negb _ = true |- _ => apply negb_true_iff in H
           | H : _ || _ = false |- _ => apply orb_false_iff in H as [H ?]
           end.
    repeat match goal with H : _ = true |- _ => rewrite H; clear H end.
    repeat match goal with H : _ = false |- _ => rewrite H; clear H end.
    cbn. repeat constructor.
Qed.

Lemma passesChecks_wellStructured od : passesChecks od = true -> wellStructured od = true.
Proof.
  unfold passesChecks, wellStructured; intros H.
  repeat (apply andb_prop in H as [H ?]).
  repeat match goal with H : negb _ = true |- _ => apply negb_true_iff in H end.
  match goal with H : requiredMissing od = false |- _ =>
    unfold requiredMissing in H;
    repeat (apply orb_false_iff in H as [H ?]) end.
  match goal with H : methodInvalid od = false |- _ =>
    unfold methodInvalid in H; apply orb_false_iff in H as [H ?] end.
  match goal with H : totalsInvalid od = false |- _ =>
    unfold totalsInvalid in H; repeat (apply orb_false_iff in H as [H ?]) end.
  unfold falsy in *.
  repeat match goal with H : negb _ = false |- _ => apply negb_false_iff in H end.
  repeat match goal with H : _ = true |- _ => rewrite H; clear H end.
  repeat match goal with H : _ = false |- _ => rewrite H; clear H end.
  reflexivity.
Qed.

(** X14. [POST /api/debug-order] on a body that is an object or
    another non-null value: the report is [valid] exactly when it lists
    no issue, which is exactly when the structure checks hold; every
    payload that passes the inline validation of [POST /api/orders] is
    reported valid; and each missing section is reported under its own
    message, all of them in one report. *)
Theorem debug_report_of_a_payload :
  forall od : JsVal,
    nullish od = false ->
    exists report,
      debugOrder od = Normal report
      /\ received report = true
      /\ (valid report = true <-> issues report = [])
      /\ (valid report = true <-> wellStructured od = true)
      /\ (passesChecks od = true -> valid report = true)
      /\ (falsy (read od "customer") = true -> In "Missing customer object" (issues report))
      /\ (falsy (read od "delivery") = true -> In "Missing delivery object" (issues report))
      /\ (falsy (read od "payment") = true -> In "Missing payment object" (issues report))
      /\ (falsy (read od "totals") = true -> In "Missing totals object" (issues report)).
Proof.
  intros od Hn.
  pose proof (debugIssues_reads od Hn) as Hd; cbv zeta in Hd.
  unfold debugOrder.
  destruct (debugIssues od) as [l| |] eqn:Hl; try discriminate Hd.
  pose proof (debugIssues_nil od l Hn Hl) as Hnil.
  apply Normal_inj in Hd.
  exists (mkDebugReport true l (Nat.eqb (length l) 0)); cbn [bind received valid issues].
  assert (Hv : Nat.eqb (length l) 0 = true <-> l = []).
  { destruct l; cbn; split; congruence. }
  split; [reflexivity|]. split; [reflexivity|]. split; [exact Hv|].
  split; [rewrite Hv; exact Hnil|].
  split; [intros Hp; apply Hv, Hnil, passesChecks_wellStructured; exact Hp|].
  rewrite Hd.
  repeat split; intros H; rewrite H; cbn [concat];
    repeat first [apply in_or_app; first [left; left; reflexivity | right]].
Qed.

Lemma debug_report_of_a_payload_witness :
  nullish samplePayload = false
  /\ exists report, debugOrder samplePayload = Normal report /\ valid report = true.
Proof.
  split; [reflexivity|].
  destruct (debug_report_of_a_payload samplePayload eq_refl)
    as (report & Hr & _ & _ & _ & Hp & _).
  exists report; split; [exact Hr|]. apply Hp; vm_compute; reflexivity.
Defined.

(** * Listing the orders *)

Lemma asCount_reads q n : (q == inject_Z (Z.of_nat n))%Q -> asCount (JNum q) = Some n.
Proof.
  destruct q as [a b]; unfold Qeq; cbn [Qnum Qden inject_Z asCount]; intros E.
  assert (Ea : a = (Z.of_nat n * Zpos b)%Z) by lia.
  rewrite Ea, Z.rem_mul, Z.div_mul by lia.
  replace (Z.leb 0 (Z.of_nat n * Z.pos b)) with true by (symmetry; apply Z.leb_le; lia).
  rewrite Nat2Z.id; reflexivity.
Qed.

Lemma readsAs_number w q n :
  (q == inject_Z (Z.of_nat n))%Q -> readsAs w (JNum q) n.
Proof. intros H; exists q; split; [reflexivity | exact H]. Qed.

Lemma ceilDiv_reads q n L :
  (q == inject_Z (Z.of_nat L))%Q -> 1 <= L ->
  exists T, ceilDiv n (JNum q) = Some (Z.of_nat T) /\ n <= T * L < n + L.
Proof.
  intros Hq HL; unfold ceilDiv.
  assert (Hz : Qeq_bool q 0 = false).
  { apply not_true_is_false; intros H; apply Qeq_bool_iff in H.
    rewrite H in Hq; unfold Qeq in Hq; cbn in Hq; lia. }
  rewrite Hz.
  rewrite (Qceiling_comp _ _ (Qdiv_comp _ _ (Qeq_refl (inject_Z (Z.of_nat n))) _ _ Hq)).
  destruct L as [|l]; [lia|].
  set (p := Pos.of_succ_nat l).
  assert (Hp : Z.of_nat (S l) = Zpos p) by (unfold p; lia).
  rewrite Hp.
  assert (Hc : Qceiling (inject_Z (Z.of_nat n) / inject_Z (Zpos p))
               = (- ((- Z.of_nat n) / Zpos p))%Z).
  { unfold Qceiling, Qfloor, Qdiv, Qinv, Qmult, Qopp, inject_Z; cbn [Qnum Qden].
    rewrite Z.mul_1_r, Pos.mul_1_l; reflexivity. }
  rewrite Hc.
  pose proof (Z.div_mod (- Z.of_nat n) (Zpos p) ltac:(lia)) as Hdm.
  pose proof (Z.mod_pos_bound (- Z.of_nat n) (Zpos p) ltac:(lia)) as Hb.
  set (d := ((- Z.of_nat n) / Zpos p)%Z) in *.
  set (r := ((- Z.of_nat n) mod Zpos p)%Z) in *.
  assert (Hd : (d <= 0)%Z) by nia.
  exists (Z.to_nat (- d)); split; [rewrite Z2Nat.id by lia; reflexivity|].
  assert (HT : (Z.of_nat (Z.to_nat (- d)) = - d)%Z) by lia.
  assert (Hl : Z.of_nat (S l) = Zpos p) by exact Hp.
  nia.
Qed.

Lemma skip_reads qp ql P L :
  (qp == inject_Z (Z.of_nat P))%Q -> (ql == inject_Z (Z.of_nat L))%Q -> 1 <= P ->
  asCount (mulNum (subNum (JNum qp) (JNum 1)) (JNum ql)) = Some ((P - 1) * L).
Proof.
  intros Hp Hl HP; cbn [mulNum subNum]; apply asCount_reads.
  assert (E : ((qp - 1) * ql == (inject_Z (Z.of_nat P) - 1) * inject_Z (Z.of_nat L))%Q).
  { apply Qmult_comp; [apply Qplus_comp; [exact Hp | reflexivity] | exact Hl]. }
  rewrite E; unfold Qeq, Qmult, Qminus, Qplus, Qopp, inject_Z; cbn [Qnum Qden].
  rewrite Nat2Z.inj_mul, Nat2Z.inj_sub by lia. cbn. lia.
Qed.

Lemma limit_reads ql L :
  (ql == inject_Z (Z.of_nat L))%Q -> asCount (mulNum (JNum ql) (JNum 1)) = Some L.
Proof.
  intros Hl; cbn [mulNum]; apply asCount_reads.
  rewrite Qmult_1_r; exact Hl.
Qed.

Lemma insertNewest_length o l : length (insertNewest o l) = S (length l).
Proof.
  induction l as [|x l IH]; cbn; [reflexivity|].
  destruct (olderThan o x); cbn; [rewrite IH|]; reflexivity.
Qed.

Lemma sortNewest_length l : length (sortNewest l) = length l.
Proof.
  induction l as [|x l IH]; [reflexivity|].
  change (sortNewest (x :: l)) with (insertNewest x (sortNewest l)).
  rewrite insertNewest_length, IH; reflexivity.
Qed.

Lemma chunks {A} (L : nat) :
  1 <= L ->
  forall (T : nat) (l : list A),
    length l <= T * L ->
    concat (map (fun p => take L (drop ((p - 1) * L) l)) (seq 1 T)) = l.
Proof.
  intros HL T; induction T as [|T IH]; intros l Hlen.
  - destruct l; [reflexivity | cbn in Hlen; lia].
  - cbn [seq map concat]. rewrite <- seq_shift, map_map.
    rewrite (map_ext_in _ (fun p => take L (drop ((p - 1) * L) (drop L l)))).
    + rewrite IH by (rewrite length_drop; lia).
      change ((1 - 1) * L) with 0; cbn [drop]. apply take_drop.
    + intros p Hp; apply in_seq in Hp.
      rewrite drop_drop; do 2 f_equal. nia.
Qed.

Lemma insertNewest_perm o l : Permutation (insertNewest o l) (o :: l).
Proof.
  induction l as [|x l IH]; cbn; [reflexivity|].
  destruct (olderThan o x); [|reflexivity].
  rewrite IH; apply perm_swap.
Qed.

Lemma sortNewest_perm l : Permutation (sortNewest l) l.
Proof.
  induction l as [|x l IH]; [reflexivity|].
  change (sortNewest (x :: l)) with (insertNewest x (sortNewest l)).
  rewrite insertNewest_perm, IH; reflexivity.
Qed.

Lemma olderThan_trans a b c :
  olderThan a b = false -> olderThan b c = false -> olderThan a c = false.
Proof.
  unfold olderThan.
  destruct (createdAt a) as [| |x], (createdAt b) as [| |y], (createdAt c) as [| |z];
    try reflexivity; try discriminate.
  rewrite !Z.ltb_ge; lia.
Qed.

Lemma olderThan_asym a b : olderThan a b = true -> olderThan b a = false.
Proof.
  unfold olderThan.
  destruct (createdAt a) as [| |x], (createdAt b) as [| |y];
    try reflexivity; try discriminate.
  rewrite Z.ltb_lt, Z.ltb_ge; lia.
Qed.

Lemma insertNewest_sorted o l :
  StronglySorted (fun a b => olderThan a b = false) l ->
  StronglySorted (fun a b => olderThan a b = false) (insertNewest o l).
Proof.
  induction 1 as [|x l Hs IH Hx]; cbn; [repeat constructor|].
  destruct (olderThan o x) eqn:E.
  - constructor; [exact IH|].
    apply List.Forall_forall; intros y Hy.
    apply (Permutation_in _ (insertNewest_perm o l)) in Hy as [<-|Hy].
    + apply olderThan_asym; exact E.
    + rewrite List.Forall_forall in Hx; apply Hx; exact Hy.
  - constructor; [constructor; assumption|].
    constructor; [exact E|].
    apply List.Forall_forall; intros y Hy.
    rewrite List.Forall_forall in Hx.
    apply (olderThan_trans o x y); [exact E | apply Hx; exact Hy].
Qed.

Lemma sortNewest_sorted l : StronglySorted (fun a b => olderThan a b = false) (sortNewest l).
Proof.
  induction l as [|x l IH]; [constructor|].
  change (sortNewest (x :: l)) with (insertNewest x (sortNewest l)).
  apply insertNewest_sorted; exact IH.
Qed.

Lemma StronglySorted_drop {A} (R : A -> A -> Prop) n l :
  StronglySorted R l -> StronglySorted R (drop n l).
Proof.
  revert l; induction n as [|n IH]; intros l H; [exact H|].
  destruct l as [|x l]; [constructor|].
  cbn; apply IH; inversion H; assumption.
Qed.

Lemma StronglySorted_take {A} (R : A -> A -> Prop) n l :
  StronglySorted R l -> StronglySorted R (take n l).
Proof.
  revert l; induction n as [|n IH]; intros l H; [constructor|].
  destruct l as [|x l]; [constructor|].
  inversion_clear H as [|? ? Hs Hx]; cbn; constructor; [apply IH; exact Hs|].
  rewrite List.Forall_forall in *; intros y Hy; apply Hx.
  rewrite <- (take_drop n l); apply in_or_app; left; exact Hy.
Qed.

Lemma In_take_drop {A} (x : A) n k l : In x (take n (drop k l)) -> In x l.
Proof.
  intros H.
  rewrite <- (take_drop k l); apply in_or_app; right.
  rewrite <- (take_drop n (drop k l)); apply in_or_app; left; exact H.
Qed.

Lemma sortNewest_newestFirst : newestFirst sortNewest.
Proof. intros l; split; [apply sortNewest_perm | apply sortNewest_sorted]. Qed.

Lemma newestFirst_length sorted l : newestFirst sorted -> length (sorted l) = length l.
Proof. intros H; apply Permutation_length, (H l). Qed.

Lemma distinctDates_perm l l' : Permutation l l' -> distinctDates l -> distinctDates l'.
Proof.
  intros Hp [Hv Hn]; split.
  - exact (Permutation_Forall Hp Hv).
  - exact (Permutation_NoDup (Permutation_map createdAt Hp) Hn).
Qed.

Lemma distinctDates_NoDup l : distinctDates l -> List.NoDup l.
Proof. intros [_ Hn]; exact (NoDup_map_inv createdAt l Hn). Qed.

Lemma same_date_same_order x y l :
  distinctDates (x :: l) -> In y (x :: l) ->
  olderThan x y = false -> olderThan y x = false -> x = y.
Proof.
  intros [Hv Hn] [E|Hy] Hxy Hyx; [exact E|].
  exfalso.
  inversion_clear Hv as [|? ? (tx & Ex) Hv'].
  rewrite List.Forall_forall in Hv'; destruct (Hv' y Hy) as (ty & Ey).
  unfold olderThan in Hxy, Hyx; rewrite Ex, Ey in Hxy, Hyx.
  apply Z.ltb_ge in Hxy, Hyx.
  assert (E : tx = ty) by lia; subst ty.
  cbn [map] in Hn; inversion_clear Hn as [|? ? Hnot _].
  apply Hnot; rewrite Ex, <- Ey; apply in_map; exact Hy.
Qed.

(** Orders of pairwise different dates have one arrangement from newest
    to oldest. *)
Lemma newest_first_unique l1 :
  forall l2,
    Permutation l1 l2 -> distinctDates l1 ->
    StronglySorted (fun a b => olderThan a b = false) l1 ->
    StronglySorted (fun a b => olderThan a b = false) l2 ->
    l1 = l2.
Proof.
  induction l1 as [|x l1 IH]; intros l2 Hp Hd H1 H2.
  - apply Permutation_nil in Hp; symmetry; exact Hp.
  - destruct l2 as [|y l2]; [apply Permutation_sym, Permutation_nil in Hp; discriminate|].
    inversion H1 as [|? ? H1' Hx]; inversion H2 as [|? ? H2' Hy]; subst.
    rewrite List.Forall_forall in Hx, Hy.
    assert (Hyin : In y (x :: l1)).
    { apply (Permutation_in _ (Permutation_sym Hp)); left; reflexivity. }
    assert (Hxin : In x (y :: l2)).
    { apply (Permutation_in _ Hp); left; reflexivity. }
    assert (E : x = y).
    { destruct Hyin as [E|Hyin]; [exact E|].
      destruct Hxin as [E|Hxin]; [symmetry; exact E|].
      apply (same_date_same_order x y l1 Hd); [right; exact Hyin | apply Hx; exact Hyin
                                              | apply Hy; exact Hxin]. }
    subst y; f_equal.
    apply IH; [exact (Permutation_cons_inv Hp) | | exact H1' | exact H2'].
    destruct Hd as [Hv Hn]; split; [inversion Hv; assumption|].
    cbn [map] in Hn; inversion Hn; assumption.
Qed.

Lemma newestFirst_distinct sorted l :
  newestFirst sorted -> distinctDates l -> sorted l = sortNewest l.
Proof.
  intros Hs Hd; destruct (Hs l) as [Hp Hsorted].
  apply newest_first_unique; [| |exact Hsorted|apply sortNewest_sorted].
  - rewrite Hp; symmetry; apply sortNewest_perm.
  - exact (distinctDates_perm _ _ (Permutation_sym Hp) Hd).
Qed.

Lemma listOrders_window w sorted odd store query L P :
  newestFirst sorted ->
  readsAs w (queryValue (JNum 20) (q_limit query)) L ->
  readsAs w (queryValue (JNum 1) (q_page query)) P ->
  1 <= L -> 1 <= P ->
  let found := sorted (List.filter (matches (statusFilter query)) store) in
  exists T,
    listOrders w sorted odd store query =
      Listed (mkOrderPage (take L (drop ((P - 1) * L) found)) (Some (Z.of_nat T))
                (queryValue (JNum 1) (q_page query)) (length found))
    /\ length found <= T * L < length found + L.
Proof.
  intros Hs (ql & Hl & El) (qp & Hp & Ep) HL HP; cbv zeta.
  destruct (ceilDiv_reads ql (length (List.filter (matches (statusFilter query)) store)) L
              El HL) as (T & HT & Hbound).
  exists T; split; [|rewrite (newestFirst_length sorted _ Hs); exact Hbound].
  unfold listOrders; rewrite Hl, Hp; cbn [bind].
  unfold window; rewrite (limit_reads ql L El), (skip_reads qp ql P L Ep El HP).
  destruct L as [|l]; [lia|]; cbn [Nat.eqb bind].
  rewrite HT, (newestFirst_length sorted _ Hs); reflexivity.
Qed.

(** X15. [GET /api/orders] with a limit [L >= 1] and a page
    [P >= 1] (20 and 1 when absent), for whichever arrangement from
    newest to oldest the store gives the matching orders at this request:
    the answer holds the orders [(P-1)L+1 .. PL] of that arrangement,
    hence at most [L] of them, which are matching orders from newest to
    oldest; [totalOrders] counts the matching orders; [totalPages] is the
    least [T] with [T * L >= totalOrders]; [currentPage] is the page as
    sent. Pages before the last are full and pages after it are empty.
    When the matching orders have pairwise different dates the
    arrangement, and with it the page, is determined by the collection. *)
Theorem page_of_orders :
  forall (w : World) (sorted : DateSort) (odd : OddWindow) (store : Store)
         (query : ListQuery) (L P : nat),
    newestFirst sorted ->
    readsAs w (queryValue (JNum 20) (q_limit query)) L ->
    readsAs w (queryValue (JNum 1) (q_page query)) P ->
    1 <= L -> 1 <= P ->
    let matching := List.filter (matches (statusFilter query)) store in
    exists page T,
      listOrders w sorted odd store query = Listed page
      /\ orders page = take L (drop ((P - 1) * L) (sorted matching))
      /\ Permutation (sorted matching) matching
      /\ StronglySorted (fun a b => olderThan a b = false) (sorted matching)
      /\ (distinctDates matching ->
          orders page = take L (drop ((P - 1) * L) (sortNewest matching)))
      /\ length (orders page) <= L
      /\ totalOrders page = length matching
      /\ totalPages page = Some (Z.of_nat T)
      /\ totalOrders page <= T * L < totalOrders page + L
      /\ currentPage page = queryValue (JNum 1) (q_page query)
      /\ (P < T -> length (orders page) = L)
      /\ (T < P -> orders page = []).
Proof.
  intros w sorted odd store query L P Hs Hl Hp HL HP; cbv zeta.
  destruct (listOrders_window w sorted odd store query L P Hs Hl Hp HL HP) as (T & -> & Hb).
  eexists; exists T; split; [reflexivity|]; cbn [orders totalOrders totalPages currentPage].
  set (matching := List.filter _ store) in *.
  split; [reflexivity|].
  split; [apply (Hs matching)|].
  split; [apply (Hs matching)|].
  split; [intros Hd; rewrite (newestFirst_distinct sorted matching Hs Hd); reflexivity|].
  split; [rewrite length_take; lia|].
  split; [apply (newestFirst_length sorted _ Hs)|].
  split; [reflexivity|].
  split; [exact Hb|].
  split; [reflexivity|].
  split.
  - intros HPT; rewrite length_take, length_drop. nia.
  - intros HTP; apply nil_length_inv; rewrite length_take, length_drop. nia.
Qed.

Lemma page_of_orders_witness :
  readsAs readingWorld (JStr "2") 2
  /\ exists page,
       listOrders readingWorld sortNewest strictWindow threeOrders
         (mkListQuery None (Some "2") (Some "2")) = Listed page
       /\ orders page = [stamped 1%N "HM250115001" "pending" 100]
       /\ totalOrders page = 3
       /\ totalPages page = Some 2%Z.
Proof.
  assert (H2 : readsAs readingWorld (JStr "2") 2) by (exists 2%Q; split; reflexivity).
  split; [exact H2|].
  destruct (page_of_orders readingWorld sortNewest strictWindow threeOrders
              (mkListQuery None (Some "2") (Some "2")) 2 2)
    as (page & T & Hr & Ho & _ & _ & _ & _ & Hn & Ht & Hb & _).
  - intros l; split; [apply sortNewest_perm | apply sortNewest_sorted].
  - exact H2.
  - exact H2.
  - lia.
  - lia.
  - exists page; split; [exact Hr|]. split; [exact Ho|]. split; [exact Hn|].
    rewrite Ht; rewrite Hn in Hb; cbn in Hb.
    assert (T = 2) by lia. subst T; reflexivity.
Defined.

(** X16. For a fixed collection, status and limit whose matching orders
    have pairwise different dates, the pages 1 to [T] of
    [GET /api/orders], where [T] pages suffice and each page is a request
    of its own that the store sorts for itself, put end to end are the
    matching orders from newest to oldest: every matching order is on
    exactly one page, and no page is longer than the limit. *)
Theorem pages_partition_the_orders :
  forall (w : World) (sorterOf : nat -> DateSort) (odd : OddWindow) (store : Store)
         (st limit : option string) (text : nat -> string) (L T : nat),
    (forall p, newestFirst (sorterOf p)) ->
    readsAs w (queryValue (JNum 20) limit) L ->
    1 <= L ->
    (forall p, 1 <= p <= T -> readsAs w (JStr (text p)) p) ->
    let matching := List.filter (matches (statusFilter (mkListQuery st None limit))) store in
    distinctDates matching ->
    length matching <= T * L ->
    let pages :=
      map (fun p => ordersOf (listOrders w (sorterOf p) odd store
                                (mkListQuery st (Some (text p)) limit)))
        (seq 1 T) in
    concat pages = sortNewest matching
    /\ Permutation (concat pages) matching
    /\ List.NoDup (concat pages)
    /\ Forall (fun page => length page <= L) pages.
Proof.
  intros w sorterOf odd store st limit text L T Hs Hl HL Htext matching Hd Hlen; cbv zeta.
  set (found := sortNewest matching).
  assert (Hpages :
    map (fun p => ordersOf (listOrders w (sorterOf p) odd store
                              (mkListQuery st (Some (text p)) limit)))
      (seq 1 T)
    = map (fun p => take L (drop ((p - 1) * L) found)) (seq 1 T)).
  { apply map_ext_in; intros p Hp; apply in_seq in Hp.
    destruct (listOrders_window w (sorterOf p) odd store
                (mkListQuery st (Some (text p)) limit) L p)
      as (T' & -> & _); [apply Hs | exact Hl | apply Htext; lia | exact HL | lia |].
    cbn [ordersOf orders].
    change (List.filter (matches (statusFilter (mkListQuery st (Some (text p)) limit))) store)
      with matching.
    rewrite (newestFirst_distinct (sorterOf p) matching (Hs p) Hd); reflexivity. }
  rewrite Hpages.
  assert (Hc : concat (map (fun p => take L (drop ((p - 1) * L) found)) (seq 1 T)) = found).
  { apply chunks; [exact HL|]. unfold found; rewrite sortNewest_length; exact Hlen. }
  split; [exact Hc|]. split; [rewrite Hc; apply sortNewest_perm|].
  split.
  - rewrite Hc; apply distinctDates_NoDup.
    exact (distinctDates_perm _ _ (Permutation_sym (sortNewest_perm matching)) Hd).
  - apply List.Forall_forall; intros page Hin.
    apply in_map_iff in Hin as (p & <- & _). rewrite length_take; lia.
Qed.

(** X17. The orders of a page are orders of the collection, sorted
    from newest to oldest. With a [status] other than "" and "all" every
    listed order has that status and [totalOrders] counts the orders of
    that status; without [status], or with "" or "all", [totalOrders]
    counts the whole collection. *)
Theorem listed_orders_match_the_filter :
  forall (w : World) (sorted : DateSort) (odd : OddWindow) (store : Store)
         (query : ListQuery) (L P : nat),
    newestFirst sorted ->
    readsAs w (queryValue (JNum 20) (q_limit query)) L ->
    readsAs w (queryValue (JNum 1) (q_page query)) P ->
    1 <= L -> 1 <= P ->
    exists page,
      listOrders w sorted odd store query = Listed page
      /\ (forall o, In o (orders page) -> In o store)
      /\ (forall s, q_status query = Some s -> s <> "" -> s <> "all" ->
            (forall o, In o (orders page) -> status o = Val s)
            /\ totalOrders page =
                 length (List.filter
                           (fun o => match status o with
                                     | Val s' => String.eqb s' s
                                     | _ => false
                                     end) store))
      /\ (q_status query = None \/ q_status query = Some "" \/ q_status query = Some "all" ->
          totalOrders page = length store)
      /\ StronglySorted (fun a b => olderThan a b = false) (orders page).
Proof.
  intros w sorted odd store query L P Hsorted Hl Hp HL HP.
  destruct (listOrders_window w sorted odd store query L P Hsorted Hl Hp HL HP)
    as (T & -> & _).
  eexists; split; [reflexivity|]; cbn [orders totalOrders].
  assert (Hin : forall o,
            In o (take L (drop ((P - 1) * L)
                            (sorted (List.filter (matches (statusFilter query)) store)))) ->
            In o store /\ matches (statusFilter query) o = true).
  { intros o Ho; apply In_take_drop in Ho.
    apply (Permutation_in _ (proj1 (Hsorted _))) in Ho.
    apply filter_In in Ho; exact Ho. }
  split; [intros o Ho; apply (Hin o Ho)|].
  split; [|split].
  - intros s Hs Hne Hall.
    assert (Hf : statusFilter query = Some s).
    { unfold statusFilter; rewrite Hs; cbn.
      apply String.eqb_neq in Hne, Hall; rewrite Hne, Hall; reflexivity. }
    rewrite Hf in *; split.
    + intros o Ho; destruct (Hin o Ho) as [_ Hm]; cbn in Hm.
      destruct (status o) as [| |s']; try discriminate.
      apply String.eqb_eq in Hm; congruence.
    + rewrite (newestFirst_length sorted _ Hsorted); reflexivity.
  - intros Hs.
    assert (Hf : statusFilter query = None).
    { unfold statusFilter; destruct Hs as [->|[->| ->]]; reflexivity. }
    rewrite Hf, (newestFirst_length sorted _ Hsorted); cbn [matches].
    rewrite filter_all; reflexivity.
  - apply StronglySorted_take, StronglySorted_drop, (Hsorted _).
Qed.

(** * Product data *)

Lemma splitOn_pieces s : Forall (fun t => occurs "," t = false) (splitOn "," s)
                         /\ splitOn "," s <> [].
Proof.
  induction s as [|c s [IH Hne]]; cbn [splitOn].
  - split; [repeat constructor | discriminate].
  - destruct (Ascii.eqb c ",") eqn:E.
    + split; [constructor; [reflexivity | exact IH] | discriminate].
    + destruct (splitOn "," s) as [|piece pieces]; [congruence|].
      inversion_clear IH as [|? ? Hp Hps].
      split; [|discriminate].
      constructor; [cbn [occurs]; rewrite E, Hp; reflexivity | exact Hps].
Qed.

Lemma occurs_trimStart c s : occurs c s = false -> occurs c (trimStart s) = false.
Proof.
  induction s as [|c' s IH]; cbn [trimStart occurs]; [reflexivity|].
  intros H; apply orb_false_iff in H as [H1 H2].
  destruct (isWhiteSpace c'); [apply IH; exact H2|].
  cbn [occurs]; rewrite H1, H2; reflexivity.
Qed.

Lemma occurs_trimEnd c s : occurs c s = false -> occurs c (trimEnd s) = false.
Proof.
  induction s as [|c' s IH]; cbn [trimEnd occurs]; [reflexivity|].
  intros H; apply orb_false_iff in H as [H1 H2].
  destruct (isWhiteSpace c' && String.eqb (trimEnd s) ""); [reflexivity|].
  cbn [occurs]; rewrite H1, (IH H2); reflexivity.
Qed.

Lemma nonempty_length (t : string) : Nat.ltb 0 (String.length t) = true <-> t <> "".
Proof. destruct t; cbn; split; intros; congruence || discriminate. Qed.

Lemma splitOn_piece t rest :
  occurs "," t = false -> splitOn "," (t ++ String "," rest) = t :: splitOn "," rest.
Proof.
  induction t as [|c t IH]; intros H; [reflexivity|].
  cbn [occurs] in H; apply orb_false_iff in H as [H1 H2].
  rewrite append_cons; cbn [splitOn]; rewrite H1, (IH H2); reflexivity.
Qed.

Lemma splitOn_whole t : occurs "," t = false -> splitOn "," t = [t].
Proof.
  induction t as [|c t IH]; intros H; [reflexivity|].
  cbn [occurs] in H; apply orb_false_iff in H as [H1 H2].
  cbn [splitOn]; rewrite H1, (IH H2); reflexivity.
Qed.

Lemma trim_after_space s : trim (String " " s) = trim s.
Proof. reflexivity. Qed.

Lemma parse_joined l :
  l <> [] -> Forall cleanNote l ->
  map trim (splitOn "," (String.concat ", " l)) = l.
Proof.
  induction l as [|a l IH]; [congruence|]; intros _ H.
  inversion_clear H as [|? ? (Ha1 & Ha2 & Ha3) Hl].
  destruct l as [|b l].
  - cbn [String.concat]; rewrite (splitOn_whole a Ha3); cbn; rewrite Ha2; reflexivity.
  - specialize (IH ltac:(discriminate) Hl).
    change (String.concat ", " (a :: b :: l))
      with (a ++ String "," (String " " (String.concat ", " (b :: l)))).
    revert IH; generalize (String.concat ", " (b :: l)); intros R IH.
    rewrite (splitOn_piece a _ Ha3); cbn [map]; rewrite Ha2; f_equal.
    cbn [splitOn]; change (Ascii.eqb " " ",") with false; cbv iota.
    destruct (splitOn_pieces R) as [_ Hne].
    destruct (splitOn "," R) as [|piece pieces]; [congruence|].
    cbn [map] in *; rewrite trim_after_space; exact IH.
Qed.

Lemma allWhiteSpace_no_comma s : allWhiteSpace s = true -> occurs "," s = false.
Proof.
  induction s as [|c s IH]; cbn [allWhiteSpace occurs]; [reflexivity|].
  intros H; apply andb_prop in H as [Hc Hs]; rewrite (IH Hs), orb_false_r.
  destruct (Ascii.eqb c ",") eqn:E; [|reflexivity].
  apply Ascii.eqb_eq in E; subst; discriminate Hc.
Qed.

(** X18. The notes of a product. From a text, the routes keep the
    pieces between commas, trimmed, without the empty ones: every note is
    non-empty, trimmed and free of commas. A list of such notes joined by
    ", " is read back as that list. A text of white space gives no note,
    an array is taken as it is, and a missing value gives no note. *)
Theorem notes_of_a_product :
  (forall s, Forall (fun note => exists t, note = JStr t /\ cleanNote t) (parseNotes (JStr s)))
  /\ (forall l, l <> [] -> Forall cleanNote l ->
        parseNotes (JStr (String.concat ", " l)) = map JStr l)
  /\ (forall s, allWhiteSpace s = true -> parseNotes (JStr s) = [])
  /\ (forall l, parseNotes (JArr l) = l)
  /\ (forall v, falsy v = true -> parseNotes v = []).
Proof.
  split; [|split; [|split; [|split]]].
  - intros s; unfold parseNotes; destruct (truthy (JStr s)); [|constructor].
    apply List.Forall_forall; intros note Hin.
    apply in_map_iff in Hin as (t & <- & Ht).
    apply filter_In in Ht as [Ht Hlen]; apply nonempty_length in Hlen.
    apply in_map_iff in Ht as (piece & <- & Hp).
    exists (trim piece); split; [reflexivity|].
    split; [exact Hlen|]. split; [apply trim_idem|].
    destruct (splitOn_pieces s) as [Hall _].
    rewrite List.Forall_forall in Hall.
    unfold trim; apply occurs_trimEnd, occurs_trimStart, Hall; exact Hp.
  - intros l Hne Hl; unfold parseNotes.
    assert (Ht : truthy (JStr (String.concat ", " l)) = true).
    { destruct l as [|a l]; [congruence|].
      inversion_clear Hl as [|? ? (Ha & _) _].
      destruct a as [|c a]; [congruence|].
      destruct l; reflexivity. }
    rewrite Ht, (parse_joined l Hne Hl); f_equal.
    apply forallb_filter_id, forallb_forall; intros t Hin.
    rewrite List.Forall_forall in Hl; apply nonempty_length, (Hl t Hin).
  - intros s Hs; unfold parseNotes; destruct (truthy (JStr s)); [|reflexivity].
    rewrite (splitOn_whole _ (allWhiteSpace_no_comma s Hs)); cbn [map].
    rewrite (trim_blank s Hs); reflexivity.
  - intros l; reflexivity.
  - intros v Hv; unfold parseNotes; unfold falsy in Hv.
    destruct (truthy v); [discriminate | reflexivity].
Qed.

Lemma notes_of_a_product_witness :
  Forall cleanNote ["Oud"; "Rose"; "Gold Accents"]
  /\ parseNotes (JStr "Oud, Rose, Gold Accents") =
       [JStr "Oud"; JStr "Rose"; JStr "Gold Accents"].
Proof.
  assert (H : Forall cleanNote ["Oud"; "Rose"; "Gold Accents"]).
  { repeat constructor; discriminate. }
  split; [exact H|].
  apply (proj1 (proj2 notes_of_a_product) ["Oud"; "Rose"; "Gold Accents"]);
    [discriminate | exact H].
Defined.

Lemma lowerChar_idem c : lowerChar (lowerChar c) = lowerChar c.
Proof. destruct c as [[] [] [] [] [] [] [] []]; reflexivity. Qed.

Lemma toLowerCase_idem s : toLowerCase (toLowerCase s) = toLowerCase s.
Proof.
  induction s as [|c s IH]; cbn [toLowerCase]; [reflexivity|].
  rewrite lowerChar_idem, IH; reflexivity.
Qed.

(** X19. In the product data of [POST] and [PUT /api/products],
    [inStock] is true exactly when the stored quantity is positive; a
    quantity that does not parse is stored as 0; the category is stored
    in lower case, the notes are the parsed notes, and a missing badge is
    the empty string. A body without a text [category] makes the route
    throw a [TypeError] before anything is stored. *)
Theorem stock_flag_follows_quantity :
  forall (parseFloat : JsVal -> option Q) (parseInt : JsVal -> option Z)
         (reqBody : JsVal) (file : option string),
    (forall pd, productData parseFloat parseInt reqBody file = Normal pd ->
       (pd_inStock pd = true <-> (0 < pd_quantity pd)%Z)
       /\ (parseInt (read reqBody "quantity") = None -> pd_quantity pd = 0%Z)
       /\ (exists s, read reqBody "category" = JStr s /\ pd_category pd = toLowerCase s)
       /\ toLowerCase (pd_category pd) = pd_category pd
       /\ pd_notes pd = parseNotes (read reqBody "notes")
       /\ (falsy (read reqBody "badge") = true -> pd_badge pd = JStr ""))
    /\ (nullish reqBody = false ->
        (forall s, read reqBody "category" <> JStr s) ->
        exists msg, productData parseFloat parseInt reqBody file = Throw (TypeError msg)).
Proof.
  intros parseFloat parseInt reqBody file; split.
  - intros pd; unfold productData.
    destruct (nullish reqBody) eqn:Hn.
    { destruct reqBody; discriminate. }
    rewrite !(getProp_read reqBody) by exact Hn; cbn [bind].
    destruct (callToLowerCase (read reqBody "category")) as [lowered| |] eqn:Hc;
      try discriminate; cbn [bind].
    intros [= <-]; cbn [pd_inStock pd_quantity pd_category pd_notes pd_badge].
    split; [|split; [|split; [|split; [|split]]]].
    + destruct (parseInt (read reqBody "quantity")) as [n|]; [|split; [discriminate|lia]].
      destruct (Z.eqb n 0) eqn:E.
      * apply Z.eqb_eq in E; subst n; cbn; split; [discriminate|lia].
      * apply Z.ltb_lt.
    + intros ->; reflexivity.
    + destruct (read reqBody "category"); try discriminate Hc.
      injection Hc as <-; eexists; split; reflexivity.
    + destruct (read reqBody "category"); try discriminate Hc.
      injection Hc as <-; apply toLowerCase_idem.
    + reflexivity.
    + unfold orVal, falsy; intros H; destruct (truthy (read reqBody "badge"));
        [discriminate | reflexivity].
  - intros Hn Hcat; unfold productData.
    rewrite !(getProp_read reqBody) by exact Hn; cbn [bind].
    destruct (read reqBody "category") as [| | | | |s| | |] eqn:E;
      try (eexists; reflexivity).
    destruct (Hcat s); reflexivity.
Qed.

(** * Delivery, payment and notes as stored; repeated requests *)

Lemma optional_text w path t x :
  trimOr (JStr t) JUndefined = Normal x ->
  fst (stringPath w true Unset path (kept x)) =
    if String.eqb (trim t) "" then Unset else Val (trim t).
Proof.
  intros H; apply kept_trimOr in H as [[Hb ->]|(s & Es & Hs & ->)].
  - destruct Hb as [Hf|(s & Es & Hs)].
    + destruct t; [reflexivity | discriminate Hf].
    + injection Es as <-; rewrite Hs; reflexivity.
  - injection Es as <-; cbn [stringPath fst]; rewrite trim_idem.
    apply String.eqb_neq in Hs; rewrite Hs; reflexivity.
Qed.

Lemma validateDoc_delivery o :
  validateDoc o = [] ->
  fieldTruthy (address (delivery o)) = true /\ fieldTruthy (city (delivery o)) = true
  /\ fieldTruthy (method (payment o)) = true.
Proof.
  unfold validateDoc; intros H; apply concat_nil_Forall in H.
  repeat match goal with H : Forall _ (_ :: _) |- _ => inversion_clear H end.
  repeat match goal with
         | H : requiredString _ _ ?f = [] |- _ =>
             unfold requiredString in H; destruct (fieldTruthy f) eqn:?; [clear H|discriminate H]
         end.
  auto.
Qed.

Lemma includes_In l v : includes l v = true -> exists s, v = JStr s /\ In s l.
Proof.
  unfold includes; intros H; apply existsb_exists in H as (s & Hs & E).
  destruct v; try discriminate E; cbn in E.
  apply String.eqb_eq in E; subst; eauto.
Qed.

(** X20. The rest of an accepted order as stored: address and city are
    the payload's texts trimmed, and not empty; the payment method is the
    payload's, "bkash" or "cod"; a transaction id, an email and a postal
    code sent as text are stored trimmed, or not at all when they trim to
    the empty text; order notes sent as text are stored trimmed. With
    "bkash" the payload has a non-empty text as transaction id, which is
    nevertheless not stored when it is white space only. *)
Theorem delivery_and_payment_as_stored :
  forall (w : World) (store : Store) (od : JsVal) (saved : Order) (store' : Store),
    placeOrder w store od = Normal (saved, store') ->
    let d := read od "delivery" in
    let p := read od "payment" in
    let optional t := if String.eqb (trim t) "" then Unset else Val (trim t) in
    (exists a c,
        read d "address" = JStr a /\ trim a <> "" /\ address (delivery saved) = Val (trim a)
        /\ read d "city" = JStr c /\ trim c <> "" /\ city (delivery saved) = Val (trim c))
    /\ (exists m, read p "method" = JStr m /\ In m paymentMethods
                  /\ method (payment saved) = Val m)
    /\ (forall t, read p "transactionId" = JStr t ->
          transactionId (payment saved) = optional t)
    /\ (forall e, read (read od "customer") "email" = JStr e ->
          email (customer saved) = optional e)
    /\ (forall z, read d "postalCode" = JStr z -> postalCode (delivery saved) = optional z)
    /\ (forall n, read od "orderNotes" = JStr n -> orderNotes saved = Val (trim n))
    /\ (read p "method" = JStr "bkash" ->
        exists t, read p "transactionId" = JStr t /\ t <> ""
                  /\ (allWhiteSpace t = true -> transactionId (payment saved) = Unset)).
Proof.
  intros w store od saved store' Hp; cbv zeta.
  apply placeOrder_Normal in Hp as (Hchecks & k & Hk & _ & _ & Hv & -> & _).
  destruct Hk as (_ & _ & _ & He & Ha & Hc & Hpc & Htx & _ & _ & _ & _ & Hnotes).
  apply validateDoc_delivery in Hv; revert Hv.
  rewrite preSave_delivery, preSave_payment, preSave_customer.
  assert (Hon : orderNotes (preSave w (fst (hydrate w (literalOf w od k))))
                = orderNotes (fst (hydrate w (literalOf w od k))))
    by (unfold preSave; destruct (negb _); reflexivity).
  rewrite Hon; clear Hon.
  unfold literalOf; rewrite hydrate_literal;
    cbn [fst customer delivery payment address city method transactionId email postalCode
         orderNotes stringPath].
  intros (Hta & Htc & Htm).
  assert (Hmethod : exists m, read (read od "payment") "method" = JStr m
                              /\ In m paymentMethods).
  { unfold passesChecks in Hchecks.
    repeat (apply andb_prop in Hchecks as [Hchecks ?]).
    match goal with H : negb (methodInvalid od) = true |- _ =>
      apply negb_true_iff in H; unfold methodInvalid in H;
      apply orb_false_iff in H as [_ H]; apply negb_false_iff in H;
      apply includes_In in H; exact H end. }
  assert (Htext : forall t, read (read od "payment") "transactionId" = JStr t ->
            fst (stringPath w true Unset "payment.transactionId" (kept (c_transactionId k)))
            = if String.eqb (trim t) "" then Unset else Val (trim t)).
  { intros t E; rewrite E in Htx; apply (optional_text w _ t _ Htx). }
  split; [|split; [|split; [|split; [|split; [|split]]]]].
  - exists (c_address k), (c_city k); rewrite trim_idem in Hta; rewrite trim_idem in Htc.
    cbn [fieldTruthy] in Hta, Htc.
    apply negb_true_iff, String.eqb_neq in Hta; apply negb_true_iff, String.eqb_neq in Htc.
    rewrite !trim_idem; auto 10.
  - destruct Hmethod as (m & Em & Hin); exists m; rewrite Em; auto.
  - exact Htext.
  - intros e E; rewrite E in He; apply (optional_text w _ e _ He).
  - intros z E; rewrite E in Hpc; apply (optional_text w _ z _ Hpc).
  - intros n E; rewrite E in Hnotes; unfold trimOr in Hnotes.
    destruct n as [|c n]; cbn in Hnotes; injection Hnotes as <-; reflexivity.
  - intros Eb.
    unfold passesChecks in Hchecks.
    repeat (apply andb_prop in Hchecks as [Hchecks ?]).
    match goal with H : negb (transactionMissing od) = true |- _ =>
      apply negb_true_iff in H; unfold transactionMissing in H;
      rewrite Eb in H; cbn [isStr String.eqb Ascii.eqb Bool.eqb andb] in H;
      rename H into Hmissing end.
    unfold falsy in Hmissing; apply negb_false_iff in Hmissing.
    unfold trimOr in Htx; rewrite Hmissing in Htx.
    apply callTrim_Normal in Htx as (t & Et & _).
    exists t; split; [exact Et|]. split.
    + intros ->; rewrite Et in Hmissing; discriminate Hmissing.
    + intros Hws; rewrite (Htext t Et), (trim_blank t Hws); reflexivity.
Qed.

(** X21. The order routes never delete: [POST /api/orders] either
    answers 201 and appends the new order to the collection, or answers
    something else and leaves the collection as it was;
    [PUT /api/orders/:id] keeps the number of stored orders and their ids
    and order numbers, position by position. *)
Theorem orders_are_only_appended :
  forall (w : World) (store : Store),
    (forall od,
        (code (response (createOrder w store od)) = 201 ->
         exists saved,
           response (createOrder w store od) = orderPlaced saved
           /\ collection (createOrder w store od) = (store ++ [saved])%list)
        /\ (code (response (createOrder w store od)) <> 201 ->
            collection (createOrder w store od) = store))
    /\ (forall id reqBody,
          length (collection (updateOrder w store id reqBody)) = length store
          /\ map identity (collection (updateOrder w store id reqBody)) = map identity store).
Proof.
  intros w store; split.
  - intros od; unfold createOrder.
    destruct (createOrderWith_cases (sendOrderConfirmation w) w store od)
      as [(saved & store' & Hp & ->)|(Hc & Hs & _)].
    + cbn [response collection]; split; [|intros H; destruct H; reflexivity].
      intros _; exists saved; split; [reflexivity|].
      apply placed_number in Hp as (_ & _ & ->); reflexivity.
    + split; [|intros _; exact Hs].
      intros H; destruct Hc as [Hc|Hc]; rewrite Hc in H; discriminate H.
  - intros id reqBody.
    assert (Hm : map identity (collection (updateOrder w store id reqBody))
                 = map identity store).
    { destruct (updateOrder_collection w store id reqBody) as [->|(o & o' & Hf & Hi & ->)];
        [reflexivity|].
      apply (map_replaceById identity store id o o' Hf Hi). }
    split; [|exact Hm].
    rewrite <- (length_map identity), Hm, length_map; reflexivity.
Qed.

Lemma castSupplied_world w w' key supplied v :
  v = JUndefined \/ (exists s, v = JStr s) ->
  castSupplied w key supplied v = castSupplied w' key supplied v.
Proof. intros [->|(s & ->)]; destruct supplied; reflexivity. Qed.

Lemma absentOrOneOf_text values v :
  absentOrOneOf values v -> v = JUndefined \/ (exists s, v = JStr s).
Proof. intros [->|(s & -> & _)]; eauto. Qed.

Lemma differs_same s : differs (JStr s) (Val s) = false.
Proof. cbn; rewrite String.eqb_refl; reflexivity. Qed.

(** X22. Repeating an update does not notify again: after a well-typed
    update of an existing order was accepted, the same body sent once
    more for the same id is accepted too and notifies nobody, whatever
    happened to the clock and the mail transport in between. *)
Theorem repeated_update_notifies_once :
  forall (w w' : World) (store : Store) (id : ObjectId) (reqBody : JsVal) (o : Order),
    findById store id = Some o ->
    wellTypedUpdate reqBody ->
    let first := updateOrder w store id reqBody in
    let second := updateOrder w' (collection first) id reqBody in
    code (response first) = 200
    /\ code (response second) = 200
    /\ notification second = None
    /\ forall o1 o2,
         response first = mkResponse 200 (OrderBody o1) ->
         response second = mkResponse 200 (OrderBody o2) ->
         status o2 = status o1 /\ adminNotes o2 = adminNotes o1
         /\ payment_status (payment o2) = payment_status (payment o1)
         /\ frame o2 = frame o1.
Proof.
  intros w w' store id reqBody o Hf Hw; cbv zeta.
  destruct (findById_Some _ _ _ Hf) as [Hid _].
  destruct (updateOrder_cases w store id reqBody o Hf)
    as [(msg & Hout)|(fs & fa & fp & Hout & Es & Ea & Ep & _)].
  { destruct (wellTypedUpdate_accepted w store id reqBody o Hf Hw) as (? & ? & ? & Hacc).
    rewrite Hacc in Hout; discriminate Hout. }
  rewrite Hout; cbn [response collection code].
  assert (Hf' : findById (replaceById id (updated w fs fa fp o) store) id
                = Some (updated w fs fa fp o)).
  { apply (findById_replaceById _ _ o); [exact Hf | rewrite updated_id; exact Hid]. }
  destruct (updateOrder_cases w' _ id reqBody _ Hf')
    as [(msg & Hout')|(fs' & fa' & fp' & Hout' & Es' & Ea' & Ep' & _)].
  { destruct (wellTypedUpdate_accepted w' _ id reqBody _ Hf' Hw) as (? & ? & ? & Hacc).
    rewrite Hacc in Hout'; discriminate Hout'. }
  rewrite Hout'; cbn [response collection code notification].
  pose proof Hw as (_ & Hws & Hwa & Hwp).
  rewrite (castSupplied_world w' w) in Es' by (eapply absentOrOneOf_text; exact Hws).
  rewrite (castSupplied_world w' w) in Ea' by exact Hwa.
  rewrite (castSupplied_world w' w) in Ep' by (eapply absentOrOneOf_text; exact Hwp).
  assert (Efs : fs' = fs) by congruence.
  assert (Efa : fa' = fa) by congruence.
  assert (Efp : fp' = fp) by congruence.
  subst fs' fa' fp'.
  split; [reflexivity|]. split; [reflexivity|]. split.
  - destruct Hw as (_ & [Hu|(s & E & Hin)] & _); rewrite ?Hu, ?E in *; [reflexivity|].
    assert (Ht : truthy (JStr s) = true).
    { apply truthy_JStr; intros ->; cbn in Hin; intuition discriminate. }
    rewrite Ht in Es |- *; cbn in Es; injection Es as <-.
    rewrite updated_status.
    change (default (status o) (Some (Val s))) with (Val s).
    rewrite differs_same; reflexivity.
  - intros o1 o2 E1 E2.
    injection E1 as <-; injection E2 as <-.
    rewrite !updated_status, !updated_adminNotes, !updated_paymentStatus, !updated_frame.
    destruct fs, fa, fp; repeat split.
Qed.

(** ** The further theorems at sample inputs *)

Lemma new_order_starts_pending_witness :
  placeOrder sampleWorld [] forgedPayload = Normal (sampleSaved, [sampleSaved])
  /\ status sampleSaved = Val "pending"
  /\ payment_status (payment sampleSaved) = Val "pending"
  /\ adminNotes sampleSaved = Val ""
  /\ createdAt sampleSaved = Val 1736899200000%Z
  /\ updatedAt sampleSaved = Val 1736899200250%Z.
Proof.
  assert (Hp : placeOrder sampleWorld [] forgedPayload = Normal (sampleSaved, [sampleSaved]))
    by (vm_compute; reflexivity).
  split; [exact Hp|].
  destruct (new_order_starts_pending sampleWorld [] forgedPayload sampleSaved [sampleSaved] Hp)
    as (Hs & Hps & Han & Hc & Hu & _).
  split; [exact Hs|]. split; [exact Hps|]. split; [exact Han|].
  split; [exact Hc | exact Hu].
Defined.

Lemma totals_stored_as_sent_witness :
  exists saved store',
    placeOrder sampleWorld [] underpaidPayload = Normal (saved, store')
    /\ read (read underpaidPayload "totals") "total" = JNum 1
    /\ total (totals saved) = Val 1%Q.
Proof.
  assert (Hp : exists saved store',
             placeOrder sampleWorld [] underpaidPayload = Normal (saved, store'))
    by (eexists _, _; vm_compute; reflexivity).
  destruct Hp as (saved & store' & Hp).
  exists saved, store'; split; [exact Hp|]. split; [reflexivity|].
  apply (proj1 (totals_stored_as_sent sampleWorld [] underpaidPayload saved store' Hp) 1%Q).
  reflexivity.
Defined.

Lemma stored_items_within_bounds_witness :
  placeOrder sampleWorld [] samplePayload = Normal (sampleSaved, [sampleSaved])
  /\ Forall2 itemStored (itemsOf (read samplePayload "items")) (items sampleSaved).
Proof.
  assert (Hp : placeOrder sampleWorld [] samplePayload = Normal (sampleSaved, [sampleSaved]))
    by (vm_compute; reflexivity).
  split; [exact Hp|].
  exact (proj1 (stored_items_within_bounds sampleWorld [] samplePayload sampleSaved
                  [sampleSaved] Hp)).
Defined.

Lemma placed_order_can_be_fetched_witness :
  placeOrder sampleWorld [] samplePayload = Normal (sampleSaved, [sampleSaved])
  /\ getOrder [sampleSaved] 1%N = mkResponse 200 (OrderBody sampleSaved).
Proof.
  assert (Hp : placeOrder sampleWorld [] samplePayload = Normal (sampleSaved, [sampleSaved]))
    by (vm_compute; reflexivity).
  split; [exact Hp|].
  exact (proj1 (placed_order_can_be_fetched sampleWorld [] samplePayload sampleSaved
                  [sampleSaved] Hp)).
Defined.

Lemma first_defective_item_decides_witness :
  passesChecks (JObj sampleMap) = true
  /\ itemOk pricedInText = false
  /\ createOrder sampleWorld []
       (JObj (<["items" := JArr (itemsOf sampleItems ++ pricedInText :: [JNull])]> sampleMap)) =
     mkOutcomeOf (reject 400 "Item price must be a positive number") [] None.
Proof.
  split; [vm_compute; reflexivity|]. split; [vm_compute; reflexivity|].
  exact (proj1 (first_defective_item_decides sampleWorld [] sampleMap (itemsOf sampleItems)
                  [JNull] pricedInText
                  ltac:(vm_compute; reflexivity) ltac:(vm_compute; reflexivity)
                  ltac:(reflexivity) ltac:(vm_compute; reflexivity))).
Defined.

Lemma pages_partition_the_orders_witness :
  readsAs readingWorld (JStr "2") 2
  /\ concat (map (fun p => ordersOf
                             (listOrders readingWorld
                                (if Nat.even p then sortNewest else fun l => sortNewest (rev l))
                                strictWindow threeOrders
                                (mkListQuery None (Some (natToString p)) (Some "2"))))
               (seq 1 2)) =
     [stamped 2%N "HM250115002" "shipped" 300; stamped 3%N "HM250115003" "pending" 200;
      stamped 1%N "HM250115001" "pending" 100].
Proof.
  assert (H2 : readsAs readingWorld (JStr "2") 2) by (exists 2%Q; split; reflexivity).
  split; [exact H2|].
  refine (proj1 (pages_partition_the_orders readingWorld
                   (fun p => if Nat.even p then sortNewest else fun l => sortNewest (rev l))
                   strictWindow threeOrders None
                   (Some "2") natToString 2 2 _ H2 _ _ _ _)).
  - intros p l; destruct (Nat.even p); split;
      [apply sortNewest_perm | apply sortNewest_sorted
      | rewrite sortNewest_perm; symmetry; apply Permutation_rev
      | apply sortNewest_sorted].
  - lia.
  - intros p Hp.
    destruct p as [|[|[|p]]]; [lia| | |lia].
    + exists 1%Q; split; reflexivity.
    + exact H2.
  - split.
    + repeat constructor; eexists; reflexivity.
    + cbn; repeat constructor; cbn; intuition discriminate.
  - cbn; lia.
Defined.

(** With two orders of one date, two requests whose sorts are both from
    newest to oldest can show the same order on page 1 and on page 2. *)
Example equal_dates_can_repeat_an_order :
  let twins := [stamped 1%N "HM250115001" "pending" 100;
                stamped 2%N "HM250115002" "pending" 100] in
  ordersOf (listOrders readingWorld sortNewest strictWindow twins
              (mkListQuery None (Some "1") (Some "1")))
  = [stamped 1%N "HM250115001" "pending" 100]
  /\ ordersOf (listOrders readingWorld (fun l => sortNewest (rev l)) strictWindow twins
                 (mkListQuery None (Some "2") (Some "1")))
     = [stamped 1%N "HM250115001" "pending" 100].
Proof. split; vm_compute; reflexivity. Qed.

Lemma listed_orders_match_the_filter_witness :
  exists page,
    listOrders sampleWorld sortNewest strictWindow threeOrders
      (mkListQuery (Some "pending") None None)
      = Listed page
    /\ totalOrders page = 2
    /\ forall o, In o (orders page) -> status o = Val "pending".
Proof.
  destruct (listed_orders_match_the_filter sampleWorld sortNewest strictWindow threeOrders
              (mkListQuery (Some "pending") None None) 20 1)
    as (page & Hr & _ & Hs & _).
  - intros l; split; [apply sortNewest_perm | apply sortNewest_sorted].
  - apply readsAs_number; reflexivity.
  - apply readsAs_number; reflexivity.
  - lia.
  - lia.
  - exists page; split; [exact Hr|].
    destruct (Hs "pending" eq_refl) as [Hall Hn]; [discriminate..|].
    split; [exact Hn | exact Hall].
Defined.

Lemma stock_flag_follows_quantity_witness :
  exists pd,
    productData sampleParseFloat sampleParseInt sampleProductForm None = Normal pd
    /\ pd_inStock pd = true
    /\ pd_category pd = "oriental"
    /\ pd_notes pd = [JStr "Oud"; JStr "Rose"; JStr "Gold Accents"].
Proof.
  assert (Hp : exists pd,
             productData sampleParseFloat sampleParseInt sampleProductForm None = Normal pd
             /\ pd_quantity pd = 10%Z)
    by (eexists; split; vm_compute; reflexivity).
  destruct Hp as (pd & Hp & Hq).
  exists pd; split; [exact Hp|].
  destruct (proj1 (stock_flag_follows_quantity sampleParseFloat sampleParseInt
                     sampleProductForm None) pd Hp)
    as (Hstock & _ & (s & Hs & Hc) & _ & Hn & _).
  split; [apply Hstock; rewrite Hq; reflexivity|].
  split.
  - rewrite Hc. injection Hs as <-. reflexivity.
  - rewrite Hn; vm_compute; reflexivity.
Defined.

Lemma delivery_and_payment_as_stored_witness :
  exists saved store',
    placeOrder sampleWorld [] blankTransactionPayload = Normal (saved, store')
    /\ read (read blankTransactionPayload "payment") "method" = JStr "bkash"
    /\ transactionId (payment saved) = Unset.
Proof.
  assert (Hp : exists saved store',
             placeOrder sampleWorld [] blankTransactionPayload = Normal (saved, store'))
    by (eexists _, _; vm_compute; reflexivity).
  destruct Hp as (saved & store' & Hp).
  exists saved, store'; split; [exact Hp|]. split; [reflexivity|].
  pose proof (delivery_and_payment_as_stored sampleWorld [] blankTransactionPayload saved
                store' Hp) as H.
  cbv zeta in H; destruct H as (_ & _ & _ & _ & _ & _ & Hb).
  destruct (Hb eq_refl) as (t & Et & _ & Hws).
  apply Hws. injection Et as <-. reflexivity.
Defined.

Lemma orders_are_only_appended_witness :
  code (response (createOrder sampleWorld [] samplePayload)) = 201
  /\ exists saved, collection (createOrder sampleWorld [] samplePayload) = [saved].
Proof.
  assert (Hc : code (response (createOrder sampleWorld [] samplePayload)) = 201)
    by (vm_compute; reflexivity).
  split; [exact Hc|].
  destruct (proj1 (proj1 (orders_are_only_appended sampleWorld []) samplePayload) Hc)
    as (saved & _ & Hs).
  exists saved; exact Hs.
Defined.

Lemma repeated_update_notifies_once_witness :
  findById [sampleSaved] 1%N = Some sampleSaved
  /\ wellTypedUpdate (JObj {["status" := JStr "shipped"]})
  /\ notification
       (updateOrder sampleWorld
          (collection (updateOrder laterWorld [sampleSaved] 1%N
                         (JObj {["status" := JStr "shipped"]})))
          1%N (JObj {["status" := JStr "shipped"]})) = None.
Proof.
  assert (Hw : wellTypedUpdate (JObj {["status" := JStr "shipped"]})).
  { split; [reflexivity|].
    split; [right; exists "shipped"; split; [reflexivity|cbn; auto 10]|].
    split; [left; reflexivity | left; reflexivity]. }
  split; [reflexivity|]. split; [exact Hw|].
  pose proof (repeated_update_notifies_once laterWorld sampleWorld [sampleSaved] 1%N
                (JObj {["status" := JStr "shipped"]}) sampleSaved eq_refl Hw) as H.
  cbv zeta in H; destruct H as (_ & _ & Hn & _). exact Hn.
Defined.
